(** * Multi-Agent-AI-System: the router, the tabular analyzer and the
    document analyzer

    A shallow embedding of [backend/agents/orchestrator_agent.py],
    [backend/agents/data_intelligence_agent.py] and
    [backend/agents/research_assistant_agent.py].

    Conventions.
    - Python [str] is [string]; texts are ASCII, so [str.lower] only moves
      ['A'..'Z'] and [str.isspace] is the ASCII white space.
    - Python [float] and numpy [float64] are Rocq's primitive binary64
      floats: every arithmetic operation and comparison below rounds as
      the interpreter does.  Constants are written in hexadecimal so that
      the value the source literal denotes is explicit.
    - A Python [dict] whose keys are built by the code is an association
      list in insertion order ([list (string * pyval)]).
    - A [try: ... except Exception as e] block is a computation in [Exc];
      [Raise msg] carries [str(e)].
    - Third-party libraries (NLTK, FAISS, the sentence encoder, plotly,
      the float reductions of numpy) are parameters of the sections that
      use them. *)

From Stdlib Require Import String Ascii List ZArith Bool Lia Floats.
From Stdlib Require Import Permutation Sorted DecimalString.
Import ListNotations.

Local Open Scope string_scope.
Local Open Scope list_scope.

#[local] Set Warnings "-register-all".

(* ================================================================== *)
(** * Python values and built-ins *)
(* ================================================================== *)

Module Py.

(** ** Strings *)

(** [c.lower()] on one ASCII character. *)
Definition lower_char (c : ascii) : ascii :=
  let n := nat_of_ascii c in
  if (65 <=? n)%nat && (n <=? 90)%nat then ascii_of_nat (n + 32) else c.

(** [s.lower()] *)
Fixpoint lower (s : string) : string :=
  match s with
  | EmptyString => EmptyString
  | String c r => String (lower_char c) (lower r)
  end.

(** [needle in hay] *)
Fixpoint contains (needle hay : string) : bool :=
  String.prefix needle hay ||
  match hay with
  | EmptyString => false
  | String _ r => contains needle r
  end.

(** [any(w in s for w in words)] *)
Definition any_in (words : list string) (s : string) : bool :=
  existsb (fun w => contains w s) words.

(** [c.isspace()] for ASCII: tab, LF, VT, FF, CR, FS, GS, RS, US, space. *)
Definition is_space (c : ascii) : bool :=
  let n := nat_of_ascii c in
  ((9 <=? n)%nat && (n <=? 13)%nat) || ((28 <=? n)%nat && (n <=? 32)%nat).

(** [c.isdigit()] for ASCII, which is what [\d] matches there. *)
Definition is_digit (c : ascii) : bool :=
  let n := nat_of_ascii c in (48 <=? n)%nat && (n <=? 57)%nat.

(** [s.split()]: the maximal runs of non-space characters.  [cur] is the
    word being read, reversed. *)
Fixpoint split_ws_aux (s : string) (cur : list ascii) : list string :=
  let flush (rest : list string) :=
    match cur with
    | [] => rest
    | _ => string_of_list_ascii (rev cur) :: rest
    end in
  match s with
  | EmptyString => flush []
  | String c r =>
      if is_space c then flush (split_ws_aux r []) else split_ws_aux r (c :: cur)
  end.

Definition split_ws (s : string) : list string := split_ws_aux s [].

(** [s.lstrip()], [s.rstrip()], [s.strip()] *)
Fixpoint lstrip (s : string) : string :=
  match s with
  | EmptyString => EmptyString
  | String c r => if is_space c then lstrip r else s
  end.

Fixpoint rstrip (s : string) : string :=
  match s with
  | EmptyString => EmptyString
  | String c r =>
      match rstrip r with
      | EmptyString => if is_space c then EmptyString else String c EmptyString
      | r' => String c r'
      end
  end.

Definition strip (s : string) : string := rstrip (lstrip s).

(** [sep.join(l)] *)
Definition join (sep : string) (l : list string) : string := String.concat sep l.

(** [s[:n]] *)
Definition take (n : nat) (s : string) : string := String.substring 0 n s.

(** ** Numbers *)

(** The source's decimal literals, as the binary64 values they denote. *)
Definition f0_1 : float := 0x1.999999999999ap-4%float.
Definition f0_2 : float := 0x1.999999999999ap-3%float.
Definition f0_3 : float := 0x1.3333333333333p-2%float.
Definition f0_5 : float := 0x1p-1%float.
Definition f0_7 : float := 0x1.6666666666666p-1%float.
Definition f0_8 : float := 0x1.999999999999ap-1%float.
Definition f0_9 : float := 0x1.ccccccccccccdp-1%float.

(** [float(n)] for a non-negative machine-size integer. *)
Definition float_of_N (n : N) : float := PrimFloat.of_uint63 (Uint63.of_Z (Z.of_N n)).
Definition float_of_nat (n : nat) : float := float_of_N (N.of_nat n).

(** [float(z)] for an int64 value. *)
Definition float_of_int64 (z : Z) : float :=
  if (z =? - 2 ^ 63)%Z then PrimFloat.opp (Z.ldexp 1%float 63)
  else if (z <? 0)%Z then PrimFloat.opp (float_of_N (Z.abs_N z))
  else float_of_N (Z.abs_N z).

(** [min(a, b)] and [max(a, b)]: the first argument wins unless the second
    is strictly better. *)
Definition fmin (a b : float) : float := if PrimFloat.ltb b a then b else a.
Definition fmax (a b : float) : float := if PrimFloat.ltb a b then b else a.

(** The position of a binary64 value on the number line, as a triple
    compared lexicographically: sign class, then exponent, then mantissa
    (both negated for negative values).  NaN has no position. *)
Definition sf_key (f : spec_float) : Z * Z * Z :=
  match f with
  | S754_zero _ => (0, 0, 0)%Z
  | S754_infinity s => ((if s then -2 else 2), 0, 0)%Z
  | S754_nan => (0, 0, 0)%Z
  | S754_finite s m e => if s then (-1, - e, - Z.pos m)%Z else (1, e, Z.pos m)%Z
  end.

Definition key_lt (a b : Z * Z * Z) : Prop :=
  let '(a1, a2, a3) := a in
  let '(b1, b2, b3) := b in
  (a1 < b1 \/ (a1 = b1 /\ (a2 < b2 \/ (a2 = b2 /\ a3 < b3))))%Z.

(** [math.isnan(x)] *)
Definition is_nan (x : float) : bool := negb (PrimFloat.eqb x x).

(** A Python or numpy scalar number. *)
Inductive number : Type :=
| NInt (z : Z)
| NFloat (x : float).

(** *** Number formatting *)

Definition digits_of_N (n : N) : string := NilZero.string_of_uint (N.to_uint n).

(** Insert [','] between groups of three digits, on the reversed digits. *)
Fixpoint group_rev (k : nat) (l : list ascii) : list ascii :=
  match l with
  | [] => []
  | c :: r =>
      if (k =? 3)%nat then ","%char :: c :: group_rev 1 r
      else c :: group_rev (S k) r
  end.

Definition group_thousands (s : string) : string :=
  string_of_list_ascii (rev (group_rev 0 (rev (list_ascii_of_string s)))).

Fixpoint zeros (n : nat) : string :=
  match n with O => EmptyString | S k => String "0"%char (zeros k) end.

Definition pad_left_zeros (width : nat) (s : string) : string :=
  zeros (width - String.length s) ++ s.

(** Round [a / b] to the nearest integer, ties to even ([0 <= a], [0 < b]). *)
Definition div_half_even (a b : Z) : Z :=
  let q := (a / b)%Z in
  let r := (a mod b)%Z in
  match (2 * r ?= b)%Z with
  | Lt => q
  | Gt => (q + 1)%Z
  | Eq => if Z.even q then q else (q + 1)%Z
  end.

(** [|x| * 10^prec] rounded to an integer, for [|x| = m * 2^e]. *)
Definition scaled_digits (prec : nat) (m : positive) (e : Z) : N :=
  let num := (Z.pos m * 10 ^ Z.of_nat prec)%Z in
  Z.to_N (if (0 <=? e)%Z then num * 2 ^ e else div_half_even num (2 ^ (- e)))%Z.

Definition fixed_point (grouping : bool) (prec : nat) (neg : bool) (scaled : N) : string :=
  let p := (10 ^ N.of_nat prec)%N in
  let ip := digits_of_N (scaled / p) in
  let fp := pad_left_zeros prec (digits_of_N (scaled mod p)) in
  (if neg then "-" else "")
    ++ (if grouping then group_thousands ip else ip)
    ++ (match prec with O => "" | _ => "." ++ fp end).

(** [format(x, ',.{prec}f')] when [grouping], [format(x, '.{prec}f')]
    otherwise: the exact binary value, correctly rounded. *)
Definition format_float (grouping : bool) (prec : nat) (x : float) : string :=
  match Prim2SF x with
  | S754_nan => "nan"
  | S754_infinity s => if s then "-inf" else "inf"
  | S754_zero s => fixed_point grouping prec s 0
  | S754_finite s m e => fixed_point grouping prec s (scaled_digits prec m e)
  end.

(** [format(n, ',')] for an integer. *)
Definition format_int_grouped (z : Z) : string :=
  (if (z <? 0)%Z then "-" else "") ++ group_thousands (digits_of_N (Z.abs_N z)).

(** [f"{r:,.2f}"] for a pandas reduction result: an int64 scalar is
    converted to a float by the format code. *)
Definition format_number_2f (r : number) : string :=
  match r with
  | NInt z => format_float true 2 (float_of_int64 z)
  | NFloat x => format_float true 2 x
  end.

(** ** Dynamic values and dict-shaped results *)

Inductive pyval : Type :=
| VNone
| VBool (b : bool)
| VInt (z : Z)
| VFloat (x : float)
| VStr (s : string)
| VList (l : list pyval)
| VDict (d : list (string * pyval)).

Definition pydict : Type := list (string * pyval).

Definition of_number (r : number) : pyval :=
  match r with NInt z => VInt z | NFloat x => VFloat x end.

(** [d.get(k)] *)
Fixpoint dict_get (d : pydict) (k : string) : option pyval :=
  match d with
  | [] => None
  | (k', v) :: r => if String.eqb k' k then Some v else dict_get r k
  end.

(** [k in d] *)
Definition dict_has (d : pydict) (k : string) : bool :=
  match dict_get d k with Some _ => true | None => false end.

(** [d[k] = v]: an existing key keeps its position. *)
Fixpoint dict_set (d : pydict) (k : string) (v : pyval) : pydict :=
  match d with
  | [] => [(k, v)]
  | (k', v') :: r =>
      if String.eqb k' k then (k', v) :: r else (k', v') :: dict_set r k v
  end.

(** ** Exceptions *)

Inductive Exc (A : Type) : Type :=
| Return (a : A)
| Raise (msg : string).
Arguments Return {A} a.
Arguments Raise {A} msg.

Definition bind {A B : Type} (m : Exc A) (k : A -> Exc B) : Exc B :=
  match m with
  | Return a => k a
  | Raise msg => Raise msg
  end.

(** [try: body; except Exception as e: return handler(str(e))] *)
Definition try_except {A : Type} (body : Exc A) (handler : string -> A) : A :=
  match body with
  | Return a => a
  | Raise msg => handler msg
  end.

(** ** Sorting

    [list.sort] and [sorted] are stable.  [sort_by before l] puts [x]
    ahead of [y] when [before x y]; elements that neither precedes keep
    their original order.  [reverse=True] is the same sort with the
    comparison turned around, which is how Python keeps it stable. *)

Fixpoint insert_by {A : Type} (before : A -> A -> bool) (x : A) (l : list A) : list A :=
  match l with
  | [] => [x]
  | y :: r => if before y x then y :: insert_by before x r else x :: y :: r
  end.

Fixpoint sort_by {A : Type} (before : A -> A -> bool) (l : list A) : list A :=
  match l with
  | [] => []
  | x :: r => insert_by before x (sort_by before r)
  end.

(** *** What a sort returns

    [ahead before x y]: [x] may stand ahead of [y], that is, [y] does not
    have to come first. *)
Definition ahead {A : Type} (before : A -> A -> bool) (x y : A) : Prop :=
  before y x = false.

(** Rows are pairs (position, value), compared by their values with the
    strict comparison [better]. *)
Definition sort_cmp {V : Type} (better : V -> V -> bool) (p q : nat * V) : bool :=
  better (snd p) (snd q).

(** [p] ranks before [q]: its value is better, or [q]'s is not better and
    [p] is the earlier row. *)
Definition ranks_before {V : Type} (better : V -> V -> bool) (p q : nat * V) : Prop :=
  better (snd p) (snd q) = true
  \/ (better (snd q) (snd p) = false /\ fst p < fst q).

(** With missing values marked by [bad]: a value present beats a missing
    one, two values present compare by [better]. *)
Definition better_present {V : Type} (better : V -> V -> bool) (bad : V -> bool)
    (a b : V) : bool :=
  negb (bad a) && (bad b || better a b).

(** [enumerate(l)] from [i] *)
Fixpoint enumerate_from {A : Type} (i : nat) (l : list A) : list (nat * A) :=
  match l with
  | [] => []
  | x :: r => (i, x) :: enumerate_from (S i) r
  end.

Definition enumerate {A : Type} (l : list A) : list (nat * A) := enumerate_from 0 l.

(** The rows with a value, sorted, then the rows without, in their
    original order. *)
Definition ranked_rows {V : Type} (better : V -> V -> bool) (bad : V -> bool)
    (vals : list V) : list (nat * V) :=
  sort_by (sort_cmp better) (filter (fun r => negb (bad (snd r))) (enumerate vals))
  ++ filter (fun r => bad (snd r)) (enumerate vals).

(** ** More of [str], [re] and [collections] *)

Definition newline : ascii := "010"%char.
Definition form_feed : ascii := "012"%char.

(** [s.split(sep)] for a one-character separator: the pieces between
    its occurrences, the empty ones included. *)
Fixpoint split_on (sep : ascii) (s : string) : list string :=
  match s with
  | EmptyString => [EmptyString]
  | String c r =>
      if Ascii.eqb c sep then EmptyString :: split_on sep r
      else match split_on sep r with
           | piece :: rest => String c piece :: rest
           | [] => [String c EmptyString]
           end
  end.

(** [s.count(c)] for a one-character [c] *)
Fixpoint count_char (c : ascii) (s : string) : nat :=
  match s with
  | EmptyString => 0
  | String c' r => (if Ascii.eqb c' c then 1 else 0) + count_char c r
  end.

(** [re.sub(r'\s+', ' ', s)]: every maximal run of white space becomes
    one space.  [in_run] says that the character before was white space. *)
Fixpoint collapse_ws_from (in_run : bool) (s : string) : string :=
  match s with
  | EmptyString => EmptyString
  | String c r =>
      if is_space c
      then if in_run then collapse_ws_from true r
           else String " "%char (collapse_ws_from true r)
      else String c (collapse_ws_from false r)
  end.

Definition collapse_ws (s : string) : string := collapse_ws_from false s.

(** [re.sub(r'[^...]', '', s)]: the characters of the class stay. *)
Fixpoint keep_chars (keep : ascii -> bool) (s : string) : string :=
  match s with
  | EmptyString => EmptyString
  | String c r => if keep c then String c (keep_chars keep r) else keep_chars keep r
  end.

(** ASCII letters, and [\w] on ASCII: letters, digits and ['_']. *)
Definition is_alpha_char (c : ascii) : bool :=
  let n := nat_of_ascii c in
  ((65 <=? n)%nat && (n <=? 90)%nat) || ((97 <=? n)%nat && (n <=? 122)%nat).

Definition is_word_char (c : ascii) : bool :=
  is_alpha_char c || is_digit c || Ascii.eqb c "_"%char.

(** [s.isalpha()]: at least one character, and letters only. *)
Definition isalpha (s : string) : bool :=
  negb (String.eqb s "") && forallb is_alpha_char (list_ascii_of_string s).

(** [Counter(words)]: every distinct word with the number of times it
    occurs, in the order of the first occurrences. *)
Fixpoint counter_add (c : list (string * nat)) (w : string) : list (string * nat) :=
  match c with
  | [] => [(w, 1)]
  | (k, n) :: r =>
      if String.eqb k w then (k, S n) :: r else (k, n) :: counter_add r w
  end.

Definition Counter (words : list string) : list (string * nat) :=
  fold_left counter_add words [].

(** [c.most_common(n)], which is [heapq.nlargest(n, c.items(), key=count)]:
    the entries sorted by decreasing count, the entry seen first going
    first among equal counts, cut to [n]. *)
Definition most_common (n : nat) (c : list (string * nat)) : list (string * nat) :=
  firstn n (sort_by (fun a b : string * nat => (snd b <? snd a)%nat) c).

End Py.

Notation "x <- m ;; k" := (Py.bind m (fun x => k))
  (at level 61, m at next level, right associativity).

(* ================================================================== *)
(** * The intent router: classification ([orchestrator_agent.py]) *)
(* ================================================================== *)

Module Router.
Import Py.

Inductive QueryType : Type :=
| DATA_ANALYSIS
| RESEARCH_QUERY
| GENERAL
| AMBIGUOUS.

(** [QueryType.value] *)
Definition QueryType_value (t : QueryType) : string :=
  match t with
  | DATA_ANALYSIS => "data_analysis"
  | RESEARCH_QUERY => "research_query"
  | GENERAL => "general"
  | AMBIGUOUS => "ambiguous"
  end.

(** [self.data_keywords] and [self.research_keywords], in insertion order. *)
Definition data_keywords : list (string * list string) :=
  [ ("analysis",
     ["total"; "sum"; "average"; "mean"; "count"; "maximum"; "minimum";
      "plot"; "chart"; "graph"; "visualize"; "trend"; "sales"; "revenue";
      "profit"; "expense"; "customer"; "product"; "data"; "csv"; "excel";
      "table"; "column"; "row"; "filter"; "sort"; "group"; "aggregate"]);
    ("operations", ["load"; "upload"; "import"; "export"; "save"; "delete"]);
    ("visualization",
     ["show"; "display"; "plot"; "chart"; "graph"; "visualize";
      "bar"; "line"; "pie"; "scatter"; "histogram"]) ].

Definition research_keywords : list (string * list string) :=
  [ ("document",
     ["paper"; "document"; "pdf"; "research"; "study"; "article";
      "publication"; "journal"; "abstract"; "summary"]);
    ("analysis",
     ["summarize"; "extract"; "keyword"; "topic"; "theme"; "content";
      "methodology"; "conclusion"; "finding"; "result"]);
    ("search", ["find"; "search"; "locate"; "identify"; "discover"; "lookup"]);
    ("questions",
     ["what"; "how"; "why"; "when"; "where"; "who"; "explain"; "describe"]) ].

(** The optional context map of a query.  The empty dict is the record
    whose four entries are empty: every [context.get] is falsy on both. *)
Record context : Type := {
  loaded_datasets : list string;
  loaded_documents : list string;
  pending_data_file : option (string * string);   (* path, name *)
  pending_pdf_file : option (string * string)
}.

Definition nonempty {A : Type} (l : list A) : bool :=
  match l with [] => false | _ => true end.

(** The inner loop of [_calculate_keyword_score]: the integer
    [category_score] before it is normalised. *)
Definition category_matches (query : string) (keywords : list string) : nat :=
  fold_left
    (fun category_score keyword =>
       if contains keyword query
       then (category_score + List.length (split_ws keyword))%nat
       else category_score)
    keywords 0%nat.

Definition _calculate_keyword_score
    (query : string) (keyword_categories : list (string * list string)) : float :=
  let '(total_score, total_weight) :=
    fold_left
      (fun '(total_score, total_weight) '(_, keywords) =>
         let category_score := category_matches query keywords in
         if nonempty keywords
         then ((total_score
                + float_of_nat category_score / float_of_nat (List.length keywords))%float,
               S total_weight)
         else (total_score, total_weight))
      keyword_categories (0%float, 0%nat) in
  if (0 <? total_weight)%nat
  then (total_score / float_of_nat total_weight)%float
  else 0%float.

(** [_get_context_bias]: the pair [(bias['data'], bias['research'])]. *)
Definition _get_context_bias (ctx : option context) : float * float :=
  match ctx with
  | None => (0%float, 0%float)
  | Some c =>
      ((if nonempty (loaded_datasets c) then (0 + f0_2)%float else 0%float),
       (if nonempty (loaded_documents c) then (0 + f0_2)%float else 0%float))
  end.

Definition tabular_tokens : list string :=
  [".csv"; ".xlsx"; ".xls"; "spreadsheet"; "excel"].
Definition document_tokens : list string :=
  [".pdf"; "paper"; "document"; "research"].

Definition _classify_query (query : string) (ctx : option context)
  : QueryType * float * string :=
  let query_lower := lower query in
  if any_in tabular_tokens query_lower
  then (DATA_ANALYSIS, f0_9, "Query mentions data file formats")
  else if any_in document_tokens query_lower
  then (RESEARCH_QUERY, f0_9, "Query mentions research documents")
  else
    let data_score := _calculate_keyword_score query_lower data_keywords in
    let research_score := _calculate_keyword_score query_lower research_keywords in
    let context_bias := _get_context_bias ctx in
    let data_score := (data_score + fst context_bias)%float in
    let research_score := (research_score + snd context_bias)%float in
    if PrimFloat.ltb research_score data_score && PrimFloat.ltb f0_3 data_score
    then (DATA_ANALYSIS, fmin f0_8 data_score,
          ("Data keywords score: " ++ format_float false 2 data_score)%string)
    else if PrimFloat.ltb data_score research_score && PrimFloat.ltb f0_3 research_score
    then (RESEARCH_QUERY, fmin f0_8 research_score,
          ("Research keywords score: " ++ format_float false 2 research_score)%string)
    else if PrimFloat.ltb (PrimFloat.abs (data_score - research_score)) f0_1
            && PrimFloat.ltb f0_2 (fmax data_score research_score)
    then (AMBIGUOUS, f0_5, "Similar scores for both agents")
    else (GENERAL, f0_3, "No clear category match").

(** [_get_agent_name] *)
Definition _get_agent_name (t : QueryType) : string :=
  match t with
  | DATA_ANALYSIS => "Data Intelligence Agent"
  | RESEARCH_QUERY => "Research Assistant Agent"
  | _ => "Orchestrator Agent"
  end.

(** ** The classification as the specification words it

    A second definition, written from the specification's sentences and
    not from the code, against which [_classify_query] is compared. *)

(** weight(keyword) = number of whitespace-separated words in it *)
Definition ref_weight (keyword : string) : nat := List.length (split_ws keyword).

(** (sum of the weights of the keywords present in the query) /
    (number of keywords of the sub-category) *)
Definition ref_subcategory_score (query : string) (keywords : list string) : float :=
  (float_of_nat (list_sum (map ref_weight (filter (fun k => contains k query) keywords)))
   / float_of_nat (List.length keywords))%float.

Definition ref_sum (l : list float) : float := fold_left PrimFloat.add l 0%float.

(** the mean of the scores of the sub-categories that have keywords *)
Definition ref_lexicon_score (query : string) (lexicon : list (string * list string)) : float :=
  let scores :=
    map (ref_subcategory_score query) (filter nonempty (map snd lexicon)) in
  match scores with
  | [] => 0%float
  | _ => (ref_sum scores / float_of_nat (List.length scores))%float
  end.

(** 0.2 when the context entry is non-empty *)
Definition ref_bonus (ctx : option context) (entry : context -> list string) : float :=
  match ctx with
  | Some c => if nonempty (entry c) then (0 + f0_2)%float else 0%float
  | None => 0%float
  end.

Definition ref_decide (tabular document : float) : QueryType * float :=
  if PrimFloat.ltb document tabular && PrimFloat.ltb f0_3 tabular
  then (DATA_ANALYSIS, fmin f0_8 tabular)
  else if PrimFloat.ltb tabular document && PrimFloat.ltb f0_3 document
  then (RESEARCH_QUERY, fmin f0_8 document)
  else if PrimFloat.ltb (PrimFloat.abs (tabular - document)) f0_1
          && PrimFloat.ltb f0_2 (fmax tabular document)
  then (AMBIGUOUS, f0_5)
  else (GENERAL, f0_3).

Definition ref_classify (query : string) (ctx : option context) : QueryType * float :=
  let q := lower query in
  ref_decide
    (ref_lexicon_score q data_keywords + ref_bonus ctx loaded_datasets)%float
    (ref_lexicon_score q research_keywords + ref_bonus ctx loaded_documents)%float.

End Router.

(* ================================================================== *)
(** * The tabular analyzer ([data_intelligence_agent.py]) *)
(* ================================================================== *)

Module DataAgent.
Import Py.

(** ** Data frames

    A frame is the ordered list of its columns.  The dtypes are those a
    CSV load produces for numbers and text: [int64], [float64] (NaN is the
    missing value) and [object] (strings, [None] for a missing cell).
    [select_dtypes(include=[np.number])] keeps the first two. *)

Inductive numeric_data : Type :=
| Int64 (vals : list Z)
| Float64 (vals : list float).

Inductive column_data : Type :=
| Numeric (d : numeric_data)
| Object (vals : list (option string)).

Record column : Type := { col_name : string; col_data : column_data }.

Definition DataFrame : Type := list column.

Definition data_length (d : column_data) : nat :=
  match d with
  | Numeric (Int64 v) => List.length v
  | Numeric (Float64 v) => List.length v
  | Object v => List.length v
  end.

(** [len(df)] *)
Definition nrows (df : DataFrame) : nat :=
  match df with
  | [] => 0
  | c :: _ => data_length (col_data c)
  end.

Definition is_numeric (c : column) : bool :=
  match col_data c with Numeric _ => true | Object _ => false end.

Definition is_object (c : column) : bool := negb (is_numeric c).

(** [df.select_dtypes(include=[np.number]).columns] *)
Definition numeric_columns (df : DataFrame) : list string :=
  map col_name (filter is_numeric df).

(** The numeric columns, each name with its data. *)
Definition numeric_items (df : DataFrame) : list (string * numeric_data) :=
  flat_map (fun c => match col_data c with
                     | Numeric d => [(col_name c, d)]
                     | Object _ => []
                     end) df.

(** [df.select_dtypes(include=['object']).columns] *)
Definition object_columns (df : DataFrame) : list string :=
  map col_name (filter is_object df).

(** [name in index] *)
Definition mem (name : string) (names : list string) : bool :=
  existsb (String.eqb name) names.

(** [df[name]] *)
Definition frame_get (df : DataFrame) (name : string) : option column :=
  find (fun c => String.eqb (col_name c) name) df.

(** A loaded frame: the reader gives every column the same length and a
    name of its own, never the empty one. *)
Definition wf_frame (df : DataFrame) : Prop :=
  NoDup (map col_name df)
  /\ Forall (fun c => col_name c <> "" /\ data_length (col_data c) = nrows df) df.

(** One cell as a Python value. *)
Definition cell (d : column_data) (i : nat) : pyval :=
  match d with
  | Numeric (Int64 v) => match nth_error v i with Some z => VInt z | None => VNone end
  | Numeric (Float64 v) => match nth_error v i with Some x => VFloat x | None => VNone end
  | Object v =>
      match nth_error v i with
      | Some (Some s) => VStr s
      | Some None => VFloat PrimFloat.nan
      | None => VNone
      end
  end.

(** Row [i] of [df.to_dict('records')]. *)
Definition record_of_row (df : DataFrame) (i : nat) : pyval :=
  VDict (map (fun c => (col_name c, cell (col_data c) i)) df).

(** The first column whose lowercased name occurs in the lowercased
    query: the [for col in df.columns: ... break] loop. *)
Definition find_mentioned (df : DataFrame) (query_lower : string) : option string :=
  option_map col_name (find (fun c => contains (lower (col_name c)) query_lower) df).

(** ** Reductions of a numeric column *)

Inductive operation : Type := op_sum | op_mean | op_max | op_min.

Definition operation_name (op : operation) : string :=
  match op with
  | op_sum => "sum" | op_mean => "mean" | op_max => "max" | op_min => "min"
  end.

(** [operation.title()] *)
Definition operation_title (op : operation) : string :=
  match op with
  | op_sum => "Sum" | op_mean => "Mean" | op_max => "Max" | op_min => "Min"
  end.

(** int64 arithmetic wraps around. *)
Definition wrap_int64 (z : Z) : Z := ((z + 2 ^ 63) mod 2 ^ 64 - 2 ^ 63)%Z.

(** ** [nlargest] and [nsmallest]

    The row positions [df.nlargest(n, col)] keeps, with [keep='first']:
    rows ordered by the column, the earlier row first among equal values,
    NaN rows after all others, cut to [n]. *)

Definition select_n_int (ascending : bool) (n : nat) (vals : list Z) : list nat :=
  let before :=
    if ascending
    then fun a b : nat * Z => (snd a <? snd b)%Z
    else fun a b : nat * Z => (snd b <? snd a)%Z in
  map fst (firstn n (sort_by before (enumerate vals))).

Definition select_n_float (ascending : bool) (n : nat) (vals : list float) : list nat :=
  let before :=
    if ascending
    then fun a b : nat * float => PrimFloat.ltb (snd a) (snd b)
    else fun a b : nat * float => PrimFloat.ltb (snd b) (snd a) in
  let rows := enumerate vals in
  let present := filter (fun r => negb (is_nan (snd r))) rows in
  let missing := filter (fun r => is_nan (snd r)) rows in
  map fst (firstn n (sort_by before present ++ missing)).

(** [df.nlargest(n, name)] / [df.nsmallest(n, name)] as row positions;
    pandas refuses an [object] column with a [TypeError]. *)
Definition select_n (ascending : bool) (n : nat) (name : string) (df : DataFrame)
  : Exc (list nat) :=
  match frame_get df name with
  | None => Raise ("'" ++ name ++ "'")
  | Some c =>
      match col_data c with
      | Numeric (Int64 v) => Return (select_n_int ascending n v)
      | Numeric (Float64 v) => Return (select_n_float ascending n v)
      | Object _ =>
          Raise ("Column '" ++ name ++ "' has dtype object, cannot use method '"
                   ++ (if ascending then "nsmallest" else "nlargest")
                   ++ "' with this dtype")
      end
  end.

(** *** What "the [n] extreme rows" means

    The value of row [i] is strictly better than that of row [j] for the
    direction asked; a missing value is worse than any value present. *)

Definition int_better (ascending : bool) (a b : Z) : bool :=
  if ascending then (a <? b)%Z else (b <? a)%Z.

Definition float_better (ascending : bool) (a b : float) : bool :=
  negb (is_nan a)
  && (is_nan b || (if ascending then PrimFloat.ltb a b else PrimFloat.ltb b a)).

Definition row_better (ascending : bool) (d : numeric_data) (i j : nat) : bool :=
  match d with
  | Int64 v =>
      match nth_error v i, nth_error v j with
      | Some a, Some b => int_better ascending a b
      | _, _ => false
      end
  | Float64 v =>
      match nth_error v i, nth_error v j with
      | Some a, Some b => float_better ascending a b
      | _, _ => false
      end
  end.

(** Row [i] ranks before row [j]: its value is better, or the value of
    [j] is not better and [i] is the row seen first. *)
Definition row_ranks_before (ascending : bool) (d : numeric_data) (i j : nat) : Prop :=
  row_better ascending d i j = true
  \/ (row_better ascending d j i = false /\ i < j).

Definition numeric_length (d : numeric_data) : nat :=
  match d with Int64 v => List.length v | Float64 v => List.length v end.

(** [rows] are the [n] extreme rows of the column, best first: as many as
    asked or as there are, in rank order, and no row left out ranks before
    a row kept. *)
Definition extreme_rows (ascending : bool) (d : numeric_data) (n : nat) (rows : list nat)
  : Prop :=
  List.length rows = Nat.min n (numeric_length d)
  /\ Forall (fun i => i < numeric_length d) rows
  /\ StronglySorted (row_ranks_before ascending d) rows
  /\ (forall i j, In i rows -> j < numeric_length d -> ~ In j rows ->
                  row_ranks_before ascending d i j).

(** [re.findall(r'\d+', s)]: the first match, if any. *)
Fixpoint take_digits (s : string) : string :=
  match s with
  | EmptyString => EmptyString
  | String c r => if is_digit c then String c (take_digits r) else EmptyString
  end.

Fixpoint first_number (s : string) : option string :=
  match s with
  | EmptyString => None
  | String c r => if is_digit c then Some (String c (take_digits r)) else first_number r
  end.

(** [int(s)] for a string of decimal digits. *)
Definition int_of_digits (s : string) : N :=
  fold_left (fun acc c => (10 * acc + (N_of_ascii c - 48))%N) (list_ascii_of_string s) 0%N.

(** ** The agent *)

Record agent : Type := {
  data_storage : list (string * DataFrame);
  current_dataset : option string;
  dataset_info : list (string * pydict)
}.

(** [name in self.data_storage] and [self.data_storage[name]] *)
Fixpoint storage_get {V : Type} (st : list (string * V)) (name : string) : option V :=
  match st with
  | [] => None
  | (k, v) :: r => if String.eqb k name then Some v else storage_get r name
  end.

Definition error_result (msg : string) : pydict := [("error", VStr msg)].

(** What the agent asks of pandas, numpy and plotly beyond the frame
    operations modelled above. *)
Record libraries : Type := {
  (** numpy's reductions of float data (pairwise summation, NaN skipped
      by pandas) and the float mean of an int64 column *)
  float64_reduce : operation -> list float -> float;
  int64_mean : list Z -> float;
  (** [pd.to_datetime(values, errors='raise')] succeeds *)
  parses_as_dates : list (option string) -> bool;
  (** [df.copy()] with the column converted by [pd.to_datetime] and the
      rows sorted by it; the conversion of the whole column may raise *)
  dated_frame : Type;
  sort_by_date : DataFrame -> string -> Exc dated_frame;
  (** the plotly calls of [_create_chart] and [_create_trend_chart], up
      to [fig.to_json()] *)
  plotly_chart : DataFrame -> string -> option string -> option string -> Exc string;
  plotly_trend : dated_frame -> string -> string -> Exc string
}.

Section Handlers.

Variable lib : libraries.

(** [df[col].sum()], [.mean()], [.max()], [.min()] *)
Definition series_agg (op : operation) (d : numeric_data) : number :=
  match d with
  | Int64 vals =>
      match op with
      | op_sum => NInt (wrap_int64 (fold_left Z.add vals 0%Z))
      | op_mean => NFloat (int64_mean lib vals)
      | op_max =>
          match vals with
          | [] => NFloat PrimFloat.nan
          | v :: r => NInt (fold_left Z.max r v)
          end
      | op_min =>
          match vals with
          | [] => NFloat PrimFloat.nan
          | v :: r => NInt (fold_left Z.min r v)
          end
      end
  | Float64 vals => NFloat (float64_reduce lib op vals)
  end.

(** [df[name].<operation>()] for a name of [numeric_cols].  The two
    [Raise] cases are not reached on a frame whose names are distinct. *)
Definition aggregate (df : DataFrame) (op : operation) (name : string) : Exc number :=
  match frame_get df name with
  | Some {| col_data := Numeric d |} => Return (series_agg op d)
  | Some {| col_data := Object _ |} => Raise "unsupported operand type(s)"
  | None => Raise ("'" ++ name ++ "'")
  end.

(** The [else] branch of [_handle_aggregation_query]: one entry of
    [results] for every numeric column. *)
Definition aggregate_all (df : DataFrame) (op : operation) : Exc pydict :=
  results <- fold_left
               (fun acc col =>
                  results <- acc ;;
                  r <- aggregate df op col ;;
                  Return (dict_set results col (of_number r)))
               (numeric_columns df) (Return []) ;;
  Return [ ("success", VBool true);
           ("results", VDict results);
           ("message", VStr (operation_title op ++ " values for all numeric columns"));
           ("query_type", VStr "aggregation") ].

Definition _handle_aggregation_query (df : DataFrame) (query : string) (op : operation)
  : Exc pydict :=
  let numeric_cols := numeric_columns df in
  let target_column := find_mentioned df (lower query) in
  match target_column with
  | Some target =>
      if negb (String.eqb target "") && mem target numeric_cols
      then
        result <- aggregate df op target ;;
        Return [ ("success", VBool true);
                 ("result", of_number result);
                 ("message", VStr ("The " ++ operation_name op ++ " of " ++ target
                                     ++ " is " ++ format_number_2f result));
                 ("query_type", VStr "aggregation") ]
      else aggregate_all df op
  | None => aggregate_all df op
  end.

Definition _handle_count_query (df : DataFrame) (query : string) : Exc pydict :=
  Return [ ("success", VBool true);
           ("result", VInt (Z.of_nat (nrows df)));
           ("message", VStr ("Total number of records: "
                               ++ format_int_grouped (Z.of_nat (nrows df))));
           ("query_type", VStr "count") ].

Definition opt_str (o : option string) : pyval :=
  match o with Some s => VStr s | None => VNone end.

(** [_create_chart]: its own [try] turns a plotting failure into an
    error dict. *)
Definition _create_chart (df : DataFrame) (chart_type : string)
    (x_col y_col : option string) : pydict :=
  try_except
    (chart_json <- plotly_chart lib df chart_type x_col y_col ;;
     Return [ ("chart_json", VStr chart_json);
              ("chart_type", VStr chart_type);
              ("x_column", opt_str x_col);
              ("y_column", opt_str y_col) ])
    (fun e => error_result ("Failed to create chart: " ++ e)).

Definition _handle_visualization_query (df : DataFrame) (query : string) : Exc pydict :=
  let query_lower := lower query in
  let chart_type :=
    if contains "bar" query_lower || contains "column" query_lower then "bar"
    else if contains "line" query_lower || contains "trend" query_lower then "line"
    else if contains "pie" query_lower then "pie"
    else if contains "scatter" query_lower then "scatter"
    else if contains "histogram" query_lower || contains "distribution" query_lower
    then "histogram"
    else "bar" in
  let mentioned_cols :=
    map col_name (filter (fun c => contains (lower (col_name c)) query_lower) df) in
  let finish (x_col y_col : option string) : Exc pydict :=
    let chart_data := _create_chart df chart_type x_col y_col in
    Return [ ("success", VBool true);
             ("chart_data", VDict chart_data);
             ("message", VStr ("Generated " ++ chart_type ++ " chart"));
             ("query_type", VStr "visualization") ] in
  match mentioned_cols with
  | [] =>
      match numeric_columns df, object_columns df with
      | n0 :: _, c0 :: _ => finish (Some c0) (Some n0)
      | n0 :: n1 :: _, [] => finish (Some n0) (Some n1)
      | _, _ => Return (error_result "Unable to determine appropriate columns for visualization")
      end
  | [col] =>
      match frame_get df col with
      | Some c => if is_object c then finish (Some col) None else finish None (Some col)
      | None => Raise ("'" ++ col ++ "'")
      end
  | c0 :: c1 :: _ => finish (Some c0) (Some c1)
  end.

(** [df[col].head()] of an object column. *)
Definition object_head (c : column) : option (list (option string)) :=
  match col_data c with
  | Object v => Some (firstn 5 v)
  | Numeric _ => None
  end.

Definition _create_trend_chart (df : dated_frame lib) (date_col value_col : string) : pydict :=
  try_except
    (chart_json <- plotly_trend lib df date_col value_col ;;
     Return [ ("chart_json", VStr chart_json);
              ("chart_type", VStr "line");
              ("x_column", VStr date_col);
              ("y_column", VStr value_col) ])
    (fun e => error_result ("Failed to create trend chart: " ++ e)).

Definition _handle_trend_query (df : DataFrame) (query : string) : Exc pydict :=
  let datetime_cols :=
    map col_name
      (filter (fun c => match object_head c with
                        | Some h => parses_as_dates lib h
                        | None => false
                        end) df) in
  match datetime_cols with
  | [] => Return (error_result "No datetime columns found for trend analysis")
  | date_col :: _ =>
      match numeric_columns df with
      | [] => Return (error_result "No numeric columns found for trend analysis")
      | value_col :: _ =>
          df_copy <- sort_by_date lib df date_col ;;
          let chart_data := _create_trend_chart df_copy date_col value_col in
          Return [ ("success", VBool true);
                   ("chart_data", VDict chart_data);
                   ("message", VStr ("Generated trend analysis for " ++ value_col
                                       ++ " over time"));
                   ("query_type", VStr "trend") ]
      end
  end.

Definition _handle_ranking_query (df : DataFrame) (query : string) : Exc pydict :=
  let query_lower := lower query in
  let n := match first_number query with
           | Some digits => int_of_digits digits
           | None => 5%N
           end in
  let ascending := contains "bottom" query_lower || contains "lowest" query_lower in
  let numeric_cols := numeric_columns df in
  let target_column := find_mentioned df query_lower in
  let target_column :=
    match target_column with
    | Some t => if String.eqb t "" then hd_error numeric_cols else Some t
    | None => hd_error numeric_cols
    end in
  match target_column with
  | Some target =>
      if String.eqb target ""
      then Return (error_result "Could not identify column for ranking")
      else
        ranked_data <- select_n ascending (N.to_nat n) target df ;;
        Return [ ("success", VBool true);
                 ("result", VList (map (record_of_row df) ranked_data));
                 ("message", VStr ((if ascending then "Bottom" else "Top") ++ " "
                                     ++ digits_of_N n ++ " records by " ++ target));
                 ("query_type", VStr "ranking") ]
  | None => Return (error_result "Could not identify column for ranking")
  end.

Definition _handle_filter_query (df : DataFrame) (query : string) : Exc pydict :=
  Return [ ("success", VBool true);
           ("message", VStr "Filter functionality would require more specific query parsing");
           ("suggestion", VStr "Please specify exact filter conditions");
           ("query_type", VStr "filter") ].

Definition _handle_general_query (self : agent) (df : DataFrame) (query : string)
  : Exc pydict :=
  let info :=
    match current_dataset self with
    | Some name => match storage_get (dataset_info self) name with
                   | Some i => i
                   | None => []
                   end
    | None => []
    end in
  Return [ ("success", VBool true);
           ("info", VDict info);
           ("message", VStr "Here's general information about your dataset");
           ("query_type", VStr "general") ].

(** The [if]/[elif] chain inside the [try] of [process_query]. *)
Definition dispatch (self : agent) (df : DataFrame) (query : string) : Exc pydict :=
  let query_lower := lower query in
  if any_in ["total"; "sum"; "add"] query_lower
  then _handle_aggregation_query df query op_sum
  else if any_in ["average"; "mean"; "avg"] query_lower
  then _handle_aggregation_query df query op_mean
  else if any_in ["maximum"; "max"; "highest"] query_lower
  then _handle_aggregation_query df query op_max
  else if any_in ["minimum"; "min"; "lowest"] query_lower
  then _handle_aggregation_query df query op_min
  else if any_in ["count"; "number of"] query_lower
  then _handle_count_query df query
  else if any_in ["plot"; "chart"; "graph"; "visualize"; "show"] query_lower
  then _handle_visualization_query df query
  else if any_in ["trend"; "over time"; "timeline"] query_lower
  then _handle_trend_query df query
  else if any_in ["top"; "bottom"; "rank"] query_lower
  then _handle_ranking_query df query
  else if any_in ["filter"; "where"; "condition"] query_lower
  then _handle_filter_query df query
  else _handle_general_query self df query.

(** The frame [process_query] works on: [dataset_name], or
    [self.current_dataset] when it is falsy; [None] stands for the
    [if not dataset_name or dataset_name not in self.data_storage] exit. *)
Definition target_frame (self : agent) (dataset_name : option string) : option DataFrame :=
  let dataset_name :=
    match dataset_name with
    | Some n => if String.eqb n "" then current_dataset self else Some n
    | None => current_dataset self
    end in
  match dataset_name with
  | None => None
  | Some name =>
      if String.eqb name "" then None else storage_get (data_storage self) name
  end.

(** [process_query]: the result and the agent afterwards (the method
    assigns to no attribute). *)
Definition process_query (self : agent) (query : string) (dataset_name : option string)
  : pydict * agent :=
  match target_frame self dataset_name with
  | None => (error_result "No dataset loaded. Please upload a file first.", self)
  | Some df =>
      (try_except (dispatch self df query)
         (fun e => error_result ("Failed to process query: " ++ e)),
       self)
  end.

(** [list_datasets] *)
Definition list_datasets (self : agent) : list string := map fst (data_storage self).

End Handlers.

(** ** Aggregation as the specification words it

    Definitions written from the specification, not from the code,
    against which the aggregation handler is compared. *)

(** The statistic a query asks for: sum/total/add ask for the sum,
    average/mean/avg for the mean, maximum/max/highest for the maximum,
    minimum/min/lowest for the minimum, the first of these that occurs
    deciding. *)
Definition ref_requested_statistic (query_lower : string) : option operation :=
  if any_in ["sum"; "total"; "add"] query_lower then Some op_sum
  else if any_in ["average"; "mean"; "avg"] query_lower then Some op_mean
  else if any_in ["maximum"; "max"; "highest"] query_lower then Some op_max
  else if any_in ["minimum"; "min"; "lowest"] query_lower then Some op_min
  else None.

(** [r] is the statistic [op] of the column data [d].  For integers: the
    sum is the int64 congruent to the sum of the values modulo 2^64 (the
    sum itself when it is in range), the maximum and the minimum are the
    value of the column that no other value exceeds or falls below (NaN
    for a column without values); the mean of integers and every
    statistic of floats are numpy's. *)
Definition ref_statistic (lib : libraries) (op : operation) (d : numeric_data) (r : number)
  : Prop :=
  match d with
  | Int64 vals =>
      match op with
      | op_sum =>
          exists z, r = NInt z
                    /\ (- 2 ^ 63 <= z < 2 ^ 63)%Z
                    /\ ((z - fold_right Z.add 0%Z vals) mod 2 ^ 64 = 0)%Z
      | op_mean => r = NFloat (int64_mean lib vals)
      | op_max =>
          (vals = [] /\ r = NFloat PrimFloat.nan)
          \/ (exists m, r = NInt m /\ In m vals /\ Forall (fun v => (v <= m)%Z) vals)
      | op_min =>
          (vals = [] /\ r = NFloat PrimFloat.nan)
          \/ (exists m, r = NInt m /\ In m vals /\ Forall (fun v => (m <= v)%Z) vals)
      end
  | Float64 vals => r = NFloat (float64_reduce lib op vals)
  end.

(** ** Loading a file *)

(** [d[name] = v] on a store: an existing key keeps its position. *)
Fixpoint storage_set {V : Type} (st : list (string * V)) (name : string) (v : V)
  : list (string * V) :=
  match st with
  | [] => [(name, v)]
  | (k, v') :: r =>
      if String.eqb k name then (k, v) :: r else (k, v') :: storage_set r name v
  end.

(** [l.remove(x)]; the loop that calls it passes over the [ValueError]
    of a missing [x]. *)
Fixpoint remove_first (x : string) (l : list string) : list string :=
  match l with
  | [] => []
  | y :: r => if String.eqb y x then r else y :: remove_first x r
  end.

(** The file system and the readers of pandas. *)
Record readers : Type := {
  (** [Path(file_path).suffix] *)
  path_suffix : string -> string;
  (** [pd.read_csv(file_path)] and [pd.read_excel(file_path)] *)
  read_csv : string -> Exc DataFrame;
  read_excel : string -> Exc DataFrame
}.

(** [df[col].isnull().sum()] *)
Definition missing_count (d : column_data) : nat :=
  match d with
  | Numeric (Int64 _) => 0
  | Numeric (Float64 v) => List.length (filter is_nan v)
  | Object v => List.length (filter (fun x => match x with None => true | Some _ => false end) v)
  end.

Section Loading.

Variable lib : libraries.
Variable rd : readers.

(** [df[col].dtype == 'object'] and [pd.to_datetime(df[col].head(),
    errors='raise')] goes through. *)
Definition date_like (c : column) : bool :=
  match object_head c with
  | Some h => parses_as_dates lib h
  | None => false
  end.

(** The three lists of column names of [_generate_dataset_info]:
    [numeric_columns], [categorical_columns], [datetime_columns].  A
    column recognised as dates is appended to the third and removed from
    the second. *)
Definition column_kinds (df : DataFrame) : list string * list string * list string :=
  let numeric_columns := numeric_columns df in
  let categorical_columns := object_columns df in
  let '(categorical_columns, datetime_columns) :=
    fold_left
      (fun '(categorical, datetime) col =>
         if date_like col
         then (remove_first (col_name col) categorical, datetime ++ [col_name col])
         else (categorical, datetime))
      df (categorical_columns, []) in
  (numeric_columns, categorical_columns, datetime_columns).

(** [df.isnull().sum().to_dict()] *)
Definition missing_values (df : DataFrame) : pydict :=
  fold_left
    (fun d col => dict_set d (col_name col) (VInt (Z.of_nat (missing_count (col_data col)))))
    df [].

(** [df.head(3).to_dict('records')] *)
Definition sample_data (df : DataFrame) : list pyval :=
  map (record_of_row df) (seq 0 (Nat.min 3 (nrows df))).

(** [_generate_dataset_info]; the tuple [df.shape] is given as the list
    of its two numbers. *)
Definition _generate_dataset_info (df : DataFrame) (file_name : string) : pydict :=
  let '(numeric_columns, categorical_columns, datetime_columns) := column_kinds df in
  [ ("file_name", VStr file_name);
    ("shape", VList [VInt (Z.of_nat (nrows df)); VInt (Z.of_nat (List.length df))]);
    ("columns", VList (map VStr (map col_name df)));
    ("numeric_columns", VList (map VStr numeric_columns));
    ("categorical_columns", VList (map VStr categorical_columns));
    ("datetime_columns", VList (map VStr datetime_columns));
    ("missing_values", VDict (missing_values df));
    ("sample_data", VList (sample_data df)) ].

(** [load_data]: the result and the agent afterwards.  Both early exits
    come before the first assignment to an attribute. *)
Definition load_data (self : agent) (file_path file_name : string) : pydict * agent :=
  let file_extension := lower (path_suffix rd file_path) in
  let read :=
    if String.eqb file_extension ".csv" then Some (read_csv rd file_path)
    else if mem file_extension [".xlsx"; ".xls"] then Some (read_excel rd file_path)
    else None in
  match read with
  | None => (error_result ("Unsupported file format: " ++ file_extension), self)
  | Some (Raise e) => (error_result ("Failed to load file: " ++ e), self)
  | Some (Return df) =>
      let info := _generate_dataset_info df file_name in
      ([ ("success", VBool true);
         ("message", VStr ("Successfully loaded " ++ file_name));
         ("info", VDict info) ],
       {| data_storage := storage_set (data_storage self) file_name df;
          current_dataset := Some file_name;
          dataset_info := storage_set (dataset_info self) file_name info |})
  end.

(** The name [get_dataset_summary] settles on: [dataset_name], or
    [self.current_dataset] when it is falsy, provided it is a key of
    [self.data_storage]. *)
Definition resolve_dataset (self : agent) (dataset_name : option string) : option string :=
  let dataset_name :=
    match dataset_name with
    | Some n => if String.eqb n "" then current_dataset self else Some n
    | None => current_dataset self
    end in
  match dataset_name with
  | None => None
  | Some name =>
      if String.eqb name "" then None
      else match storage_get (data_storage self) name with
           | Some _ => Some name
           | None => None
           end
  end.

(** [get_dataset_summary]; [self.dataset_info[dataset_name]] is outside
    any [try], so a missing entry is a [KeyError] for the caller. *)
Definition get_dataset_summary (self : agent) (dataset_name : option string) : Exc pydict :=
  match resolve_dataset self dataset_name with
  | None => Return (error_result "No dataset available")
  | Some name =>
      match storage_get (dataset_info self) name with
      | Some info => Return [ ("success", VBool true); ("summary", VDict info) ]
      | None => Raise ("'" ++ name ++ "'")
      end
  end.

End Loading.

(** What [load_data] keeps true of the agent: the stores are dicts (every
    key once), and every dataset stored has its information. *)
Definition stores_agree (self : agent) : Prop :=
  NoDup (map fst (data_storage self))
  /\ NoDup (map fst (dataset_info self))
  /\ (forall name df, storage_get (data_storage self) name = Some df ->
                      exists info, storage_get (dataset_info self) name = Some info).

End DataAgent.

(* ================================================================== *)
(** * The document analyzer ([research_assistant_agent.py]) *)
(* ================================================================== *)

Module Research.
Import Py.

(** Sentence [i] of a list. *)
Definition sentence_at (sentences : list string) (i : nat) : string :=
  nth i sentences "".

(** A chunk dict: [{"text", "chunk_id", "sentence_count"}]. *)
Record chunk : Type := {
  chunk_text : string;
  chunk_id : nat;
  chunk_sentence_count : nat
}.

Definition is_empty (s : string) : bool :=
  match s with EmptyString => true | _ => false end.

(** [l[start:]] with Python's reading of a negative [start]. *)
Definition slice_from {A : Type} (start : Z) (l : list A) : list A :=
  let len := Z.of_nat (List.length l) in
  let first := if (start <? 0)%Z then Z.max (len + start) 0 else Z.min start len in
  skipn (Z.to_nat first) l.

(** [l[i]]: a negative index counts from the end, anything further out
    is an [IndexError]. *)
Definition list_index {A : Type} (l : list A) (i : Z) : Exc A :=
  let len := Z.of_nat (List.length l) in
  let pos := if (i <? 0)%Z then (len + i)%Z else i in
  if (pos <? 0)%Z then Raise "list index out of range"
  else match nth_error l (Z.to_nat pos) with
       | Some x => Return x
       | None => Raise "list index out of range"
       end.

(** ** [_split_into_chunks] *)

(** The loop state: [chunks], [current_chunk], [current_sentences]. *)
Definition split_state : Type := list chunk * string * list string.

(** [chunks.append({...})] guarded by [if current_chunk:] *)
Definition close_chunk (chunks : list chunk) (current_chunk : string)
    (current_sentences : list string) : list chunk :=
  if is_empty current_chunk then chunks
  else chunks ++ [ {| chunk_text := strip current_chunk;
                      chunk_id := List.length chunks;
                      chunk_sentence_count := List.length current_sentences |} ].

(** [current_sentences[-overlap//50:] if len(current_sentences) > overlap//50
    else []]; the unary minus binds first, so the slice starts at
    [(-overlap)//50]. *)
Definition overlap_of (overlap : nat) (current_sentences : list string) : list string :=
  if (overlap / 50 <? List.length current_sentences)%nat
  then slice_from (- Z.of_nat overlap / 50)%Z current_sentences
  else [].

Definition split_step (chunk_size overlap : nat) (st : split_state) (sentence : string)
  : split_state :=
  let '(chunks, current_chunk, current_sentences) := st in
  if (String.length current_chunk + String.length sentence <? chunk_size)%nat
  then (chunks, (current_chunk ++ " " ++ sentence)%string, current_sentences ++ [sentence])
  else
    let chunks := close_chunk chunks current_chunk current_sentences in
    let overlap_sentences := overlap_of overlap current_sentences in
    (chunks, (join " " overlap_sentences ++ " " ++ sentence)%string,
     overlap_sentences ++ [sentence]).

(** *** Chunks as groups of sentences

    The sentences a chunk was built from are not kept by the code; the
    definitions below say what it means for a list of sentence groups to
    be the chunks of a text. *)

(** The chunk built from the buffer [buffer] holding the sentences
    [group], closed as number [k]. *)
Definition chunk_of_group (k : nat) (g : string * list string) : chunk :=
  {| chunk_text := strip (fst g);
     chunk_id := k;
     chunk_sentence_count := List.length (snd g) |}.

Definition chunks_of_groups (first_id : nat) (groups : list (string * list string))
  : list chunk :=
  map (fun '(k, g) => chunk_of_group k g) (enumerate_from first_id groups).

(** The buffer [current_chunk] holding the sentences [cs], of which
    [carried] were taken over from the chunk before: a buffer begun with
    nothing carried over starts with the separator. *)
Definition buffer_of (carried cs : list string) : string :=
  match carried with
  | [] => (" " ++ join " " cs)%string
  | _ => join " " cs
  end.

(** The buffers of consecutive groups; [carried] is what the first group
    of the list takes over. *)
Fixpoint layout_buffers (overlap : nat) (carried : list string) (groups : list (list string))
  : list (string * list string) :=
  match groups with
  | [] => []
  | cs :: rest => (buffer_of carried cs, cs) :: layout_buffers overlap (overlap_of overlap cs) rest
  end.

(** The group [cs] starts with [carried], holds at least one sentence
    more, and every sentence after that one was added because it fitted:
    the buffer before it and the sentence stay under [chunk_size]. *)
Definition well_filled (chunk_size : nat) (carried cs : list string) : Prop :=
  firstn (List.length carried) cs = carried
  /\ List.length carried < List.length cs
  /\ forall k, List.length carried < k < List.length cs ->
        String.length (buffer_of carried (firstn k cs)) + String.length (nth k cs "")
        < chunk_size.

(** Greedy packing: every group is well filled from what the group
    before it carries over, and a group is followed by another one only
    when the first new sentence of that one did not fit. *)
Fixpoint packed (chunk_size overlap : nat) (carried : list string) (groups : list (list string))
  : Prop :=
  match groups with
  | [] => True
  | cs :: rest =>
      well_filled chunk_size carried cs
      /\ match rest with
         | [] => True
         | cs' :: _ =>
             chunk_size
             <= String.length (buffer_of carried cs)
                + String.length (nth (List.length (overlap_of overlap cs)) cs' "")
         end
      /\ packed chunk_size overlap (overlap_of overlap cs) rest
  end.

(** The groups without the sentences they carry over; the first group of
    the list drops [k] sentences. *)
Fixpoint fresh_parts (overlap : nat) (k : nat) (groups : list (list string))
  : list (list string) :=
  match groups with
  | [] => []
  | g :: r => skipn k g :: fresh_parts overlap (List.length (overlap_of overlap g)) r
  end.

(** The buffer and the sentences of every chunk closed from the loop
    state [(_, current_chunk, current_sentences)] on, the last one
    included. *)
Fixpoint groups_from (chunk_size overlap : nat) (current_chunk : string)
    (current_sentences : list string) (rest : list string)
  : list (string * list string) :=
  let closed :=
    if is_empty current_chunk then [] else [(current_chunk, current_sentences)] in
  match rest with
  | [] => closed
  | sentence :: rest =>
      if (String.length current_chunk + String.length sentence <? chunk_size)%nat
      then groups_from chunk_size overlap
             (current_chunk ++ " " ++ sentence)%string (current_sentences ++ [sentence]) rest
      else
        let overlap_sentences := overlap_of overlap current_sentences in
        closed ++ groups_from chunk_size overlap
                    (join " " overlap_sentences ++ " " ++ sentence)%string
                    (overlap_sentences ++ [sentence]) rest
  end.

(** What the loop keeps true of [current_chunk] and [current_sentences];
    [carried] is the part of the open chunk taken over from the one
    before. *)
Definition open_chunk (cur : string) (cs carried : list string) : Prop :=
  (is_empty cur = true -> cs = [] /\ carried = [])
  /\ (is_empty cur = false ->
      cs <> [] /\ (cur = join " " cs \/ cur = (" " ++ join " " cs)%string))
  /\ firstn (List.length carried) cs = carried.

(** What the loop keeps true of the buffer: it is empty before the first
    sentence, and afterwards it is the buffer of a well filled group. *)
Definition filling (chunk_size : nat) (cur : string) (cs carried : list string) : Prop :=
  (cur = "" /\ cs = [] /\ carried = [])
  \/ (cur = buffer_of carried cs /\ well_filled chunk_size carried cs).

Section Text.

(** NLTK's [sent_tokenize]. *)
Variable sent_tokenize : string -> list string.

Definition _split_into_chunks (text : string) (chunk_size overlap : nat) : list chunk :=
  let sentences := sent_tokenize text in
  let '(chunks, current_chunk, current_sentences) :=
    fold_left (split_step chunk_size overlap) sentences ([], "", []) in
  close_chunk chunks current_chunk current_sentences.

(** ** [_generate_summary] *)

(** The score of sentence [i] of [n]: [i < n * 0.3], [i > n * 0.7] and
    [50 < len(sentence) < 200], the products taken in binary64. *)
Definition sentence_score (n i : nat) (sentence : string) : nat :=
  (if PrimFloat.ltb (float_of_nat i) (float_of_nat n * f0_3) then 2 else 0)
  + (if PrimFloat.ltb (float_of_nat n * f0_7) (float_of_nat i) then 1 else 0)
  + (if (50 <? String.length sentence)%nat && (String.length sentence <? 200)%nat
     then 1 else 0).

(** An entry of [sentence_scores]: [(score, i, sentence)]. *)
Definition scored : Type := nat * nat * string.

(** Tuple comparison [a < b]: the first component that differs decides. *)
Definition scored_ltb (a b : scored) : bool :=
  let '(sa, ia, ta) := a in
  let '(sb, ib, tb) := b in
  (sa <? sb)%nat
  || ((sa =? sb)%nat && ((ia <? ib)%nat || ((ia =? ib)%nat && String.ltb ta tb))).

(** The position an entry of [sentence_scores] carries. *)
Definition position (e : scored) : nat := snd (fst e).

Definition sentence_scores (sentences : list string) : list scored :=
  map (fun '(i, sentence) => (sentence_score (List.length sentences) i sentence, i, sentence))
    (enumerate sentences).

(** Sentence [p] is taken before sentence [m]: its score is higher, or
    the scores are equal and [p] comes later in the document. *)
Definition outranks (sentences : list string) (p m : nat) : Prop :=
  let score i := sentence_score (List.length sentences) i (sentence_at sentences i) in
  score m < score p \/ (score m = score p /\ m < p).

Definition _generate_summary (text : string) (max_sentences : nat) : string :=
  let sentences := sent_tokenize text in
  if (List.length sentences <=? max_sentences)%nat then text
  else
    (* sentence_scores.sort(reverse=True) *)
    let sorted_scores := sort_by (fun a b => scored_ltb b a) (sentence_scores sentences) in
    (* sorted(sentence_scores[:max_sentences], key=lambda x: x[1]) *)
    let selected_sentences :=
      sort_by (fun a b : scored => (snd (fst a) <? snd (fst b))%nat)
        (firstn max_sentences sorted_scores) in
    join " " (map snd selected_sentences).

(** The summary as the specification words it: the [max_sentences]
    highest-scoring sentences, a tie going to the sentence that comes
    earlier in the document, joined in document order. *)
Definition ref_generate_summary (text : string) (max_sentences : nat) : string :=
  let sentences := sent_tokenize text in
  if (List.length sentences <=? max_sentences)%nat then text
  else
    let by_score :=
      sort_by (fun a b : scored => (fst (fst b) <? fst (fst a))%nat)
        (sentence_scores sentences) in
    let selected :=
      sort_by (fun a b : scored => (snd (fst a) <? snd (fst b))%nat)
        (firstn max_sentences by_score) in
    join " " (map snd selected).

(** ** [_generate_answer] *)

(** [for sentence in sentences: if any(w in sentence.lower() ...): return
    sentence] *)
Definition first_matching (words : list string) (sentences : list string) : option string :=
  find (fun sentence => any_in words (lower sentence)) sentences.

Definition _generate_answer (question context : string) : string :=
  let question_lower := lower question in
  let sentences := sent_tokenize context in
  let by_default :=
    match sentences with
    | s :: _ => s
    | [] => "I couldn't find a specific answer to your question in the loaded documents."
    end in
  let tier (words : list string) :=
    match first_matching words sentences with
    | Some sentence => sentence
    | None => by_default
    end in
  if any_in ["what is"; "define"; "definition"] question_lower
  then tier ["is"; "are"; "defined"; "refers"]
  else if any_in ["how"; "method"; "approach"] question_lower
  then tier ["method"; "approach"; "technique"; "process"]
  else if any_in ["result"; "conclusion"; "finding"] question_lower
  then tier ["result"; "conclusion"; "found"; "showed"]
  else by_default.

End Text.

(** ** Documents and retrieval *)

Record doc_metadata : Type := {
  word_count : nat;
  sentence_count : nat;
  total_pages : nat;
  chunk_count : nat
}.

Record document : Type := {
  file_name : string;
  title : string;
  full_text : string;
  chunks : list chunk;
  summary : string;
  keywords : list string;
  metadata : doc_metadata
}.

(** The sentence encoder and FAISS. *)
Record retrieval : Type := {
  index : Type;
  embedding : Type;
  (** [embedding_model.encode([text])] followed by [faiss.normalize_L2] *)
  encode : string -> Exc embedding;
  (** [zip(scores[0], indices[0])] of [index.search(embedding, top_k)];
      FAISS pads the labels with [-1] when the index holds fewer than
      [top_k] vectors *)
  search : index -> embedding -> nat -> Exc (list (float * Z))
}.

Record agent (R : retrieval) : Type := {
  documents : list (string * document);
  faiss_indexes : list (string * index R)
}.
Arguments documents {R} _.
Arguments faiss_indexes {R} _.

(** [d[name]], a [KeyError] when the key is missing. *)
Definition lookup {V : Type} (d : list (string * V)) (name : string) : Exc V :=
  match DataAgent.storage_get d name with
  | Some v => Return v
  | None => Raise ("'" ++ name ++ "'")
  end.

Definition has_key {V : Type} (d : list (string * V)) (name : string) : bool :=
  match DataAgent.storage_get d name with Some _ => true | None => false end.

(** An element of [relevant_chunks] in [answer_question]. *)
Record answer_hit : Type := {
  a_text : string;
  a_score : float;
  a_chunk_id : nat;
  a_document : string
}.

(** An element of [results] in [search_documents]. *)
Record search_hit : Type := {
  s_document : string;
  s_title : string;
  s_text : string;
  s_score : float;
  s_chunk_id : nat
}.

Definition answer_hit_dict (h : answer_hit) : pyval :=
  VDict [ ("text", VStr (a_text h)); ("score", VFloat (a_score h));
          ("chunk_id", VInt (Z.of_nat (a_chunk_id h))); ("document", VStr (a_document h)) ].

Definition search_hit_dict (h : search_hit) : pyval :=
  VDict [ ("document", VStr (s_document h)); ("title", VStr (s_title h));
          ("text", VStr (s_text h)); ("score", VFloat (s_score h));
          ("chunk_id", VInt (Z.of_nat (s_chunk_id h))) ].

(** The loop both operations run over [zip(scores[0], indices[0])]:
    [if idx < len(doc['chunks']): chunk = doc['chunks'][idx];
    results.append(make(score, chunk))]. *)
Definition guarded_hits {H : Type} (make : float -> chunk -> H) (doc : document)
    (found : list (float * Z)) : Exc (list H) :=
  fold_left
    (fun acc '(score, idx) =>
       results <- acc ;;
       if (idx <? Z.of_nat (List.length (chunks doc)))%Z
       then
         chunk <- list_index (chunks doc) idx ;;
         Return (results ++ [make score chunk])
       else Return results)
    found (Return []).

(** [relevant_chunks] of one document in [answer_question]. *)
Definition answer_hits (doc : document) (doc_name : string) (found : list (float * Z))
  : Exc (list answer_hit) :=
  guarded_hits
    (fun score chunk =>
       {| a_text := chunk_text chunk; a_score := score;
          a_chunk_id := chunk_id chunk; a_document := doc_name |})
    doc found.

(** The entries one document adds to [all_results] in [search_documents]. *)
Definition search_hits (doc : document) (doc_name : string) (found : list (float * Z))
  : Exc (list search_hit) :=
  guarded_hits
    (fun score chunk =>
       {| s_document := doc_name; s_title := title doc;
          s_text := take 200 (chunk_text chunk) ++ "...";
          s_score := score; s_chunk_id := chunk_id chunk |})
    doc found.

(** A hit that was read from a chunk of a stored document. *)
Definition answer_hit_stored (docs : list (string * document)) (h : answer_hit) : Prop :=
  exists doc c,
    DataAgent.storage_get docs (a_document h) = Some doc
    /\ In c (chunks doc)
    /\ a_text h = chunk_text c /\ a_chunk_id h = chunk_id c.

Definition search_hit_stored (docs : list (string * document)) (h : search_hit) : Prop :=
  exists doc c,
    In (s_document h, doc) docs
    /\ In c (chunks doc)
    /\ s_title h = title doc
    /\ s_text h = (take 200 (chunk_text c) ++ "...")%string
    /\ s_chunk_id h = chunk_id c.

Section Agent.

Variable sent_tokenize : string -> list string.
Variable R : retrieval.

(** The body of the [try] in [answer_question], up to [top_results]. *)
Definition answer_top_results (self : agent R) (question : string)
    (documents_to_search : list string) (top_k : nat) : Exc (list answer_hit) :=
  all_results <-
    fold_left
      (fun acc doc_name =>
         all_results <- acc ;;
         question_embedding <- encode R question ;;
         index <- lookup (faiss_indexes self) doc_name ;;
         found <- search R index question_embedding top_k ;;
         doc <- lookup (documents self) doc_name ;;
         relevant_chunks <- answer_hits doc doc_name found ;;
         Return (all_results ++ relevant_chunks))
      documents_to_search (Return []) ;;
  (* all_results.sort(key=lambda x: x["score"], reverse=True) *)
  let all_results :=
    sort_by (fun a b => PrimFloat.ltb (a_score b) (a_score a)) all_results in
  Return (firstn top_k all_results).

Definition answer_question (self : agent R) (question : string)
    (document_name : option string) (top_k : nat) : pydict :=
  match documents self with
  | [] => DataAgent.error_result "No documents loaded"
  | _ =>
      let documents_to_search :=
        match document_name with
        | Some n =>
            if negb (is_empty n) && has_key (documents self) n then [n]
            else map fst (documents self)
        | None => map fst (documents self)
        end in
      try_except
        (top_results <- answer_top_results self question documents_to_search top_k ;;
         let context := join " " (map a_text top_results) in
         let answer := _generate_answer sent_tokenize question context in
         Return [ ("success", VBool true);
                  ("answer", VStr answer);
                  ("relevant_chunks", VList (map answer_hit_dict top_results));
                  ("question", VStr question);
                  ("documents_searched", VList (map VStr documents_to_search)) ])
        (fun e => DataAgent.error_result ("Failed to answer question: " ++ e))
  end.

(** The body of the [try] in [search_documents], up to the sorted
    [all_results]. *)
Definition search_all_results (self : agent R) (query : string) (top_k : nat)
  : Exc (list search_hit) :=
  query_embedding <- encode R query ;;
  all_results <-
    fold_left
      (fun acc '(doc_name, doc) =>
         all_results <- acc ;;
         index <- lookup (faiss_indexes self) doc_name ;;
         found <- search R index query_embedding top_k ;;
         hits <- search_hits doc doc_name found ;;
         Return (all_results ++ hits))
      (documents self) (Return []) ;;
  Return (sort_by (fun a b => PrimFloat.ltb (s_score b) (s_score a)) all_results).

Definition search_documents (self : agent R) (query : string) (top_k : nat) : pydict :=
  match documents self with
  | [] => DataAgent.error_result "No documents loaded"
  | _ =>
      try_except
        (all_results <- search_all_results self query top_k ;;
         Return [ ("success", VBool true);
                  ("query", VStr query);
                  ("results", VList (map search_hit_dict (firstn top_k all_results)));
                  ("total_results", VInt (Z.of_nat (List.length all_results))) ])
        (fun e => DataAgent.error_result ("Search failed: " ++ e))
  end.

Definition metadata_dict (m : doc_metadata) : pyval :=
  VDict [ ("word_count", VInt (Z.of_nat (word_count m)));
          ("sentence_count", VInt (Z.of_nat (sentence_count m)));
          ("total_pages", VInt (Z.of_nat (total_pages m)));
          ("chunk_count", VInt (Z.of_nat (chunk_count m))) ].

Definition summarize_document (self : agent R) (document_name : string) : pydict :=
  match DataAgent.storage_get (documents self) document_name with
  | None => DataAgent.error_result ("Document " ++ document_name ++ " not found")
  | Some doc =>
      [ ("success", VBool true);
        ("document_name", VStr document_name);
        ("title", VStr (title doc));
        ("summary", VStr (summary doc));
        ("keywords", VList (map VStr (keywords doc)));
        ("metadata", metadata_dict (metadata doc)) ]
  end.

End Agent.

(** ** Processing a document *)

(** The class [[\w\s\.\,\!\?\;\:\-\(\)]] *)
Definition allowed_char (c : ascii) : bool :=
  is_word_char c || is_space c
  || existsb (Ascii.eqb c) ["."; ","; "!"; "?"; ";"; ":"; "-"; "("; ")"]%char.

(** [_clean_text] *)
Definition _clean_text (text : string) : string :=
  (* text = re.sub(r'\s+', ' ', text) *)
  let text := collapse_ws text in
  (* text = re.sub(r'[^\w\s\.\,\!\?\;\:\-\(\)]', '', text) *)
  let text := keep_chars allowed_char text in
  let lines := split_on newline text in
  let cleaned_lines :=
    map strip (filter (fun line => (3 <? String.length (strip line))%nat) lines) in
  join " " cleaned_lines.

(** The title loop of [_process_document]: the first line that, stripped,
    is longer than 10 characters, cut to 100. *)
Definition find_title (text : string) : string :=
  match find (fun line => negb (String.eqb (strip line) "")
                          && (10 <? String.length (strip line))%nat)
          (split_on newline text) with
  | Some line => take 100 (strip line)
  | None => ""
  end.

(** The PDF readers, the batch encoder and FAISS's index construction. *)
Record indexing (R : retrieval) : Type := {
  matrix : Type;
  (** the pages PyMuPDF read ([text] when its block ended), and the
      message of the exception that ended it, if one did *)
  fitz_text : string -> string * option string;
  (** the same for the pdfplumber block *)
  pdfplumber_text : string -> string * option string;
  (** [self.embedding_model.encode(texts)] *)
  encode_chunks : list string -> Exc matrix;
  (** [_create_faiss_index] up to the index: [embeddings.shape[1]],
      [IndexFlatIP], [normalize_L2], [index.add] *)
  create_index : matrix -> Exc (index R)
}.
Arguments matrix {R} _.
Arguments fitz_text {R} _ _.
Arguments pdfplumber_text {R} _ _.
Arguments encode_chunks {R} _ _.
Arguments create_index {R} _ _.

Section Processing.

Variable sent_tokenize : string -> list string.
(** NLTK's [word_tokenize] and the English stop words. *)
Variable word_tokenize : string -> list string.
Variable stop_words : list string.
Variable R : retrieval.
Variable ix : indexing R.

(** The filter of [_extract_keywords]. *)
Definition keyword_candidate (word : string) : bool :=
  isalpha word && (3 <? String.length word)%nat && negb (DataAgent.mem word stop_words).

(** [_extract_keywords] *)
Definition _extract_keywords (text : string) (top_k : nat) : list string :=
  let words := word_tokenize (lower text) in
  let filtered_words := filter keyword_candidate words in
  let word_freq := Counter filtered_words in
  map fst (most_common top_k word_freq).

(** [_process_document] *)
Definition _process_document (text file_name : string) : document :=
  let cleaned_text := _clean_text text in
  let chunks := _split_into_chunks sent_tokenize cleaned_text 500 50 in
  let summary := _generate_summary sent_tokenize cleaned_text 3 in
  let keywords := _extract_keywords cleaned_text 10 in
  let word_count := List.length (split_ws cleaned_text) in
  let sentence_count := List.length (sent_tokenize cleaned_text) in
  {| file_name := file_name;
     title := find_title text;
     full_text := cleaned_text;
     chunks := chunks;
     summary := summary;
     keywords := keywords;
     metadata := {| word_count := word_count;
                    sentence_count := sentence_count;
                    total_pages := count_char form_feed text + 1;
                    chunk_count := List.length chunks |} |}.

(** [_extract_text_from_pdf]: the text PyMuPDF read, or, when it raised,
    what it had read followed by what pdfplumber reads. *)
Definition _extract_text_from_pdf (file_path : string) : Exc string :=
  let '(text, e1) := fitz_text ix file_path in
  match e1 with
  | None => Return text
  | Some e1 =>
      let '(more, e2) := pdfplumber_text ix file_path in
      match e2 with
      | None => Return (text ++ more)%string
      | Some e2 =>
          Raise ("Failed to extract text with both methods: " ++ e1 ++ ", " ++ e2)
      end
  end.

(** [summary[:200] + "..." if len(summary) > 200 else summary] *)
Definition preview (summary : string) : string :=
  if (200 <? String.length summary)%nat then (take 200 summary ++ "...")%string
  else summary.

(** [load_pdf]: the result and the agent afterwards.  The document is
    stored before its chunks are encoded, the index after.
    [self.embeddings], which nothing reads, is not part of the agent. *)
Definition load_pdf (self : agent R) (file_path file_name : string) : pydict * agent R :=
  let failed (e : string) := DataAgent.error_result ("Failed to process PDF: " ++ e) in
  match _extract_text_from_pdf file_path with
  | Raise e => (failed e, self)
  | Return text_content =>
      if String.eqb (strip text_content) ""
      then (DataAgent.error_result "No text content found in PDF", self)
      else
        let processed_doc := _process_document text_content file_name in
        let self :=
          {| documents := DataAgent.storage_set (documents self) file_name processed_doc;
             faiss_indexes := faiss_indexes self |} in
        match encode_chunks ix (map chunk_text (chunks processed_doc)) with
        | Raise e => (failed e, self)
        | Return embeddings =>
            match create_index ix embeddings with
            | Raise e => (failed e, self)
            | Return index =>
                ([ ("success", VBool true);
                   ("message", VStr ("Successfully processed " ++ file_name));
                   ("info",
                    VDict [ ("file_name", VStr file_name);
                            ("total_pages",
                             VInt (Z.of_nat (total_pages (metadata processed_doc))));
                            ("total_chunks",
                             VInt (Z.of_nat (List.length (chunks processed_doc))));
                            ("word_count",
                             VInt (Z.of_nat (word_count (metadata processed_doc))));
                            ("summary", VStr (preview (summary processed_doc))) ]) ],
                 {| documents := documents self;
                    faiss_indexes :=
                      DataAgent.storage_set (faiss_indexes self) file_name index |})
            end
        end
  end.

(** [list_documents] *)
Definition list_documents (self : agent R) : list pyval :=
  map (fun '(name, doc) =>
         VDict [ ("name", VStr name);
                 ("title", VStr (title doc));
                 ("word_count", VInt (Z.of_nat (word_count (metadata doc))));
                 ("chunk_count", VInt (Z.of_nat (chunk_count (metadata doc))));
                 ("keywords", VList (map VStr (firstn 5 (keywords doc)))) ])
    (documents self).

(** [chunk["text"][:100] + "..." for chunk in doc["chunks"][:3]] *)
Definition sample_chunks (doc : document) : list string :=
  map (fun c => (take 100 (chunk_text c) ++ "...")%string) (firstn 3 (chunks doc)).

(** [get_document_info] *)
Definition get_document_info (self : agent R) (document_name : string) : pydict :=
  match DataAgent.storage_get (documents self) document_name with
  | None => DataAgent.error_result ("Document " ++ document_name ++ " not found")
  | Some doc =>
      [ ("success", VBool true);
        ("document_info",
         VDict [ ("name", VStr document_name);
                 ("title", VStr (title doc));
                 ("summary", VStr (summary doc));
                 ("keywords", VList (map VStr (keywords doc)));
                 ("metadata", metadata_dict (metadata doc));
                 ("sample_chunks", VList (map VStr (sample_chunks doc))) ]) ]
  end.

End Processing.

(** The similarity search returns numbers for scores, never NaN. *)
Definition scores_are_numbers (R : retrieval) : Prop :=
  forall index emb k found,
    search R index emb k = Return found ->
    Forall (fun p => is_nan (fst p) = false) found.

(** Every stored document has its index.  [load_pdf] keeps this true when
    it succeeds, and every search relies on it. *)
Definition indexed {R : retrieval} (self : agent R) : Prop :=
  forall name doc, DataAgent.storage_get (documents self) name = Some doc ->
                   exists index, DataAgent.storage_get (faiss_indexes self) name = Some index.

End Research.

(* ================================================================== *)
(** * The intent router: dispatch ([orchestrator_agent.py]) *)
(* ================================================================== *)

Module Orchestrator.
Import Py Router.

Section Routing.

Variable lib : DataAgent.libraries.
Variable sent_tokenize : string -> list string.
Variable R : Research.retrieval.

Record orchestrator : Type := {
  data_agent : DataAgent.agent;
  research_agent : Research.agent R
}.

(** [load_data] and [load_pdf] read the uploaded file; they return their
    result dict and the agent with whatever they stored. *)
Variable load_data : DataAgent.agent -> string -> string -> pydict * DataAgent.agent.
Variable load_pdf : Research.agent R -> string -> string -> pydict * Research.agent R.

Definition _route_to_data_agent (self : orchestrator) (query : string)
    (ctx : option context) : pydict * orchestrator :=
  let answer (self : orchestrator) :=
    let '(result, agent) := DataAgent.process_query lib (data_agent self) query None in
    (dict_set result "agent" (VStr "data_intelligence"),
     {| data_agent := agent; research_agent := research_agent self |}) in
  (* not self.data_agent.data_storage and context and context.get('pending_data_file') *)
  let pending :=
    match DataAgent.data_storage (data_agent self), ctx with
    | [], Some c => pending_data_file c
    | _, _ => None
    end in
  match pending with
  | Some (file_path, file_name) =>
      let '(load_result, agent) := load_data (data_agent self) file_path file_name in
      let self := {| data_agent := agent; research_agent := research_agent self |} in
      if dict_has load_result "error" then (load_result, self) else answer self
  | None => answer self
  end.

Definition _route_to_research_agent (self : orchestrator) (query : string)
    (ctx : option context) : pydict * orchestrator :=
  let answer (self : orchestrator) :=
    let agent := research_agent self in
    let result :=
      if any_in ["summarize"; "summary"; "abstract"] (lower query)
      then
        match map fst (Research.documents agent) with
        | name :: _ => Research.summarize_document R agent name
        | [] => DataAgent.error_result "No documents loaded for summarization"
        end
      else if any_in ["search"; "find"; "locate"] (lower query)
      then Research.search_documents R agent query 5
      else Research.answer_question sent_tokenize R agent query None 3 in
    (dict_set result "agent" (VStr "research_assistant"), self) in
  let pending :=
    match Research.documents (research_agent self), ctx with
    | [], Some c => pending_pdf_file c
    | _, _ => None
    end in
  match pending with
  | Some (file_path, file_name) =>
      let '(load_result, agent) := load_pdf (research_agent self) file_path file_name in
      let self := {| data_agent := data_agent self; research_agent := agent |} in
      if dict_has load_result "error" then (load_result, self) else answer self
  | None => answer self
  end.

Definition _handle_ambiguous_query (self : orchestrator) (query : string)
    (ctx : option context) : pydict * orchestrator :=
  let has_data := nonempty (DataAgent.data_storage (data_agent self)) in
  let has_docs := nonempty (Research.documents (research_agent self)) in
  if has_data && negb has_docs then _route_to_data_agent self query ctx
  else if has_docs && negb has_data then _route_to_research_agent self query ctx
  else if has_data && has_docs then
    ([ ("ambiguous", VBool true);
       ("message", VStr "Your query could apply to both data analysis and research documents. Please specify which you're interested in.");
       ("suggestions",
        VList [ VStr ("For data analysis: " ++ query ++ " (from data files)");
                VStr ("For research: " ++ query ++ " (from documents)") ]);
       ("available_data",
        VList (map VStr (map fst (DataAgent.data_storage (data_agent self)))));
       ("available_documents",
        VList (map VStr (map fst (Research.documents (research_agent self))))) ],
     self)
  else
    ([ ("error", VStr "No data files or documents loaded. Please upload files first.");
       ("suggestion", VStr "Upload CSV/Excel files for data analysis or PDF files for research queries") ],
     self).

Definition _get_system_status (self : orchestrator) : pydict :=
  [ ("success", VBool true);
    ("system_status",
     VDict [ ("loaded_datasets",
              VList (map VStr (map fst (DataAgent.data_storage (data_agent self)))));
             ("loaded_documents",
              VList (map VStr (map fst (Research.documents (research_agent self)))));
             ("data_agent_ready",
              VBool (nonempty (DataAgent.data_storage (data_agent self))));
             ("research_agent_ready",
              VBool (nonempty (Research.documents (research_agent self)))) ]) ].

(** [_handle_general_query]; the three capability lines are given without
    their leading pictograph. *)
Definition _handle_general_query (self : orchestrator) (query : string)
    (ctx : option context) : pydict * orchestrator :=
  let query_lower := lower query in
  if any_in ["help"; "what can you do"; "capabilities"] query_lower
  then
    ([ ("success", VBool true);
       ("message", VStr "I'm a multi-agent AI system that can help with:");
       ("capabilities",
        VList [ VStr "Data Analysis: Upload CSV/Excel files and ask questions like 'What was the total sales in Q2?' or 'Plot revenue trends'";
                VStr "Research Assistant: Upload PDF documents for summarization, keyword extraction, and Q&A";
                VStr "Smart Routing: I automatically determine whether your query is about data or research and route it to the right agent" ]);
       ("examples",
        VList [ VStr "Data: 'Show me the top 5 customers by revenue'";
                VStr "Research: 'Summarize the paper on machine learning'";
                VStr "Research: 'What methodology was used in the study?'" ]) ],
     self)
  else if any_in ["status"; "what is loaded"; "files"] query_lower
  then (_get_system_status self, self)
  else
    ([ ("message", VStr "I'm not sure how to help with that. Try asking about data analysis, research documents, or type 'help' for more information.");
       ("suggestions",
        VList [ VStr "Upload a CSV/Excel file and ask data questions";
                VStr "Upload a PDF document and ask research questions";
                VStr "Type 'help' to see what I can do" ]) ],
     self).

(** The handler [process_query] picks for a classification. *)
Definition route (query_type : QueryType)
  : orchestrator -> string -> option context -> pydict * orchestrator :=
  match query_type with
  | DATA_ANALYSIS => _route_to_data_agent
  | RESEARCH_QUERY => _route_to_research_agent
  | AMBIGUOUS => _handle_ambiguous_query
  | GENERAL => _handle_general_query
  end.

Definition orchestrator_info (query_type : QueryType) (confidence : float)
    (reasoning : string) : pyval :=
  VDict [ ("query_type", VStr (QueryType_value query_type));
          ("confidence", VFloat confidence);
          ("reasoning", VStr reasoning);
          ("agent_used", VStr (_get_agent_name query_type)) ].

Definition process_query (self : orchestrator) (query : string) (ctx : option context)
  : pydict * orchestrator :=
  let '(query_type, confidence, reasoning) := _classify_query query ctx in
  let '(result, self) := route query_type self query ctx in
  (dict_set result "orchestrator_info" (orchestrator_info query_type confidence reasoning),
   self).

End Routing.

(** ** File handling *)

Section Files.

Variable lib : DataAgent.libraries.
Variable rd : DataAgent.readers.
Variable sent_tokenize : string -> list string.
Variable word_tokenize : string -> list string.
Variable stop_words : list string.
Variable R : Research.retrieval.
Variable ix : Research.indexing R.

(** [load_data_file] *)
Definition load_data_file (self : orchestrator R) (file_path file_name : string)
  : pydict * orchestrator R :=
  let '(result, agent) := DataAgent.load_data lib rd (data_agent R self) file_path file_name in
  (result, {| data_agent := agent; research_agent := research_agent R self |}).

(** [load_pdf_file] *)
Definition load_pdf_file (self : orchestrator R) (file_path file_name : string)
  : pydict * orchestrator R :=
  let '(result, agent) :=
    Research.load_pdf sent_tokenize word_tokenize stop_words R ix
      (research_agent R self) file_path file_name in
  (result, {| data_agent := data_agent R self; research_agent := agent |}).

(** [get_loaded_files] *)
Definition get_loaded_files (self : orchestrator R) : pydict :=
  [ ("datasets", VList (map VStr (DataAgent.list_datasets (data_agent R self))));
    ("documents", VList (Research.list_documents R (research_agent R self))) ].

(** [clear_all_data]: the four stores of the model are emptied;
    [current_dataset] is not touched. *)
Definition clear_all_data (self : orchestrator R) : pydict * orchestrator R :=
  ([ ("success", VBool true);
     ("message", VStr "All data and documents cleared") ],
   {| data_agent :=
        {| DataAgent.data_storage := [];
           DataAgent.current_dataset := DataAgent.current_dataset (data_agent R self);
           DataAgent.dataset_info := [] |};
      research_agent := Research.Build_agent R [] [] |}).

End Files.

End Orchestrator.


(* ================================================================== *)
(** * Concrete data for the examples *)
(* ================================================================== *)

Module Examples.
Import Py.

(** ** A sales table *)

(** Stand-ins for the third-party calls: floats reduced left to right,
    no date parsing, no renderer. *)
Definition plain_libraries : DataAgent.libraries :=
  {| DataAgent.float64_reduce :=
       fun op vals =>
         match op, vals with
         | DataAgent.op_sum, _ => fold_left PrimFloat.add vals 0%float
         | DataAgent.op_mean, _ =>
             (fold_left PrimFloat.add vals 0 / float_of_nat (List.length vals))%float
         | DataAgent.op_max, v :: r => fold_left fmax r v
         | DataAgent.op_min, v :: r => fold_left fmin r v
         | _, [] => PrimFloat.nan
         end;
     DataAgent.int64_mean :=
       fun vals =>
         (float_of_int64 (fold_left Z.add vals 0%Z) / float_of_nat (List.length vals))%float;
     DataAgent.parses_as_dates := fun _ => false;
     DataAgent.dated_frame := DataAgent.DataFrame;
     DataAgent.sort_by_date := fun df _ => Return df;
     DataAgent.plotly_chart := fun _ _ _ _ => Raise "no renderer";
     DataAgent.plotly_trend := fun _ _ _ => Raise "no renderer" |}.

Definition revenue_column : DataAgent.column :=
  {| DataAgent.col_name := "Revenue";
     DataAgent.col_data := DataAgent.Numeric (DataAgent.Int64 [1200; 75; 400; 1200; 80]%Z) |}.

Definition sales : DataAgent.DataFrame :=
  [ {| DataAgent.col_name := "Product";
       DataAgent.col_data :=
         DataAgent.Object [Some "Laptop"; Some "Mouse"; Some "Monitor"; Some "Phone"; Some "Cable"] |};
    revenue_column;
    {| DataAgent.col_name := "Margin";
       DataAgent.col_data :=
         DataAgent.Numeric (DataAgent.Float64 [0.25; 0.5; 0.125; 0.25; 0.75]%float) |} ].

Definition sales_agent : DataAgent.agent :=
  {| DataAgent.data_storage := [("sales.csv", sales)];
     DataAgent.current_dataset := Some "sales.csv";
     DataAgent.dataset_info := [] |}.

(** The sales figures behind a column of visitor numbers named [At]. *)
Definition attendance : DataAgent.DataFrame :=
  [ {| DataAgent.col_name := "At";
       DataAgent.col_data := DataAgent.Numeric (DataAgent.Int64 [1; 2; 3; 4; 5]%Z) |};
    revenue_column ].

Definition attendance_agent : DataAgent.agent :=
  {| DataAgent.data_storage := [("attendance.csv", attendance)];
     DataAgent.current_dataset := Some "attendance.csv";
     DataAgent.dataset_info := [] |}.

(** A table with two rows only. *)
Definition short_sales : DataAgent.DataFrame :=
  [ {| DataAgent.col_name := "Product";
       DataAgent.col_data := DataAgent.Object [Some "Laptop"; Some "Mouse"] |};
    {| DataAgent.col_name := "Revenue";
       DataAgent.col_data := DataAgent.Numeric (DataAgent.Int64 [1200; 75]%Z) |} ].

Definition short_sales_agent : DataAgent.agent :=
  {| DataAgent.data_storage := [("short.csv", short_sales)];
     DataAgent.current_dataset := Some "short.csv";
     DataAgent.dataset_info := [] |}.

(** A table of 1234 rows in one column. *)
Definition readings : DataAgent.DataFrame :=
  [ {| DataAgent.col_name := "Reading";
       DataAgent.col_data := DataAgent.Numeric (DataAgent.Int64 (List.repeat 7%Z 1234)) |} ].

Definition readings_agent : DataAgent.agent :=
  {| DataAgent.data_storage := [("readings.csv", readings)];
     DataAgent.current_dataset := Some "readings.csv";
     DataAgent.dataset_info := [] |}.

(** An agent that has loaded nothing. *)
Definition fresh_agent : DataAgent.agent :=
  {| DataAgent.data_storage := [];
     DataAgent.current_dataset := None;
     DataAgent.dataset_info := [] |}.

(** ** Documents *)

(** A sentence splitter for plain prose: a sentence ends at ['.'], ['!']
    or ['?'] followed by white space or the end of the text.  On the texts
    below it returns the sentences NLTK's [sent_tokenize] returns. *)
Definition ends_sentence (c : ascii) : bool :=
  Ascii.eqb c "."%char || Ascii.eqb c "!"%char || Ascii.eqb c "?"%char.

Fixpoint split_sentences_aux (s : string) (cur : list ascii) : list string :=
  let flush (rest : list string) :=
    match cur with
    | [] => rest
    | _ => string_of_list_ascii (rev cur) :: rest
    end in
  match s with
  | EmptyString => flush []
  | String c r =>
      if is_space c
      then
        match cur with
        | last :: _ =>
            if ends_sentence last then flush (split_sentences_aux r [])
            else split_sentences_aux r (c :: cur)
        | [] => split_sentences_aux r []
        end
      else split_sentences_aux r (c :: cur)
  end.

Definition split_sentences (s : string) : list string := split_sentences_aux s [].

(** Four sentences; the third is the only one between 50 and 200
    characters long. *)
Definition four_sentences : string :=
  "Cats sleep all day. Dogs bark at night. The quick brown fox jumps over the lazy dog near the quiet river bank. Birds sing at dawn.".

(** [n] copies of the word [w] closed by ["end."]. *)
Fixpoint repeated (w : string) (n : nat) : string :=
  match n with
  | O => "end."
  | S k => w ++ repeated w k
  end.

(** Two sentences of 304 characters each. *)
Definition first_long : string := repeated "Alpha " 50.
Definition second_long : string := repeated "Omega " 50.
Definition two_long_sentences : string := first_long ++ " " ++ second_long.

(** A document of two chunks, a retrieval back end that answers every
    search with the labels 5, 1 and -1, and an agent that holds both. *)
Definition two_chunk_document : Research.document :=
  {| Research.file_name := "notes.pdf";
     Research.title := "Notes on sleep";
     Research.full_text := "Cats sleep all day. Dogs bark at night.";
     Research.chunks :=
       [ {| Research.chunk_text := "Cats sleep all day.";
            Research.chunk_id := 0; Research.chunk_sentence_count := 1 |};
         {| Research.chunk_text := "Dogs bark at night.";
            Research.chunk_id := 1; Research.chunk_sentence_count := 1 |} ];
     Research.summary := "Cats sleep all day. Dogs bark at night.";
     Research.keywords := ["cats"; "sleep"; "dogs"; "bark"; "night"];
     Research.metadata :=
       {| Research.word_count := 8; Research.sentence_count := 2;
          Research.total_pages := 1; Research.chunk_count := 2 |} |}.

Definition fixed_retrieval : Research.retrieval :=
  {| Research.index := unit;
     Research.embedding := unit;
     Research.encode := fun _ => Return tt;
     Research.search :=
       fun _ _ _ => Return [(0.5%float, 5%Z); (0.25%float, 1%Z); ((-1)%float, (-1)%Z)] |}.

Definition notes_agent : Research.agent fixed_retrieval :=
  Research.Build_agent fixed_retrieval
    [("notes.pdf", two_chunk_document)]
    [("notes.pdf", tt : Research.index fixed_retrieval)].

(** ** An orchestrator that holds the sales table and no document *)

Definition no_documents : Research.agent fixed_retrieval :=
  Research.Build_agent fixed_retrieval [] [].

Definition sales_orchestrator : Orchestrator.orchestrator fixed_retrieval :=
  {| Orchestrator.data_agent := sales_agent;
     Orchestrator.research_agent := no_documents |}.

(** No file can be read. *)
Definition cannot_load_data (a : DataAgent.agent) (path name : string)
  : pydict * DataAgent.agent :=
  (DataAgent.error_result ("Failed to load file: " ++ path), a).

Definition cannot_load_pdf (a : Research.agent fixed_retrieval) (path name : string)
  : pydict * Research.agent fixed_retrieval :=
  (DataAgent.error_result ("Failed to process PDF: " ++ path), a).

(** A context that lists a dataset and a document as loaded. *)
Definition both_listed : Router.context :=
  {| Router.loaded_datasets := ["sales.csv"];
     Router.loaded_documents := ["report.pdf"];
     Router.pending_data_file := None;
     Router.pending_pdf_file := None |}.

(** ** A disk with one file *)

(** The part of a path from its last dot on. *)
Fixpoint from_last_dot (s : string) : option string :=
  match s with
  | EmptyString => None
  | String c r =>
      match from_last_dot r with
      | Some t => Some t
      | None => if Ascii.eqb c "."%char then Some s else None
      end
  end.

(** [/tmp/up/sales.CSV] holds the sales table; nothing else is there. *)
Definition sales_disk : DataAgent.readers :=
  {| DataAgent.path_suffix :=
       fun p => match from_last_dot p with Some t => t | None => "" end;
     DataAgent.read_csv :=
       fun p => if String.eqb p "/tmp/up/sales.CSV" then Return sales
                else Raise ("[Errno 2] No such file or directory: '" ++ p ++ "'");
     DataAgent.read_excel :=
       fun p => Raise ("[Errno 2] No such file or directory: '" ++ p ++ "'") |}.

(** A library that takes [YYYY-MM-DD] for dates, and a table with a
    column of them. *)
Definition iso_date (s : string) : bool :=
  match list_ascii_of_string s with
  | [y1; y2; y3; y4; d1; m1; m2; d2; a1; a2] =>
      forallb is_digit [y1; y2; y3; y4; m1; m2; a1; a2]
      && Ascii.eqb d1 "-"%char && Ascii.eqb d2 "-"%char
  | _ => false
  end.

Definition dated_libraries : DataAgent.libraries :=
  {| DataAgent.float64_reduce := DataAgent.float64_reduce plain_libraries;
     DataAgent.int64_mean := DataAgent.int64_mean plain_libraries;
     DataAgent.parses_as_dates :=
       forallb (fun x => match x with Some s => iso_date s | None => true end);
     DataAgent.dated_frame := DataAgent.DataFrame;
     DataAgent.sort_by_date := fun df _ => Return df;
     DataAgent.plotly_chart := fun _ _ _ _ => Raise "no renderer";
     DataAgent.plotly_trend := fun _ _ _ => Raise "no renderer" |}.

Definition orders : DataAgent.DataFrame :=
  [ {| DataAgent.col_name := "Day";
       DataAgent.col_data := DataAgent.Object [Some "2024-01-05"; Some "2024-01-06"; None] |};
    {| DataAgent.col_name := "Customer";
       DataAgent.col_data := DataAgent.Object [Some "Ada"; Some "Grace"; Some "Edsger"] |};
    {| DataAgent.col_name := "Amount";
       DataAgent.col_data := DataAgent.Numeric (DataAgent.Float64 [12.5; 7; PrimFloat.nan]%float) |} ].

(** ** A PDF reader *)

(** A title line and the four sentences. *)
Definition paper_text : string :=
  "Sleep in cats and dogs" ++ String newline four_sentences.

(** Words are the runs between white space; two stop words. *)
Definition few_stop_words : list string := ["over"; "near"].

(** [/tmp/up/paper.pdf] holds the text above; the encoder and the index
    construction go through. *)
Definition paper_reader : Research.indexing fixed_retrieval :=
  Research.Build_indexing fixed_retrieval unit
    (fun path => if String.eqb path "/tmp/up/paper.pdf" then (paper_text, None)
                 else ("", Some ("no such file: " ++ path)%string))
    (fun path => ("", Some ("No such file: " ++ path)%string))
    (fun _ => Return tt)
    (fun _ => Return (tt : Research.index fixed_retrieval)).

(** The same reader with an encoder that gives up. *)
Definition failing_encoder : Research.indexing fixed_retrieval :=
  Research.Build_indexing fixed_retrieval unit
    (Research.fitz_text paper_reader)
    (Research.pdfplumber_text paper_reader)
    (fun _ => Raise "out of memory")
    (fun _ => Return (tt : Research.index fixed_retrieval)).

(** ** An index that pads its answers

    [IndexFlatIP.search] returns [k] labels whatever the index holds: the
    places it has no vector for get the label [-1] and the lowest
    float32 as score.  The stand-in keeps the number of vectors as its
    index and scores every vector 0.5. *)
Definition lowest_score : float := (- 0x1.fffffep+127)%float.

Definition padded_retrieval : Research.retrieval :=
  {| Research.index := nat;
     Research.embedding := unit;
     Research.encode := fun _ => Return tt;
     Research.search :=
       fun ntotal _ k =>
         Return (map (fun i => (0.5%float, Z.of_nat i)) (seq 0 (Nat.min k ntotal))
                   ++ List.repeat (lowest_score, (-1)%Z) (k - ntotal)) |}.

(** Two files: the paper, and a stub of two letters.  The encoder
    returns one row for every text; without a row there is no second
    dimension to read, the [IndexError] of [embeddings.shape[1]]. *)
Definition padded_reader : Research.indexing padded_retrieval :=
  Research.Build_indexing padded_retrieval nat
    (fun path => if String.eqb path "/tmp/up/paper.pdf" then (paper_text, None)
                 else if String.eqb path "/tmp/up/stub.pdf" then ("ab", None)
                 else ("", Some ("no such file: " ++ path)%string))
    (fun path => ("", Some ("No such file: " ++ path)%string))
    (fun texts => Return (List.length texts))
    (fun rows => if (rows =? 0)%nat then Raise "tuple index out of range"
                 else Return (rows : Research.index padded_retrieval)).

Definition nothing_indexed : Research.agent padded_retrieval :=
  Research.Build_agent padded_retrieval [] [].

(** An orchestrator that has loaded nothing, and a context that holds an
    uploaded table waiting to be read. *)
Definition fresh_orchestrator : Orchestrator.orchestrator fixed_retrieval :=
  {| Orchestrator.data_agent := fresh_agent;
     Orchestrator.research_agent := no_documents |}.

(** An orchestrator that holds the notes and no table. *)
Definition notes_orchestrator : Orchestrator.orchestrator fixed_retrieval :=
  {| Orchestrator.data_agent := fresh_agent;
     Orchestrator.research_agent := notes_agent |}.

Definition sales_pending : Router.context :=
  {| Router.loaded_datasets := [];
     Router.loaded_documents := [];
     Router.pending_data_file := Some ("/tmp/up/sales.CSV", "sales.CSV");
     Router.pending_pdf_file := None |}.

(** The rows of a ranking result: the list under ["result"]. *)
Definition result_rows (r : pydict) : option (list pyval) :=
  match dict_get r "result" with
  | Some (VList rows) => Some rows
  | _ => None
  end.

End Examples.
(* ================================================================== *)
(** * Facts about the built-ins *)
(* ================================================================== *)

Module PyFacts.
Import Py.

Lemma dict_get_set_other (d : pydict) (k k' : string) (v : pyval) :
  k <> k' -> dict_get (dict_set d k v) k' = dict_get d k'.
Proof.
  intros Hk. induction d as [|[k0 v0] d IH]; simpl.
  - destruct (String.eqb k k') eqn:E; [apply String.eqb_eq in E; contradiction | reflexivity].
  - destruct (String.eqb k0 k) eqn:E; simpl.
    + apply String.eqb_eq in E. subst k0.
      destruct (String.eqb k k') eqn:E'; [apply String.eqb_eq in E'; contradiction | reflexivity].
    + destruct (String.eqb k0 k'); [reflexivity | exact IH].
Qed.

Lemma dict_get_set_same (d : pydict) (k : string) (v : pyval) :
  dict_get (dict_set d k v) k = Some v.
Proof.
  induction d as [|[k0 v0] d IH]; simpl.
  - now rewrite String.eqb_refl.
  - destruct (String.eqb k0 k) eqn:E; simpl; rewrite E; [reflexivity | exact IH].
Qed.

Lemma In_skipn {A : Type} (n : nat) (l : list A) (x : A) : In x (skipn n l) -> In x l.
Proof.
  intro H. rewrite <- (firstn_skipn n l). apply in_or_app. now right.
Qed.

Lemma In_firstn {A : Type} (n : nat) (l : list A) (x : A) : In x (firstn n l) -> In x l.
Proof.
  intro H. rewrite <- (firstn_skipn n l). apply in_or_app. now left.
Qed.

Lemma enumerate_from_fst {A : Type} (i : nat) (l : list A) :
  map fst (enumerate_from i l) = seq i (List.length l).
Proof.
  revert i. induction l as [|x r IH]; intro i; simpl; [reflexivity | now rewrite IH].
Qed.

Lemma enumerate_from_snd {A : Type} (i : nat) (l : list A) :
  map snd (enumerate_from i l) = l.
Proof.
  revert i. induction l as [|x r IH]; intro i; simpl; [reflexivity | now rewrite IH].
Qed.

Lemma enumerate_from_nth {A : Type} (i : nat) (l : list A) (k : nat) (x : A) :
  In (k, x) (enumerate_from i l) <-> (i <= k /\ nth_error l (k - i) = Some x).
Proof.
  revert i. induction l as [|y r IH]; intro i; simpl.
  - split; [contradiction | intros [_ H]; destruct (k - i); discriminate].
  - rewrite IH. split.
    + intros [H | [Hle H]].
      * inversion H; subst. split; [lia |]. now rewrite Nat.sub_diag.
      * split; [lia |]. replace (k - i) with (S (k - S i)) by lia. exact H.
    + intros [Hle H]. destruct (Nat.eq_dec i k) as [-> | Hne].
      * rewrite Nat.sub_diag in H. simpl in H. left. congruence.
      * right. split; [lia |]. replace (k - i) with (S (k - S i)) in H by lia. exact H.
Qed.

(** *** The stable sort *)

Section Sorting.

Context {A : Type} (before : A -> A -> bool).

Lemma insert_by_perm (x : A) (l : list A) : Permutation (x :: l) (insert_by before x l).
Proof.
  induction l as [|y r IH]; simpl.
  - apply Permutation_refl.
  - destruct (before y x).
    + eapply perm_trans; [apply perm_swap | apply perm_skip, IH].
    + apply Permutation_refl.
Qed.

Lemma sort_by_perm (l : list A) : Permutation l (sort_by before l).
Proof.
  induction l as [|x r IH]; simpl.
  - apply perm_nil.
  - eapply perm_trans; [apply perm_skip, IH | apply insert_by_perm].
Qed.

Lemma sort_by_length (l : list A) : List.length (sort_by before l) = List.length l.
Proof. symmetry. apply Permutation_length, sort_by_perm. Qed.

Lemma sort_by_In (l : list A) (x : A) : In x (sort_by before l) <-> In x l.
Proof.
  split; intro H.
  - eapply Permutation_in; [apply Permutation_sym, sort_by_perm | exact H].
  - eapply Permutation_in; [apply sort_by_perm | exact H].
Qed.

(** The comparison is a strict weak order on the elements at hand, those
    that satisfy [P]. *)
Variable P : A -> Prop.
Hypothesis before_asym : forall x y, P x -> P y -> before x y = true -> before y x = false.
Hypothesis ahead_trans : forall x y z, P x -> P y -> P z ->
  ahead before x y -> ahead before y z -> ahead before x z.

Lemma insert_by_sorted (x : A) (l : list A) :
  P x -> Forall P l ->
  StronglySorted (ahead before) l -> StronglySorted (ahead before) (insert_by before x l).
Proof.
  intros Hx Hl Hs. induction Hs as [|y r Hr IH Hy]; simpl.
  - constructor; [constructor | constructor].
  - inversion Hl as [|? ? Py Pr]; subst.
    destruct (before y x) eqn:E.
    + constructor; [now apply IH |].
      rewrite Forall_forall in *. intros z Hz.
      apply (Permutation_in _ (Permutation_sym (insert_by_perm x r))) in Hz.
      destruct Hz as [<- | Hz]; [now apply before_asym | apply Hy, Hz].
    + constructor; [constructor; assumption |].
      constructor; [exact E |].
      rewrite Forall_forall in *. intros z Hz.
      apply (ahead_trans x y z); auto.
Qed.

Lemma sort_by_sorted (l : list A) :
  Forall P l -> StronglySorted (ahead before) (sort_by before l).
Proof.
  induction l as [|x r IH]; intro Hl; simpl; [constructor |].
  inversion Hl as [|? ? Px Pr]; subst.
  apply insert_by_sorted; auto.
  rewrite Forall_forall in *. intros y Hy. apply Pr. now apply (proj1 (sort_by_In r y)).
Qed.

End Sorting.

(** *** Ranking rows by a value

    The rows are pairs (position, value); [better] is the strict
    comparison the sort is given. *)

Section Ranking.

Context {V : Type} (better : V -> V -> bool) (ok : V -> Prop).

Hypothesis better_asym : forall a b, better a b = true -> better b a = false.
Hypothesis better_negtrans : forall a b c, ok a -> ok b -> ok c ->
  better b a = false -> better c b = false -> better c a = false.

Lemma better_cotrans (a b c : V) :
  ok a -> ok b -> ok c -> better a b = true -> better a c = true \/ better c b = true.
Proof.
  intros Ha Hb Hc Hab.
  destruct (better a c) eqn:Eac; [now left |].
  destruct (better c b) eqn:Ecb; [now right |].
  rewrite (better_negtrans b c a Hb Hc Ha Ecb Eac) in Hab. discriminate.
Qed.

Lemma ranks_before_trans (p q r : nat * V) :
  ok (snd p) -> ok (snd q) -> ok (snd r) ->
  ranks_before better p q -> ranks_before better q r -> ranks_before better p r.
Proof.
  intros Hp Hq Hr [Hpq | [Hqp Hlt1]] [Hqr | [Hrq Hlt2]].
  - destruct (better_cotrans _ _ (snd r) Hp Hq Hr Hpq) as [H | H]; [now left |].
    rewrite (better_asym _ _ Hqr) in H. discriminate.
  - destruct (better_cotrans _ _ (snd r) Hp Hq Hr Hpq) as [H | H]; [now left |].
    rewrite Hrq in H. discriminate.
  - destruct (better_cotrans _ _ (snd p) Hq Hr Hp Hqr) as [H | H]; [| now left].
    rewrite Hqp in H. discriminate.
  - right. split; [| lia]. exact (better_negtrans _ _ _ Hp Hq Hr Hqp Hrq).
Qed.

Lemma ranks_before_irrefl (p : nat * V) : ~ ranks_before better p p.
Proof.
  intros [H | [_ H]]; [| lia]. pose proof (better_asym _ _ H) as H'. congruence.
Qed.

Lemma insert_ranked (x : nat * V) (l : list (nat * V)) :
  ok (snd x) -> Forall (fun y => ok (snd y)) l ->
  Forall (fun y => fst x < fst y) l ->
  StronglySorted (ranks_before better) l ->
  StronglySorted (ranks_before better) (insert_by (sort_cmp better) x l).
Proof.
  intros Hx Hok Hlt Hs. induction Hs as [|y r Hr IH Hy]; simpl.
  - constructor; constructor.
  - inversion Hok as [|? ? Hoky Hokr]; subst. inversion Hlt as [|? ? Hlty Hltr]; subst.
    unfold sort_cmp at 1. destruct (better (snd y) (snd x)) eqn:E.
    + constructor; [now apply IH |].
      rewrite Forall_forall in *. intros z Hz.
      apply (Permutation_in _ (Permutation_sym (insert_by_perm (sort_cmp better) x r))) in Hz.
      destruct Hz as [<- | Hz]; [now left | now apply Hy].
    + assert (Hxy : ranks_before better x y) by (right; split; assumption).
      constructor; [constructor; assumption |].
      constructor; [exact Hxy |].
      rewrite Forall_forall in *. intros z Hz.
      apply (ranks_before_trans x y z); auto.
Qed.

(** Sorting rows given in increasing position puts them in rank order:
    the sort is stable. *)
Lemma sort_ranked (l : list (nat * V)) :
  Forall (fun y => ok (snd y)) l ->
  StronglySorted (fun p q => fst p < fst q) l ->
  StronglySorted (ranks_before better) (sort_by (sort_cmp better) l).
Proof.
  intros Hok Hs. induction Hs as [|x r Hr IH Hx]; simpl; [constructor |].
  inversion Hok as [|? ? Hokx Hokr]; subst.
  apply insert_ranked; auto.
  - rewrite Forall_forall in *. intros y Hy. apply Hokr. now apply sort_by_In in Hy.
  - rewrite Forall_forall in *. intros y Hy. apply Hx. now apply sort_by_In in Hy.
Qed.

End Ranking.

(** Every element kept by [sorted[:n]] stands before every element that
    is cut. *)
Lemma sorted_firstn_skipn {A : Type} (R : A -> A -> Prop) (l : list A) (n : nat) :
  StronglySorted R l ->
  forall x y, In x (firstn n l) -> In y (skipn n l) -> R x y.
Proof.
  intros Hs. revert n. induction Hs as [|a r Hr IH Ha]; intros n x y Hx Hy.
  - destruct n; simpl in Hx; contradiction.
  - destruct n as [|n]; simpl in *; [contradiction |].
    destruct Hx as [<- | Hx].
    + rewrite Forall_forall in Ha. apply Ha.
      eapply (In_skipn n). exact Hy.
    + eapply IH; eassumption.
Qed.

Lemma StronglySorted_app {A : Type} (R : A -> A -> Prop) (l1 l2 : list A) :
  StronglySorted R l1 -> StronglySorted R l2 ->
  (forall x y, In x l1 -> In y l2 -> R x y) ->
  StronglySorted R (l1 ++ l2).
Proof.
  intros H1 H2 Hc. induction H1 as [|x r Hr IH Hx]; simpl; [exact H2 |].
  constructor.
  - apply IH. intros a b Ha Hb. apply Hc; [now right | exact Hb].
  - rewrite Forall_forall in *. intros y Hy. apply in_app_or in Hy.
    destruct Hy as [Hy | Hy]; [now apply Hx | apply Hc; [now left | exact Hy]].
Qed.

Lemma StronglySorted_weaken {A : Type} (R R' : A -> A -> Prop) (l : list A) :
  (forall x y, In x l -> In y l -> R x y -> R' x y) ->
  StronglySorted R l -> StronglySorted R' l.
Proof.
  intros Hw Hs. induction Hs as [|x r Hr IH Hx]; constructor.
  - apply IH. intros a b Ha Hb. apply Hw; now right.
  - rewrite Forall_forall in *. intros y Hy.
    apply Hw; [now left | now right | now apply Hx].
Qed.

Lemma StronglySorted_filter {A : Type} (R : A -> A -> Prop) (f : A -> bool) (l : list A) :
  StronglySorted R l -> StronglySorted R (filter f l).
Proof.
  induction 1 as [|x r Hr IH Hx]; simpl; [constructor |].
  destruct (f x); [| exact IH].
  constructor; [exact IH |].
  rewrite Forall_forall in *. intros y Hy. apply filter_In in Hy. now apply Hx.
Qed.

Lemma filter_split_perm {A : Type} (f : A -> bool) (l : list A) :
  Permutation l (filter (fun a => negb (f a)) l ++ filter f l).
Proof.
  induction l as [|a r IH]; simpl; [constructor |].
  destruct (f a); simpl.
  - eapply perm_trans; [apply perm_skip, IH | apply Permutation_middle].
  - now apply perm_skip.
Qed.

Lemma StronglySorted_firstn {A : Type} (R : A -> A -> Prop) (n : nat) (l : list A) :
  StronglySorted R l -> StronglySorted R (firstn n l).
Proof.
  intro Hs. revert n. induction Hs as [|x r Hr IH Hx]; intro n.
  - rewrite firstn_nil. constructor.
  - destruct n as [|n]; simpl; [constructor |].
    constructor; [apply IH |].
    rewrite Forall_forall in *. intros y Hy. apply Hx. eapply In_firstn, Hy.
Qed.

Lemma StronglySorted_map {A B : Type} (f : A -> B) (R : B -> B -> Prop) (l : list A) :
  StronglySorted (fun a b => R (f a) (f b)) l -> StronglySorted R (map f l).
Proof.
  induction 1 as [|x r Hr IH Hx]; simpl; constructor; [exact IH |].
  rewrite Forall_forall in *. intros y Hy. apply in_map_iff in Hy.
  destruct Hy as [a [<- Ha]]. now apply Hx.
Qed.

Lemma enumerate_from_increasing {A : Type} (i : nat) (l : list A) :
  StronglySorted (fun p q => fst p < fst q) (enumerate_from i l)
  /\ Forall (fun p => i <= fst p) (enumerate_from i l).
Proof.
  revert i. induction l as [|x r IH]; intro i; simpl.
  - split; constructor.
  - destruct (IH (S i)) as [Hs Hf]. split.
    + constructor; [exact Hs |].
      rewrite Forall_forall in *. intros p Hp. specialize (Hf p Hp). simpl. lia.
    + constructor; [simpl; lia |].
      rewrite Forall_forall in *. intros p Hp. specialize (Hf p Hp). lia.
Qed.

(** *** Ranking with missing values

    [bad] marks the missing values: the rows that have one are set aside
    before the sort and appended after it, in their original order. *)

Section RankingMissing.

Context {V : Type} (better : V -> V -> bool) (bad : V -> bool).

Hypothesis better_asym : forall a b, better a b = true -> better b a = false.
Hypothesis better_negtrans : forall a b c,
  bad a = false -> bad b = false -> bad c = false ->
  better b a = false -> better c b = false -> better c a = false.

Lemma better_present_asym (a b : V) :
  better_present better bad a b = true -> better_present better bad b a = false.
Proof.
  unfold better_present. destruct (bad a), (bad b); simpl; try discriminate; auto.
Qed.

Lemma better_present_negtrans (a b c : V) :
  better_present better bad b a = false -> better_present better bad c b = false -> better_present better bad c a = false.
Proof.
  unfold better_present.
  destruct (bad a) eqn:Ea, (bad b) eqn:Eb, (bad c) eqn:Ec; simpl;
    try discriminate; auto.
  now apply better_negtrans.
Qed.

Lemma ranked_rows_perm (vals : list V) : Permutation (enumerate vals) (ranked_rows better bad vals).
Proof.
  unfold ranked_rows.
  eapply perm_trans; [apply (filter_split_perm (fun r => bad (snd r))) |].
  apply Permutation_app_tail, sort_by_perm.
Qed.

Lemma ranked_rows_sorted (vals : list V) :
  StronglySorted (ranks_before (better_present better bad)) (ranked_rows better bad vals).
Proof.
  unfold ranked_rows. set (rows := enumerate vals).
  assert (Hinc : StronglySorted (fun p q => fst p < fst q) rows)
    by apply enumerate_from_increasing.
  apply StronglySorted_app.
  - apply StronglySorted_weaken with (R := ranks_before better).
    + intros x y Hx Hy. apply sort_by_In, filter_In in Hx. apply sort_by_In, filter_In in Hy.
      destruct Hx as [_ Hx], Hy as [_ Hy].
      apply negb_true_iff in Hx, Hy.
      unfold ranks_before, better_present. rewrite Hx, Hy. simpl. tauto.
    + apply (sort_ranked better (fun v => bad v = false)); auto.
      * rewrite Forall_forall. intros y Hy. apply filter_In in Hy.
        now apply negb_true_iff.
      * now apply StronglySorted_filter.
  - apply StronglySorted_weaken with (R := fun p q => fst p < fst q).
    + intros x y Hx Hy Hlt. apply filter_In in Hx, Hy.
      destruct Hx as [_ Hx], Hy as [_ Hy].
      right. unfold better_present. rewrite Hy. simpl. split; [reflexivity | exact Hlt].
    + now apply StronglySorted_filter.
  - intros x y Hx Hy. apply sort_by_In, filter_In in Hx. apply filter_In in Hy.
    destruct Hx as [_ Hx], Hy as [_ Hy]. apply negb_true_iff in Hx.
    left. unfold better_present. now rewrite Hx, Hy.
Qed.

End RankingMissing.

(** What cutting a ranked permutation of the rows to [n] keeps. *)
Lemma top_rows {V : Type} (R : nat * V -> nat * V -> Prop)
    (vals : list V) (l : list (nat * V)) (n : nat) :
  Permutation (enumerate vals) l ->
  StronglySorted R l ->
  List.length (firstn n l) = Nat.min n (List.length vals)
  /\ (forall p, In p (firstn n l) -> nth_error vals (fst p) = Some (snd p))
  /\ StronglySorted R (firstn n l)
  /\ (forall p j w, In p (firstn n l) -> nth_error vals j = Some w ->
                    ~ In j (map fst (firstn n l)) -> R p (j, w)).
Proof.
  intros Hp Hs.
  assert (Hin : forall k x, In (k, x) l <-> nth_error vals k = Some x).
  { intros k x. split; intro H.
    - apply (Permutation_in _ (Permutation_sym Hp)) in H.
      apply enumerate_from_nth in H. destruct H as [_ H]. now rewrite Nat.sub_0_r in H.
    - apply (Permutation_in _ Hp). apply enumerate_from_nth.
      split; [lia | now rewrite Nat.sub_0_r]. }
  repeat split.
  - rewrite length_firstn. rewrite <- (Permutation_length Hp).
    unfold enumerate. rewrite <- (length_map fst), enumerate_from_fst, length_seq. reflexivity.
  - intros [k x] H. apply In_firstn in H. now apply Hin.
  - now apply StronglySorted_firstn.
  - intros p j w Hpin Hj Hnot. apply (sorted_firstn_skipn R l n Hs); [exact Hpin |].
    apply Hin in Hj. rewrite <- (firstn_skipn n l) in Hj. apply in_app_or in Hj.
    destruct Hj as [Hj | Hj]; [| exact Hj].
    exfalso. apply Hnot. apply in_map_iff. exists (j, w). now split.
Qed.

(** The same, read on the row positions alone; [rowb] compares two rows
    by their values. *)
Lemma top_rows_extreme {V : Type} (better : V -> V -> bool) (rowb : nat -> nat -> bool)
    (vals : list V) (l : list (nat * V)) (n : nat) :
  (forall i j a b, nth_error vals i = Some a -> nth_error vals j = Some b ->
                   rowb i j = better a b) ->
  Permutation (enumerate vals) l ->
  StronglySorted (ranks_before better) l ->
  List.length (map fst (firstn n l)) = Nat.min n (List.length vals)
  /\ Forall (fun i => i < List.length vals) (map fst (firstn n l))
  /\ StronglySorted (fun i j => rowb i j = true \/ (rowb j i = false /\ i < j))
       (map fst (firstn n l))
  /\ (forall i j, In i (map fst (firstn n l)) -> j < List.length vals ->
                  ~ In j (map fst (firstn n l)) ->
                  rowb i j = true \/ (rowb j i = false /\ i < j)).
Proof.
  intros Hrow Hp Hs.
  destruct (top_rows (ranks_before better) vals l n Hp Hs) as [Hlen [Hval [Hsort Hout]]].
  assert (Hconv : forall p q, nth_error vals (fst p) = Some (snd p) ->
                              nth_error vals (fst q) = Some (snd q) ->
                              ranks_before better p q ->
                              rowb (fst p) (fst q) = true
                              \/ (rowb (fst q) (fst p) = false /\ fst p < fst q)).
  { intros p q Hp' Hq'. unfold ranks_before.
    now rewrite (Hrow _ _ _ _ Hp' Hq'), (Hrow _ _ _ _ Hq' Hp'). }
  repeat split.
  - now rewrite length_map.
  - rewrite Forall_forall. intros i Hi. apply in_map_iff in Hi.
    destruct Hi as [p [<- Hpin]]. apply nth_error_Some. rewrite (Hval p Hpin). discriminate.
  - apply StronglySorted_map.
    eapply StronglySorted_weaken; [| exact Hsort].
    intros p q Hpin Hqin. apply Hconv; now apply Hval.
  - intros i j Hi Hj Hnot. apply in_map_iff in Hi. destruct Hi as [p [<- Hpin]].
    destruct (nth_error vals j) as [w|] eqn:Ej;
      [| apply nth_error_None in Ej; lia].
    apply (Hconv p (j, w)); [now apply Hval | exact Ej | now apply Hout].
Qed.

(** *** The order of binary64 values *)

Lemma SFltb_key (a b : spec_float) :
  a <> S754_nan -> b <> S754_nan ->
  (SFltb a b = true <-> key_lt (sf_key a) (sf_key b)).
Proof.
  intros Ha Hb. unfold SFltb.
  destruct a as [sa | sa | | sa ma ea]; [| | contradiction |];
    destruct b as [sb | sb | | sb mb eb]; try contradiction; simpl;
    try destruct sa; try destruct sb; simpl;
    try (split; [discriminate | lia]);
    try (split; [intros _; lia | reflexivity]).
  - destruct (Z.compare_spec ea eb) as [-> | Hlt | Hgt]; simpl.
    + change (Pos.compare_cont Eq ma mb) with (Pos.compare ma mb).
      destruct (Pos.compare_spec ma mb) as [-> | Hm | Hm]; simpl;
        (split; [try discriminate; intros _; lia | try reflexivity; lia]).
    + split; [discriminate | lia].
    + split; [intros _; lia | reflexivity].
  - destruct (Z.compare_spec ea eb) as [-> | Hlt | Hgt]; simpl.
    + change (Pos.compare_cont Eq ma mb) with (Pos.compare ma mb).
      destruct (Pos.compare_spec ma mb) as [-> | Hm | Hm]; simpl;
        (split; [try discriminate; intros _; lia | try reflexivity; lia]).
    + split; [intros _; lia | reflexivity].
    + split; [discriminate | lia].
Qed.

Lemma not_nan_spec (x : float) : is_nan x = false -> Prim2SF x <> S754_nan.
Proof.
  unfold is_nan. rewrite FloatAxioms.eqb_spec. intros H E. rewrite E in H. discriminate.
Qed.

Lemma SFltb_nan_l (b : spec_float) : SFltb S754_nan b = false.
Proof. reflexivity. Qed.

Lemma SFltb_nan_r (a : spec_float) : SFltb a S754_nan = false.
Proof. destruct a; reflexivity. Qed.

Lemma float_ltb_asym (x y : float) :
  PrimFloat.ltb x y = true -> PrimFloat.ltb y x = false.
Proof.
  rewrite !ltb_spec. intro H.
  destruct (Prim2SF x) eqn:Ex; try (rewrite SFltb_nan_l in H; discriminate);
    destruct (Prim2SF y) eqn:Ey; try (rewrite SFltb_nan_r in H; discriminate);
    match goal with
    | |- SFltb ?b ?a = false =>
        destruct (SFltb b a) eqn:E; [| reflexivity];
        apply SFltb_key in E; [| discriminate | discriminate];
        apply SFltb_key in H; [| discriminate | discriminate];
        exfalso; revert H E; generalize (sf_key a) (sf_key b);
        intros [[a1 a2] a3] [[b1 b2] b3]; unfold key_lt; lia
    end.
Qed.

Lemma float_ltb_negtrans (x y z : float) :
  is_nan x = false -> is_nan y = false -> is_nan z = false ->
  PrimFloat.ltb y x = false -> PrimFloat.ltb z y = false -> PrimFloat.ltb z x = false.
Proof.
  intros Hx Hy Hz. apply not_nan_spec in Hx, Hy, Hz. rewrite !ltb_spec.
  intros Hyx Hzy.
  destruct (SFltb (Prim2SF z) (Prim2SF x)) eqn:E; [| reflexivity].
  apply SFltb_key in E; [| assumption | assumption].
  assert (Nyx : ~ key_lt (sf_key (Prim2SF y)) (sf_key (Prim2SF x))).
  { intro K. apply SFltb_key in K; [congruence | assumption | assumption]. }
  assert (Nzy : ~ key_lt (sf_key (Prim2SF z)) (sf_key (Prim2SF y))).
  { intro K. apply SFltb_key in K; [congruence | assumption | assumption]. }
  exfalso. revert E Nyx Nzy.
  generalize (sf_key (Prim2SF x)) (sf_key (Prim2SF y)) (sf_key (Prim2SF z)).
  intros [[a1 a2] a3] [[b1 b2] b3] [[c1 c2] c3]. unfold key_lt. lia.
Qed.

(** *** Strings *)

Lemma lstrip_head (s : string) :
  match lstrip s with
  | EmptyString => True
  | String c _ => is_space c = false
  end.
Proof.
  induction s as [|c r IH]; simpl; [exact I |].
  destruct (is_space c) eqn:E; [exact IH | exact E].
Qed.

Lemma rstrip_cons (c : ascii) (r : string) :
  rstrip (String c r)
  = match rstrip r with
    | EmptyString => if is_space c then EmptyString else String c EmptyString
    | r' => String c r'
    end.
Proof. reflexivity. Qed.

Lemma rstrip_idem (s : string) : rstrip (rstrip s) = rstrip s.
Proof.
  induction s as [|c r IH]; [reflexivity |].
  rewrite rstrip_cons. destruct (rstrip r) as [|c' r'] eqn:E.
  - destruct (is_space c) eqn:Ec; [reflexivity |].
    rewrite rstrip_cons. simpl. now rewrite Ec.
  - rewrite rstrip_cons, IH. reflexivity.
Qed.

Lemma rstrip_head (c : ascii) (r : string) :
  is_space c = false -> exists r', rstrip (String c r) = String c r'.
Proof.
  intro H. rewrite rstrip_cons. destruct (rstrip r) as [|c' r'].
  - rewrite H. now exists EmptyString.
  - now exists (String c' r').
Qed.

(** A stripped string has nothing left to strip. *)
Lemma strip_idem (s : string) : strip (strip s) = strip s.
Proof.
  unfold strip. pose proof (lstrip_head s) as Hh.
  destruct (lstrip s) as [|c r]; [reflexivity |].
  destruct (rstrip_head c r Hh) as [r' Hr]. rewrite Hr.
  cbn [lstrip]. rewrite Hh, <- Hr. apply rstrip_idem.
Qed.

Lemma lstrip_In (s : string) (c : ascii) :
  In c (list_ascii_of_string (lstrip s)) -> In c (list_ascii_of_string s).
Proof.
  induction s as [|a r IH]; simpl; [auto |].
  destruct (is_space a); [intro H; right; auto | simpl; auto].
Qed.

Lemma rstrip_In (s : string) (c : ascii) :
  In c (list_ascii_of_string (rstrip s)) -> In c (list_ascii_of_string s).
Proof.
  revert c. induction s as [|a r IH]; intro c; [auto |].
  rewrite rstrip_cons. destruct (rstrip r) as [|c' r'].
  - destruct (is_space a); simpl; [contradiction | intros [H | []]; auto].
  - cbn [list_ascii_of_string In]. intros [H | H]; [auto | right; apply IH, H].
Qed.

Lemma strip_In (s : string) (c : ascii) :
  In c (list_ascii_of_string (strip s)) -> In c (list_ascii_of_string s).
Proof. intro H. apply lstrip_In, rstrip_In, H. Qed.

Lemma substring_0_length (n : nat) (s : string) :
  String.length (String.substring 0 n s) = Nat.min n (String.length s).
Proof.
  revert n. induction s as [|c r IH]; intros [|n]; simpl; try reflexivity.
  now rewrite IH.
Qed.

Lemma take_length (n : nat) (s : string) : String.length (take n s) <= n.
Proof. unfold take. rewrite substring_0_length. lia. Qed.

Lemma string_length_app (a b : string) :
  String.length (a ++ b) = String.length a + String.length b.
Proof. induction a as [|c r IH]; simpl; [reflexivity | now rewrite IH]. Qed.

(** Without the separator in it, a string is its only piece. *)
Lemma split_on_absent (sep : ascii) (s : string) :
  ~ In sep (list_ascii_of_string s) -> split_on sep s = [s].
Proof.
  induction s as [|c r IH]; intro H; [reflexivity |].
  cbn [split_on]. destruct (Ascii.eqb c sep) eqn:E.
  - apply Ascii.eqb_eq in E. subst c. exfalso. apply H. now left.
  - rewrite IH; [reflexivity |]. intro K. apply H. now right.
Qed.

(** After [re.sub(r'\s+', ' ', s)] the only white space is the space. *)
Lemma collapse_ws_spaces (in_run : bool) (s : string) (c : ascii) :
  In c (list_ascii_of_string (collapse_ws_from in_run s)) ->
  is_space c = true -> c = " "%char.
Proof.
  revert in_run. induction s as [|a r IH]; intros in_run; [contradiction |].
  cbn [collapse_ws_from]. destruct (is_space a) eqn:Ea.
  - destruct in_run; [apply IH |].
    cbn [list_ascii_of_string In]. intros [H | H] Hc; [now symmetry | exact (IH _ H Hc)].
  - cbn [list_ascii_of_string In]. intros [H | H] Hc; [congruence | exact (IH _ H Hc)].
Qed.

Lemma keep_chars_In (keep : ascii -> bool) (s : string) (c : ascii) :
  In c (list_ascii_of_string (keep_chars keep s))
  <-> In c (list_ascii_of_string s) /\ keep c = true.
Proof.
  induction s as [|a r IH]; cbn [keep_chars list_ascii_of_string In]; [tauto |].
  destruct (keep a) eqn:Ea; cbn [list_ascii_of_string In]; rewrite IH.
  - split; [intros [H | [H K]]; subst; auto | intros [[H | H] K]; auto].
  - split; [intros [H K]; auto | intros [[H | H] K]; [congruence | auto]].
Qed.

Lemma ltb_true_not_nan (x y : float) :
  PrimFloat.ltb x y = true -> is_nan x = false /\ is_nan y = false.
Proof.
  unfold is_nan. rewrite ltb_spec, !eqb_spec. unfold SFltb, SFeqb.
  destruct (Prim2SF x) as [sx | sx | | sx mx ex]; try discriminate;
    destruct (Prim2SF y) as [sy | sy | | sy my ey]; try discriminate;
    intros _; simpl;
    repeat match goal with
           | |- context [if ?b then _ else _] => destruct b
           end;
    rewrite ?Z.compare_refl, ?Pos.compare_cont_refl; auto.
Qed.

End PyFacts.

(* ================================================================== *)
(** * The classification *)
(* ================================================================== *)

Module RouterFacts.
Import Py Router.

(** The integer the inner loop accumulates is the sum of the weights of
    the keywords that occur in the query. *)
Lemma category_matches_sum (query : string) (keywords : list string) :
  category_matches query keywords
  = list_sum (map ref_weight (filter (fun k => contains k query) keywords)).
Proof.
  unfold category_matches.
  assert (G : forall acc,
             fold_left
               (fun category_score keyword =>
                  if contains keyword query
                  then category_score + List.length (split_ws keyword)
                  else category_score) keywords acc
             = acc + list_sum (map ref_weight (filter (fun k => contains k query) keywords))).
  { induction keywords as [|k r IH]; intro acc; simpl.
    - lia.
    - rewrite IH. destruct (contains k query); simpl; unfold ref_weight; lia. }
  apply G.
Qed.

(** The accumulators of the outer loop: the running float sum over the
    sub-categories that have keywords, and their number. *)
Lemma keyword_loop (query : string) (lexicon : list (string * list string))
    (total_score : float) (total_weight : nat) :
  fold_left
    (fun '(total_score, total_weight) '(_, keywords) =>
       let category_score := category_matches query keywords in
       if nonempty keywords
       then ((total_score
              + float_of_nat category_score / float_of_nat (List.length keywords))%float,
             S total_weight)
       else (total_score, total_weight))
    lexicon (total_score, total_weight)
  = (fold_left PrimFloat.add
       (map (ref_subcategory_score query) (filter nonempty (map snd lexicon))) total_score,
     total_weight
     + List.length (map (ref_subcategory_score query) (filter nonempty (map snd lexicon)))).
Proof.
  revert total_score total_weight.
  induction lexicon as [|[name keywords] r IH]; intros ts tw.
  - simpl. f_equal. lia.
  - destruct (nonempty keywords) eqn:E; cbn [map filter snd fold_left List.length];
      rewrite ?E; cbn [map fold_left List.length]; rewrite IH.
    + f_equal; [| lia].
      f_equal. unfold ref_subcategory_score. now rewrite category_matches_sum.
    + reflexivity.
Qed.

Lemma calculate_keyword_score_ref (query : string) (lexicon : list (string * list string)) :
  _calculate_keyword_score query lexicon = ref_lexicon_score query lexicon.
Proof.
  unfold _calculate_keyword_score, ref_lexicon_score, ref_sum.
  rewrite keyword_loop. simpl.
  destruct (map (ref_subcategory_score query) (filter nonempty (map snd lexicon)));
    reflexivity.
Qed.

Lemma context_bias_ref (ctx : option context) :
  _get_context_bias ctx = (ref_bonus ctx loaded_datasets, ref_bonus ctx loaded_documents).
Proof. destruct ctx; reflexivity. Qed.

(** C5: a query whose lowercased text contains [.csv], [.xlsx], [.xls],
    [spreadsheet] or [excel] is classified Tabular with confidence 0.9,
    whatever else it contains (document tokens included) and whatever the
    context: the tabular check comes first. *)
Theorem tabular_fast_path_first (query : string) (ctx : option context) :
  any_in [".csv"; ".xlsx"; ".xls"; "spreadsheet"; "excel"] (lower query) = true ->
  _classify_query query ctx
  = (DATA_ANALYSIS, f0_9, "Query mentions data file formats").
Proof.
  intro H. unfold _classify_query, tabular_tokens. now rewrite H.
Qed.

(** The specification's own example: both a tabular and a document token. *)
Lemma tabular_fast_path_first_witness :
  any_in [".csv"; ".xlsx"; ".xls"; "spreadsheet"; "excel"]
    (lower "Convert this .CSV to .pdf") = true
  /\ any_in [".pdf"; "paper"; "document"; "research"]
       (lower "Convert this .CSV to .pdf") = true
  /\ _classify_query "Convert this .CSV to .pdf" None
     = (DATA_ANALYSIS, f0_9, "Query mentions data file formats").
Proof.
  split; [reflexivity |]. split; [reflexivity |].
  apply (tabular_fast_path_first "Convert this .CSV to .pdf" None). reflexivity.
Defined.

(** C2: on a query without format token, the category and the confidence
    [_classify_query] returns are those of the reference computation:
    per lexicon the mean over its non-empty sub-categories of (summed word
    counts of the keywords found in the lowercased query) / (number of
    keywords), plus 0.2 when the context lists a loaded dataset,
    respectively document; then the threshold rule.  All arithmetic is
    binary64 on both sides. *)
Theorem classify_query_refines_reference (query : string) (ctx : option context) :
  any_in tabular_tokens (lower query) = false ->
  any_in document_tokens (lower query) = false ->
  fst (_classify_query query ctx) = ref_classify query ctx.
Proof.
  intros Ht Hd. unfold _classify_query, ref_classify, ref_decide.
  rewrite Ht, Hd. rewrite !calculate_keyword_score_ref, context_bias_ref. simpl fst. simpl snd.
  repeat match goal with
         | |- context [if ?b then _ else _] => destruct b
         end; reflexivity.
Qed.

Lemma classify_query_refines_reference_witness :
  any_in tabular_tokens (lower "What is the total Revenue") = false
  /\ any_in document_tokens (lower "What is the total Revenue") = false
  /\ fst (_classify_query "What is the total Revenue"
            (Some {| loaded_datasets := ["sales"]; loaded_documents := ["report"];
                     pending_data_file := None; pending_pdf_file := None |}))
     = ref_classify "What is the total Revenue"
         (Some {| loaded_datasets := ["sales"]; loaded_documents := ["report"];
                  pending_data_file := None; pending_pdf_file := None |})
  /\ ref_classify "What is the total Revenue"
       (Some {| loaded_datasets := ["sales"]; loaded_documents := ["report"];
                pending_data_file := None; pending_pdf_file := None |})
     = (AMBIGUOUS, f0_5).
Proof.
  split; [reflexivity |]. split; [reflexivity |]. split.
  - apply classify_query_refines_reference; reflexivity.
  - vm_compute. reflexivity.
Defined.

(** The thresholds are met in binary64.  Four document nouns score 0.1,
    the bonus for a loaded document makes it 0.1 + 0.2, which is
    0.30000000000000004 and so exceeds 0.3. *)
Example classification_in_binary64 :
  _classify_query "study article journal abstract" (Some Examples.both_listed)
  = (RESEARCH_QUERY, (f0_1 + f0_2)%float, "Research keywords score: 0.30")
  /\ PrimFloat.ltb f0_3 (f0_1 + f0_2) = true.
Proof. split; vm_compute; reflexivity. Qed.

(** ** The confidence *)

Lemma fmin_0_8_bounds (score : float) :
  PrimFloat.ltb f0_3 score = true ->
  is_nan (fmin f0_8 score) = false
  /\ PrimFloat.ltb (fmin f0_8 score) f0_3 = false
  /\ PrimFloat.ltb f0_9 (fmin f0_8 score) = false
  /\ PrimFloat.ltb f0_8 (fmin f0_8 score) = false.
Proof.
  intro H. unfold fmin. destruct (PrimFloat.ltb score f0_8) eqn:E.
  - destruct (PyFacts.ltb_true_not_nan _ _ H) as [_ Hs].
    pose proof (PyFacts.float_ltb_asym _ _ E) as H8.
    split; [exact Hs |]. split; [exact (PyFacts.float_ltb_asym _ _ H) |].
    split; [| exact H8].
    apply (PyFacts.float_ltb_negtrans score f0_8 f0_9); auto.
  - repeat split; reflexivity.
Qed.

(** X1: the confidence [_classify_query] reports is always a number between
    0.3 and 0.9; when neither fast path fires it is at most 0.8. *)
Theorem confidence_within_bounds (query : string) (ctx : option context) :
  let confidence := snd (fst (_classify_query query ctx)) in
  is_nan confidence = false
  /\ PrimFloat.ltb confidence f0_3 = false
  /\ PrimFloat.ltb f0_9 confidence = false
  /\ (any_in tabular_tokens (lower query) = false ->
      any_in document_tokens (lower query) = false ->
      PrimFloat.ltb f0_8 confidence = false).
Proof.
  cbv zeta. unfold _classify_query.
  destruct (any_in tabular_tokens (lower query));
    [cbn [fst snd]; repeat split; try reflexivity; discriminate |].
  destruct (any_in document_tokens (lower query));
    [cbn [fst snd]; repeat split; try reflexivity; discriminate |].
  match goal with
  | |- context [if ?b then _ else _] => destruct b eqn:E1
  end.
  - apply andb_prop in E1. destruct E1 as [_ E1]. cbn [fst snd].
    destruct (fmin_0_8_bounds _ E1) as [A [B [C D]]]. auto.
  - match goal with
    | |- context [if ?b then _ else _] => destruct b eqn:E2
    end.
    + apply andb_prop in E2. destruct E2 as [_ E2]. cbn [fst snd].
      destruct (fmin_0_8_bounds _ E2) as [A [B [C D]]]. auto.
    + match goal with
      | |- context [if ?b then _ else _] => destruct b
      end; cbn [fst snd]; repeat split; reflexivity.
Qed.

End RouterFacts.

(* ================================================================== *)
(** * The tabular analyzer *)
(* ================================================================== *)

Module DataAgentFacts.
Import Py DataAgent.

Section WithLibraries.

Variable lib : libraries.

(** ** [process_query] *)

Lemma target_frame_nothing_loaded (self : agent) (dataset_name : option string) :
  data_storage self = [] -> target_frame self dataset_name = None.
Proof.
  intro H. unfold target_frame. rewrite H.
  destruct dataset_name as [n|].
  - destruct (String.eqb n "") eqn:E.
    + destruct (current_dataset self) as [c|]; [destruct (String.eqb c "") |]; reflexivity.
    + rewrite E. reflexivity.
  - destruct (current_dataset self) as [c|]; [destruct (String.eqb c "") |]; reflexivity.
Qed.

Lemma target_frame_nothing_addressed (self : agent) :
  current_dataset self = None -> target_frame self None = None.
Proof. intro H. unfold target_frame. now rewrite H. Qed.

(** C9: [process_query] returns a result dict on every query and leaves
    the agent as it was.  With no dataset loaded, or none addressed, the
    result is the "No dataset loaded" error; on a loaded dataset the
    result is the handler's, and a failure raised while handling the query
    comes back as the error dict carrying its message. *)
Theorem process_query_contains_failures
    (self : agent) (query : string) (dataset_name : option string) :
  snd (process_query lib self query dataset_name) = self
  /\ (data_storage self = [] ->
      fst (process_query lib self query dataset_name)
      = error_result "No dataset loaded. Please upload a file first.")
  /\ (target_frame self dataset_name = None ->
      fst (process_query lib self query dataset_name)
      = error_result "No dataset loaded. Please upload a file first.")
  /\ (forall df, target_frame self dataset_name = Some df ->
      (forall r, dispatch lib self df query = Return r ->
                 fst (process_query lib self query dataset_name) = r)
      /\ (forall e, dispatch lib self df query = Raise e ->
                    fst (process_query lib self query dataset_name)
                    = error_result ("Failed to process query: " ++ e))).
Proof.
  unfold process_query. repeat split.
  - destruct (target_frame self dataset_name); reflexivity.
  - intro H. now rewrite (target_frame_nothing_loaded _ _ H).
  - intro H. now rewrite H.
  - intros r Hr. rewrite H. simpl. now rewrite Hr.
  - intros e He. rewrite H. simpl. now rewrite He.
Qed.

(** C10: on a loaded dataset whose columns all hold [n] values, a query
    that says [count] or [number of] and none of the aggregation words
    gets [n], the number of rows, as its result and in its message;
    nothing else of the query enters the result. *)
Theorem count_query_returns_row_count
    (self : agent) (query : string) (dataset_name : option string) (df : DataFrame)
    (n : nat) :
  target_frame self dataset_name = Some df ->
  df <> [] ->
  Forall (fun c => match col_data c with
                   | Numeric (Int64 vals) => List.length vals
                   | Numeric (Float64 vals) => List.length vals
                   | Object vals => List.length vals
                   end = n) df ->
  any_in ["count"; "number of"] (lower query) = true ->
  any_in ["total"; "sum"; "add"] (lower query) = false ->
  any_in ["average"; "mean"; "avg"] (lower query) = false ->
  any_in ["maximum"; "max"; "highest"] (lower query) = false ->
  any_in ["minimum"; "min"; "lowest"] (lower query) = false ->
  process_query lib self query dataset_name
  = ([ ("success", VBool true);
       ("result", VInt (Z.of_nat n));
       ("message", VStr ("Total number of records: " ++ format_int_grouped (Z.of_nat n)));
       ("query_type", VStr "count") ],
     self).
Proof.
  intros Hdf Hne Hrows Hc H1 H2 H3 H4. unfold process_query, dispatch.
  rewrite Hdf, H1, H2, H3, H4, Hc.
  assert (Hn : nrows df = n).
  { destruct df as [|c r]; [contradiction |]. inversion Hrows as [|? ? Hc0 _]; subst.
    unfold nrows, data_length. destruct (col_data c) as [[v | v] | v]; reflexivity. }
  unfold _handle_count_query. rewrite Hn. reflexivity.
Qed.

(** ** Aggregation *)

Lemma frame_get_In (df : DataFrame) (name : string) (c : column) :
  frame_get df name = Some c -> In c df /\ col_name c = name.
Proof.
  unfold frame_get. intro H. apply find_some in H. destruct H as [Hin He].
  split; [exact Hin | now apply String.eqb_eq].
Qed.

Lemma frame_get_unique (df : DataFrame) (c : column) :
  NoDup (map col_name df) -> In c df -> frame_get df (col_name c) = Some c.
Proof.
  unfold frame_get. induction df as [|c0 r IH]; intros Hnd Hin; [contradiction |].
  simpl in *. inversion Hnd as [|? ? Hfresh Hnd']; subst.
  destruct Hin as [-> | Hin].
  - now rewrite String.eqb_refl.
  - destruct (String.eqb (col_name c0) (col_name c)) eqn:E.
    + apply String.eqb_eq in E. exfalso. apply Hfresh. rewrite E. now apply in_map.
    + now apply IH.
Qed.

Lemma numeric_items_names (df : DataFrame) :
  map fst (numeric_items df) = numeric_columns df.
Proof.
  unfold numeric_items, numeric_columns, is_numeric.
  induction df as [|c r IH]; [reflexivity |].
  simpl. destruct (col_data c); simpl; now rewrite IH.
Qed.

Lemma numeric_items_In (df : DataFrame) (name : string) (d : numeric_data) :
  In (name, d) (numeric_items df) <->
  exists c, In c df /\ col_name c = name /\ col_data c = Numeric d.
Proof.
  unfold numeric_items. rewrite in_flat_map. split.
  - intros [c [Hin H]]. exists c. split; [exact Hin |].
    destruct (col_data c); simpl in H; [| contradiction].
    destruct H as [H | []]. inversion H; subst. now split.
  - intros [c [Hin [Hn Hd]]]. exists c. split; [exact Hin |].
    rewrite Hd. left. now rewrite Hn.
Qed.

Lemma mem_In (name : string) (names : list string) :
  mem name names = true <-> In name names.
Proof.
  unfold mem. rewrite existsb_exists. split.
  - intros [x [Hin He]]. apply String.eqb_eq in He. now subst.
  - intro H. exists name. split; [exact H | apply String.eqb_refl].
Qed.

Lemma dict_set_fresh (d : pydict) (k : string) (v : pyval) :
  ~ In k (map fst d) -> dict_set d k v = d ++ [(k, v)].
Proof.
  induction d as [|[k0 v0] r IH]; intro H; simpl; [reflexivity |].
  simpl in H. destruct (String.eqb k0 k) eqn:E.
  - apply String.eqb_eq in E. exfalso. apply H. now left.
  - rewrite IH; [reflexivity | intro Hin; apply H; now right].
Qed.

(** The [results[col] = ...] loop over columns whose names are distinct
    fills the mapping in column order. *)
Lemma aggregate_loop (df : DataFrame) (op : operation)
    (items : list (string * numeric_data)) (acc : pydict) :
  (forall name d, In (name, d) items ->
     exists c, frame_get df name = Some c /\ col_data c = Numeric d) ->
  NoDup (map fst items) ->
  (forall name, In name (map fst items) -> ~ In name (map fst acc)) ->
  fold_left
    (fun acc col =>
       results <- acc ;;
       r <- aggregate lib df op col ;;
       Return (dict_set results col (of_number r)))
    (map fst items) (Return acc)
  = Return (acc ++ map (fun '(name, d) => (name, of_number (series_agg lib op d))) items).
Proof.
  revert acc. induction items as [|[name d] r IH]; intros acc Hget Hnd Hfresh; simpl.
  - now rewrite app_nil_r.
  - destruct (Hget name d (or_introl eq_refl)) as [c [Hc Hd]].
    unfold aggregate at 2. rewrite Hc. destruct c as [cn cd]. simpl in Hd. subst cd.
    simpl bind. inversion Hnd as [|? ? Hn Hnd']; subst.
    rewrite dict_set_fresh by (apply Hfresh; now left).
    rewrite IH.
    + now rewrite <- app_assoc.
    + intros n' d' Hin. apply Hget. now right.
    + exact Hnd'.
    + intros n' Hin Hacc. rewrite map_app in Hacc. apply in_app_or in Hacc.
      destruct Hacc as [Hacc | [<- | []]].
      * apply (Hfresh n'); [now right | exact Hacc].
      * exact (Hn Hin).
Qed.

Lemma aggregate_all_mapping (df : DataFrame) (op : operation) :
  NoDup (map col_name df) ->
  aggregate_all lib df op
  = Return [ ("success", VBool true);
             ("results",
              VDict (map (fun '(name, d) => (name, of_number (series_agg lib op d)))
                       (numeric_items df)));
             ("message", VStr (operation_title op ++ " values for all numeric columns"));
             ("query_type", VStr "aggregation") ].
Proof.
  intro Hnd. unfold aggregate_all. rewrite <- numeric_items_names.
  rewrite aggregate_loop; [reflexivity | | |].
  - intros name d Hin. apply numeric_items_In in Hin. destruct Hin as [c [Hin [Hn Hd]]].
    exists c. split; [| exact Hd]. rewrite <- Hn. now apply frame_get_unique.
  - rewrite numeric_items_names. unfold numeric_columns.
    clear - Hnd. induction df as [|c r IH]; simpl; [constructor |].
    inversion Hnd as [|? ? Hn Hnd']; subst.
    destruct (is_numeric c); [| now apply IH].
    simpl. constructor; [| now apply IH].
    intro Hin. apply Hn. apply in_map_iff in Hin. destruct Hin as [x [Hx Hin]].
    apply filter_In in Hin. rewrite <- Hx. apply in_map. tauto.
  - intros name _ [].
Qed.

(** The statistics of an integer column. *)
Lemma fold_left_add (l : list Z) (a : Z) :
  fold_left Z.add l a = (a + fold_right Z.add 0 l)%Z.
Proof.
  revert a. induction l as [|x r IH]; intro a; simpl; [lia |]. rewrite IH. lia.
Qed.

Lemma wrap_int64_spec (z : Z) :
  (- 2 ^ 63 <= wrap_int64 z < 2 ^ 63)%Z /\ ((wrap_int64 z - z) mod 2 ^ 64 = 0)%Z.
Proof.
  unfold wrap_int64. pose proof (Z.mod_pos_bound (z + 2 ^ 63) (2 ^ 64) ltac:(lia)) as Hb.
  split; [lia |].
  replace ((z + 2 ^ 63) mod 2 ^ 64 - 2 ^ 63 - z)%Z
    with (- ((z + 2 ^ 63) / 2 ^ 64) * 2 ^ 64)%Z.
  - apply Z.mod_mul. lia.
  - pose proof (Z.div_mod (z + 2 ^ 63) (2 ^ 64) ltac:(lia)). lia.
Qed.

Lemma fold_max_spec (r : list Z) (v : Z) :
  In (fold_left Z.max r v) (v :: r)
  /\ Forall (fun x => (x <= fold_left Z.max r v)%Z) (v :: r).
Proof.
  revert v. induction r as [|x r IH]; intro v; cbn [fold_left].
  - split; [now left | repeat constructor; lia].
  - destruct (IH (Z.max v x)) as [Hin Hall]. split.
    + destruct Hin as [Hin | Hin]; [| right; now right].
      destruct (Z.max_spec v x) as [[_ E] | [_ E]]; rewrite E in *;
        [right; now left | now left].
    + inversion Hall as [|? ? Hm Hr]; subst.
      constructor; [lia |]. constructor; [lia | exact Hr].
Qed.

Lemma fold_min_spec (r : list Z) (v : Z) :
  In (fold_left Z.min r v) (v :: r)
  /\ Forall (fun x => (fold_left Z.min r v <= x)%Z) (v :: r).
Proof.
  revert v. induction r as [|x r IH]; intro v; cbn [fold_left].
  - split; [now left | repeat constructor; lia].
  - destruct (IH (Z.min v x)) as [Hin Hall]. split.
    + destruct Hin as [Hin | Hin]; [| right; now right].
      destruct (Z.min_spec v x) as [[_ E] | [_ E]]; rewrite E in *;
        [now left | right; now left].
    + inversion Hall as [|? ? Hm Hr]; subst.
      constructor; [lia |]. constructor; [lia | exact Hr].
Qed.

(** What the code computes for a column is its statistic. *)
Lemma series_agg_ref (op : operation) (d : numeric_data) :
  ref_statistic lib op d (series_agg lib op d).
Proof.
  destruct d as [vals | vals]; [| reflexivity].
  destruct op; cbn [ref_statistic series_agg].
  - exists (wrap_int64 (fold_left Z.add vals 0%Z)). split; [reflexivity |].
    rewrite <- (Z.add_0_l (fold_right Z.add 0%Z vals)), <- fold_left_add.
    apply wrap_int64_spec.
  - reflexivity.
  - destruct vals as [|v r]; [left; now split |]. right.
    exists (fold_left Z.max r v). split; [reflexivity | apply fold_max_spec].
  - destruct vals as [|v r]; [left; now split |]. right.
    exists (fold_left Z.min r v). split; [reflexivity | apply fold_min_spec].
Qed.

(** The words of the query choose the operation the handler is called
    with. *)
Lemma dispatch_aggregation (self : agent) (df : DataFrame) (query : string) (op : operation) :
  ref_requested_statistic (lower query) = Some op ->
  dispatch lib self df query = _handle_aggregation_query lib df query op.
Proof.
  unfold ref_requested_statistic, dispatch.
  replace (any_in ["sum"; "total"; "add"] (lower query))
    with (any_in ["total"; "sum"; "add"] (lower query))
    by (unfold any_in; cbn [existsb];
        destruct (contains "total" (lower query)), (contains "sum" (lower query));
        reflexivity).
  destruct (any_in ["total"; "sum"; "add"] (lower query));
    [intro H; inversion H; reflexivity |].
  destruct (any_in ["average"; "mean"; "avg"] (lower query));
    [intro H; inversion H; reflexivity |].
  destruct (any_in ["maximum"; "max"; "highest"] (lower query));
    [intro H; inversion H; reflexivity |].
  destruct (any_in ["minimum"; "min"; "lowest"] (lower query));
    [intro H; inversion H; reflexivity | discriminate].
Qed.

Lemma numeric_items_statistics (op : operation) (df : DataFrame) :
  Forall2
    (fun c entry =>
       fst entry = col_name c
       /\ exists d, col_data c = Numeric d /\ ref_statistic lib op d (snd entry))
    (filter (fun c => match col_data c with Numeric _ => true | Object _ => false end) df)
    (map (fun '(name, d) => (name, series_agg lib op d)) (numeric_items df)).
Proof.
  unfold numeric_items. induction df as [|c r IH]; [constructor |].
  cbn [filter flat_map]. destruct (col_data c) as [d | v] eqn:E; cbn [app map].
  - constructor; [| exact IH]. split; [reflexivity |].
    exists d. split; [exact E | apply series_agg_ref].
  - exact IH.
Qed.

(** C6, as the code has it: the words of the query choose the statistic
    (sum, mean, maximum, minimum, in this order of precedence), and the
    target of the query is the FIRST column, in column order, whose
    lowercased name occurs in the lowercased query.  When that column is
    numeric its statistic alone is returned, reported with the [,.2f]
    format; when no column name occurs in the query the statistic of
    every numeric column is returned as a mapping in column order.  On a
    frame where the column so found is [Revenue] holding 1200, 75, 400,
    1200, 80, [what is the total Revenue] yields the sum 2955 and the
    message value [2,955.00]. *)
Theorem aggregation_resolves_target_column
    (self : agent) (dataset_name : option string) (df : DataFrame)
    (query : string) (op : operation) :
  target_frame self dataset_name = Some df ->
  NoDup (map col_name df) ->
  ref_requested_statistic (lower query) = Some op ->
  let name := match op with
              | op_sum => "sum" | op_mean => "mean" | op_max => "max" | op_min => "min"
              end in
  let title := match op with
               | op_sum => "Sum" | op_mean => "Mean" | op_max => "Max" | op_min => "Min"
               end in
  (forall c d,
     find (fun c => contains (lower (col_name c)) (lower query)) df = Some c ->
     col_name c <> "" ->
     col_data c = Numeric d ->
     exists r,
       ref_statistic lib op d r
       /\ fst (process_query lib self query dataset_name)
          = [ ("success", VBool true);
              ("result", of_number r);
              ("message", VStr ("The " ++ name ++ " of " ++ col_name c
                                  ++ " is " ++ format_number_2f r));
              ("query_type", VStr "aggregation") ])
  /\ (find (fun c => contains (lower (col_name c)) (lower query)) df = None ->
      exists results : list (string * number),
        Forall2
          (fun c entry =>
             fst entry = col_name c
             /\ exists d, col_data c = Numeric d /\ ref_statistic lib op d (snd entry))
          (filter (fun c => match col_data c with Numeric _ => true | Object _ => false end)
             df)
          results
        /\ fst (process_query lib self query dataset_name)
           = [ ("success", VBool true);
               ("results", VDict (map (fun '(name, r) => (name, of_number r)) results));
               ("message", VStr (title ++ " values for all numeric columns"));
               ("query_type", VStr "aggregation") ])
  /\ (find (fun c => contains (lower (col_name c)) (lower "what is the total Revenue")) df
      = Some {| col_name := "Revenue";
                col_data := Numeric (Int64 [1200; 75; 400; 1200; 80]%Z) |} ->
      fst (process_query lib self "what is the total Revenue" dataset_name)
      = [ ("success", VBool true);
          ("result", VInt 2955);
          ("message", VStr "The sum of Revenue is 2,955.00");
          ("query_type", VStr "aggregation") ]).
Proof.
  intros Hdf Hnd Hop. cbv zeta.
  assert (Hone : forall q o c d,
            find (fun c => contains (lower (col_name c)) (lower q)) df = Some c ->
            col_name c <> "" ->
            col_data c = Numeric d ->
            _handle_aggregation_query lib df q o
            = Return [ ("success", VBool true);
                       ("result", of_number (series_agg lib o d));
                       ("message", VStr ("The " ++ operation_name o ++ " of " ++ col_name c
                                           ++ " is " ++ format_number_2f (series_agg lib o d)));
                       ("query_type", VStr "aggregation") ]).
  { intros q o c d Hfind Hname Hdata.
    unfold _handle_aggregation_query, find_mentioned. rewrite Hfind. simpl option_map.
    apply find_some in Hfind. destruct Hfind as [Hin _].
    assert (Hmem : mem (col_name c) (numeric_columns df) = true).
    { apply mem_In. unfold numeric_columns. apply in_map. apply filter_In.
      split; [exact Hin |]. unfold is_numeric. now rewrite Hdata. }
    rewrite Hmem.
    destruct (String.eqb (col_name c) "") eqn:E;
      [apply String.eqb_eq in E; contradiction |].
    simpl andb. cbv iota. unfold aggregate.
    rewrite (frame_get_unique df c Hnd Hin).
    destruct c as [cn cd]. simpl in *. subst cd. reflexivity. }
  assert (Hrun : forall q o,
            ref_requested_statistic (lower q) = Some o ->
            fst (process_query lib self q dataset_name)
            = try_except (_handle_aggregation_query lib df q o)
                (fun e => error_result ("Failed to process query: " ++ e))).
  { intros q o Ho. unfold process_query. rewrite Hdf. cbn [fst].
    now rewrite (dispatch_aggregation self df q o Ho). }
  split; [| split].
  - intros c d Hfind Hname Hdata. exists (series_agg lib op d).
    split; [apply series_agg_ref |].
    rewrite (Hrun query op Hop), (Hone query op c d Hfind Hname Hdata).
    destruct op; reflexivity.
  - intro Hnone.
    exists (map (fun '(name, d) => (name, series_agg lib op d)) (numeric_items df)).
    split; [apply numeric_items_statistics |].
    rewrite (Hrun query op Hop).
    unfold _handle_aggregation_query, find_mentioned. rewrite Hnone.
    simpl option_map. cbv iota. rewrite (aggregate_all_mapping df op Hnd).
    cbn [try_except]. rewrite map_map.
    replace (map (fun x : string * numeric_data =>
                    let '(name, r) := let '(name, d) := x in (name, series_agg lib op d) in
                    (name, of_number r)) (numeric_items df))
      with (map (fun '(name, d) => (name, of_number (series_agg lib op d)))
              (numeric_items df))
      by (apply map_ext; now intros [name d]).
    destruct op; reflexivity.
  - intro Hfind. rewrite (Hrun "what is the total Revenue" op_sum eq_refl).
    rewrite (Hone _ op_sum _ (Int64 [1200; 75; 400; 1200; 80]%Z) Hfind);
      [reflexivity | discriminate | reflexivity].
Qed.

End WithLibraries.

(** ** Ranking *)

Lemma int_better_asym (ascending : bool) (a b : Z) :
  int_better ascending a b = true -> int_better ascending b a = false.
Proof.
  unfold int_better. destruct ascending; rewrite Z.ltb_lt, Z.ltb_ge; lia.
Qed.

Lemma int_better_negtrans (ascending : bool) (a b c : Z) :
  int_better ascending b a = false -> int_better ascending c b = false ->
  int_better ascending c a = false.
Proof.
  unfold int_better. destruct ascending; rewrite !Z.ltb_ge; lia.
Qed.

Lemma select_n_int_extreme (ascending : bool) (n : nat) (vals : list Z) :
  extreme_rows ascending (Int64 vals) n (select_n_int ascending n vals).
Proof.
  unfold extreme_rows, row_ranks_before, numeric_length.
  replace (select_n_int ascending n vals)
    with (map fst (firstn n (sort_by (sort_cmp (int_better ascending))
                                (enumerate vals))))
    by (unfold select_n_int; destruct ascending; reflexivity).
  apply (PyFacts.top_rows_extreme (int_better ascending)).
  - intros i j a b Hi Hj. unfold row_better. now rewrite Hi, Hj.
  - apply PyFacts.sort_by_perm.
  - apply (PyFacts.sort_ranked (int_better ascending) (fun _ => True)).
    + apply int_better_asym.
    + intros a b c _ _ _. apply int_better_negtrans.
    + rewrite Forall_forall. intros; exact I.
    + apply PyFacts.enumerate_from_increasing.
Qed.

Lemma select_n_float_extreme (ascending : bool) (n : nat) (vals : list float) :
  extreme_rows ascending (Float64 vals) n (select_n_float ascending n vals).
Proof.
  unfold extreme_rows, row_ranks_before, numeric_length.
  pose (better := fun a b : float =>
                    if ascending then PrimFloat.ltb a b else PrimFloat.ltb b a).
  replace (select_n_float ascending n vals)
    with (map fst (firstn n (ranked_rows better is_nan vals)))
    by (unfold select_n_float, ranked_rows, better; destruct ascending; reflexivity).
  apply (PyFacts.top_rows_extreme (better_present better is_nan)).
  - intros i j a b Hi Hj. unfold row_better. now rewrite Hi, Hj.
  - apply PyFacts.ranked_rows_perm.
  - apply PyFacts.ranked_rows_sorted.
    + intros a b. unfold better. destruct ascending; apply PyFacts.float_ltb_asym.
    + intros a b c Ha Hb Hc. unfold better. destruct ascending; intros H1 H2.
      * now apply (PyFacts.float_ltb_negtrans a b c).
      * now apply (PyFacts.float_ltb_negtrans c b a).
Qed.

(** [df.nlargest] / [df.nsmallest] on a numeric column never fails and
    returns the extreme rows. *)
Lemma select_n_extreme (ascending : bool) (n : nat) (df : DataFrame)
    (name : string) (c : column) (d : numeric_data) :
  frame_get df name = Some c -> col_data c = Numeric d ->
  exists rows, select_n ascending n name df = Return rows
               /\ extreme_rows ascending d n rows.
Proof.
  intros Hc Hd. unfold select_n. rewrite Hc, Hd. destruct d as [v | v].
  - eexists. split; [reflexivity | apply select_n_int_extreme].
  - eexists. split; [reflexivity | apply select_n_float_extreme].
Qed.

Lemma wf_names_nonempty (df : DataFrame) (name : string) :
  wf_frame df -> In name (map col_name df) -> String.eqb name "" = false.
Proof.
  intros [_ Hwf] Hin. apply in_map_iff in Hin. destruct Hin as [c [<- Hc]].
  rewrite Forall_forall in Hwf. destruct (Hwf c Hc) as [Hne _].
  now apply String.eqb_neq.
Qed.

Lemma numeric_columns_incl (df : DataFrame) (name : string) :
  In name (numeric_columns df) -> In name (map col_name df).
Proof.
  unfold numeric_columns. intro H. apply in_map_iff in H. destruct H as [c [<- Hc]].
  apply filter_In in Hc. apply in_map. tauto.
Qed.

(** The column [_handle_ranking_query] ranks by, on a frame whose names
    are not empty: the first one mentioned, else the first numeric one. *)
Lemma ranking_target (df : DataFrame) (query_lower : string) :
  wf_frame df ->
  match find_mentioned df query_lower with
  | Some t => if String.eqb t "" then hd_error (numeric_columns df) else Some t
  | None => hd_error (numeric_columns df)
  end
  = match find (fun c => contains (lower (col_name c)) query_lower) df with
    | Some c => Some (col_name c)
    | None => hd_error (numeric_columns df)
    end.
Proof.
  intro Hwf. unfold find_mentioned.
  destruct (find (fun c => contains (lower (col_name c)) query_lower) df) as [c|] eqn:E;
    simpl; [| reflexivity].
  apply find_some in E. destruct E as [Hin _].
  now rewrite (wf_names_nonempty df (col_name c) Hwf (in_map col_name df c Hin)).
Qed.

(** C7, as the code has it: a ranking query takes N from the first
    integer literal of the query (5 without one), ranks ascending exactly
    when the query says [bottom] or [lowest], and ranks by the first
    column whose lowercased name occurs in the lowercased query, else by
    the first numeric column.  When that column is numeric the result is
    the N extreme rows by it, as many as there are when the frame has
    fewer, the row seen first going first among equal values; a text
    column is refused with the [TypeError] of [nlargest]/[nsmallest], and
    without any column to rank by the answer is an error result.  So
    [top 3 by Revenue], when [Revenue] is the column found and is
    numeric, returns min(3, row count) rows in descending order of
    [Revenue]: exactly 3 on a frame of at least 3 rows. *)
Theorem ranking_returns_extreme_rows
    (lib : libraries) (df : DataFrame) (query : string) :
  wf_frame df ->
  let n := match first_number query with
           | Some digits => int_of_digits digits
           | None => 5%N
           end in
  let ascending := contains "bottom" (lower query) || contains "lowest" (lower query) in
  let target := match find (fun c => contains (lower (col_name c)) (lower query)) df with
                | Some c => Some (col_name c)
                | None => hd_error (numeric_columns df)
                end in
  (forall name c d,
     target = Some name -> frame_get df name = Some c -> col_data c = Numeric d ->
     exists rows,
       _handle_ranking_query df query
       = Return [ ("success", VBool true);
                  ("result", VList (map (record_of_row df) rows));
                  ("message", VStr ((if ascending then "Bottom" else "Top") ++ " "
                                      ++ digits_of_N n ++ " records by " ++ name));
                  ("query_type", VStr "ranking") ]
       /\ extreme_rows ascending d (N.to_nat n) rows)
  /\ (forall name c v,
        target = Some name -> frame_get df name = Some c -> col_data c = Object v ->
        _handle_ranking_query df query
        = Raise ("Column '" ++ name ++ "' has dtype object, cannot use method '"
                   ++ (if ascending then "nsmallest" else "nlargest")
                   ++ "' with this dtype"))
  /\ (target = None ->
      _handle_ranking_query df query
      = Return (error_result "Could not identify column for ranking"))
  /\ (forall self dataset_name c d,
        target_frame self dataset_name = Some df ->
        find (fun c => contains (lower (col_name c)) (lower "top 3 by Revenue")) df = Some c ->
        col_name c = "Revenue" -> col_data c = Numeric d ->
        exists rows,
          fst (process_query lib self "top 3 by Revenue" dataset_name)
          = [ ("success", VBool true);
              ("result", VList (map (record_of_row df) rows));
              ("message", VStr "Top 3 records by Revenue");
              ("query_type", VStr "ranking") ]
          /\ extreme_rows false d 3 rows
          /\ List.length rows = Nat.min 3 (nrows df)
          /\ (3 <= nrows df -> List.length rows = 3)).
Proof.
  intros Hwf.
  assert (Hgen : forall q name c d,
            match find (fun c => contains (lower (col_name c)) (lower q)) df with
            | Some c => Some (col_name c)
            | None => hd_error (numeric_columns df)
            end = Some name ->
            frame_get df name = Some c -> col_data c = Numeric d ->
            exists rows,
              _handle_ranking_query df q
              = Return [ ("success", VBool true);
                         ("result", VList (map (record_of_row df) rows));
                         ("message",
                          VStr ((if contains "bottom" (lower q) || contains "lowest" (lower q)
                                 then "Bottom" else "Top") ++ " "
                                  ++ digits_of_N (match first_number q with
                                                  | Some digits => int_of_digits digits
                                                  | None => 5%N
                                                  end)
                                  ++ " records by " ++ name));
                         ("query_type", VStr "ranking") ]
              /\ extreme_rows (contains "bottom" (lower q) || contains "lowest" (lower q)) d
                   (N.to_nat (match first_number q with
                              | Some digits => int_of_digits digits
                              | None => 5%N
                              end)) rows).
  { intros q name c d Ht Hc Hd.
    unfold _handle_ranking_query. rewrite (ranking_target df (lower q) Hwf), Ht.
    destruct (frame_get_In df name c Hc) as [Hin Hn].
    rewrite (wf_names_nonempty df name Hwf)
      by (rewrite <- Hn; now apply in_map).
    destruct (select_n_extreme
                (contains "bottom" (lower q) || contains "lowest" (lower q))
                (N.to_nat (match first_number q with
                           | Some digits => int_of_digits digits
                           | None => 5%N
                           end)) df name c d Hc Hd) as [rows [Hsel Hext]].
    exists rows. split; [| exact Hext]. rewrite Hsel. reflexivity. }
  cbv zeta. split; [exact (Hgen query) |]. split; [| split].
  - intros name c v Ht Hc Hd.
    unfold _handle_ranking_query. rewrite (ranking_target df (lower query) Hwf), Ht.
    destruct (frame_get_In df name c Hc) as [Hin Hn].
    rewrite (wf_names_nonempty df name Hwf)
      by (rewrite <- Hn; now apply in_map).
    unfold select_n. rewrite Hc, Hd. reflexivity.
  - intro Ht. unfold _handle_ranking_query.
    rewrite (ranking_target df (lower query) Hwf), Ht. reflexivity.
  - intros self dataset_name c d Hdf Hfind Hname Hdata.
    assert (Hin : In c df) by (apply find_some in Hfind; tauto).
    assert (Hget : frame_get df "Revenue" = Some c).
    { rewrite <- Hname. apply frame_get_unique; [apply Hwf | exact Hin]. }
    destruct (Hgen "top 3 by Revenue" "Revenue" c d) as [rows [Hq Hext]];
      [now rewrite Hfind, Hname | exact Hget | exact Hdata |].
    exists rows.
    assert (Hlen : List.length rows = Nat.min 3 (nrows df)).
    { destruct Hext as [Hl _]. change (N.to_nat 3) with 3 in Hl. rewrite Hl.
      destruct Hwf as [_ Hwf]. rewrite Forall_forall in Hwf.
      destruct (Hwf c Hin) as [_ Hrows]. rewrite <- Hrows, Hdata.
      destruct d; reflexivity. }
    split; [| split; [exact Hext | split; [exact Hlen | intro H3; lia]]].
    unfold process_query. rewrite Hdf. cbn [fst]. unfold dispatch.
    change (lower "top 3 by Revenue") with "top 3 by revenue".
    replace (any_in ["total"; "sum"; "add"] "top 3 by revenue") with false by reflexivity.
    replace (any_in ["average"; "mean"; "avg"] "top 3 by revenue") with false by reflexivity.
    replace (any_in ["maximum"; "max"; "highest"] "top 3 by revenue") with false by reflexivity.
    replace (any_in ["minimum"; "min"; "lowest"] "top 3 by revenue") with false by reflexivity.
    replace (any_in ["count"; "number of"] "top 3 by revenue") with false by reflexivity.
    replace (any_in ["plot"; "chart"; "graph"; "visualize"; "show"] "top 3 by revenue")
      with false by reflexivity.
    replace (any_in ["trend"; "over time"; "timeline"] "top 3 by revenue")
      with false by reflexivity.
    replace (any_in ["top"; "bottom"; "rank"] "top 3 by revenue") with true by reflexivity.
    cbv iota. rewrite Hq. reflexivity.
Qed.

Lemma sales_wf : wf_frame Examples.sales.
Proof.
  split.
  - repeat constructor; simpl; intuition discriminate.
  - repeat constructor; discriminate.
Qed.

Lemma ranking_returns_extreme_rows_witness :
  wf_frame Examples.sales
  /\ exists rows,
       fst (process_query Examples.plain_libraries Examples.sales_agent
              "top 3 by Revenue" None)
       = [ ("success", VBool true);
           ("result", VList (map (record_of_row Examples.sales) rows));
           ("message", VStr "Top 3 records by Revenue");
           ("query_type", VStr "ranking") ]
       /\ extreme_rows false (Int64 [1200; 75; 400; 1200; 80]%Z) 3 rows
       /\ List.length rows = Nat.min 3 (nrows Examples.sales)
       /\ (3 <= nrows Examples.sales -> List.length rows = 3).
Proof.
  split; [exact sales_wf |].
  destruct (ranking_returns_extreme_rows Examples.plain_libraries Examples.sales
              "top 3 by Revenue" sales_wf) as [_ [_ [_ H]]].
  apply (H Examples.sales_agent None Examples.revenue_column); reflexivity.
Defined.

(** The rows that query returns on the sales table: the two rows with
    1200 in file order, then the row with 400. *)
Example top_3_by_revenue_on_sales :
  Examples.result_rows
    (fst (process_query Examples.plain_libraries Examples.sales_agent
            "top 3 by Revenue" None))
  = Some (map (record_of_row Examples.sales) [0; 3; 2]).
Proof. vm_compute. reflexivity. Qed.

(** C7 as stated fails on a table of two rows: [Revenue] is numeric and
    is the column found, yet [top 3 by Revenue] returns two rows. *)
Lemma top_3_of_two_rows :
  frame_get Examples.short_sales "Revenue"
  = Some {| col_name := "Revenue"; col_data := Numeric (Int64 [1200; 75]%Z) |}
  /\ fst (process_query Examples.plain_libraries Examples.short_sales_agent
            "top 3 by Revenue" None)
     = [ ("success", VBool true);
         ("result",
          VList [ VDict [("Product", VStr "Laptop"); ("Revenue", VInt 1200)];
                  VDict [("Product", VStr "Mouse"); ("Revenue", VInt 75)] ]);
         ("message", VStr "Top 3 records by Revenue");
         ("query_type", VStr "ranking") ]
  /\ option_map (@List.length pyval)
       (Examples.result_rows
          (fst (process_query Examples.plain_libraries Examples.short_sales_agent
                  "top 3 by Revenue" None)))
     = Some 2.
Proof. repeat split; vm_compute; reflexivity. Qed.

Lemma aggregation_resolves_target_column_witness :
  target_frame Examples.sales_agent None = Some Examples.sales
  /\ NoDup (map col_name Examples.sales)
  /\ ref_requested_statistic (lower "what is the total Revenue") = Some op_sum
  /\ fst (process_query Examples.plain_libraries Examples.sales_agent
            "what is the total Revenue" None)
     = [ ("success", VBool true);
         ("result", VInt 2955);
         ("message", VStr "The sum of Revenue is 2,955.00");
         ("query_type", VStr "aggregation") ].
Proof.
  assert (Hnd : NoDup (map col_name Examples.sales)) by apply sales_wf.
  split; [reflexivity |]. split; [exact Hnd |]. split; [reflexivity |].
  destruct (aggregation_resolves_target_column Examples.plain_libraries Examples.sales_agent
              None Examples.sales "what is the total Revenue" op_sum eq_refl Hnd eq_refl)
    as [_ [_ H3]].
  exact (H3 eq_refl).
Defined.

(** The four statistics of [Revenue], the mapping when no column is
    named, and the rendering of the numbers. *)
Example aggregation_on_sales :
  let ask q := fst (process_query Examples.plain_libraries Examples.sales_agent q None) in
  dict_get (ask "lowest revenue") "message" = Some (VStr "The min of Revenue is 75.00")
  /\ dict_get (ask "highest revenue") "message"
     = Some (VStr "The max of Revenue is 1,200.00")
  /\ dict_get (ask "average revenue") "message"
     = Some (VStr "The mean of Revenue is 591.00")
  /\ dict_get (ask "what is the highest value") "results"
     = Some (VDict [ ("Revenue", VInt 1200); ("Margin", VFloat 0.75) ])
  /\ format_number_2f (NInt (-1200)) = "-1,200.00"
  /\ format_number_2f (NFloat 1234567.75) = "1,234,567.75"
  /\ format_number_2f (NFloat 0.125) = "0.12"
  /\ format_number_2f (NFloat 0.375) = "0.38"
  /\ format_number_2f (NFloat 999.99609375) = "1,000.00".
Proof. cbv zeta. repeat split; vm_compute; reflexivity. Qed.

(** With a column [At] ahead of [Revenue] the same question is answered
    from [At]: its name occurs in [what]. *)
Lemma revenue_is_not_the_first_match :
  In Examples.revenue_column Examples.attendance
  /\ fst (process_query Examples.plain_libraries Examples.attendance_agent
            "what is the total Revenue" None)
     = [ ("success", VBool true);
         ("result", VInt 15);
         ("message", VStr "The sum of At is 15.00");
         ("query_type", VStr "aggregation") ]
  /\ dict_get (fst (process_query Examples.plain_libraries Examples.attendance_agent
                      "what is the total Revenue" None)) "result"
     <> Some (VInt 2955).
Proof.
  split; [right; now left |]. split; [reflexivity |].
  vm_compute. discriminate.
Qed.

(** A failure inside a handler: ranking by a text column. *)
Example process_query_catches_type_error :
  DataAgent.dispatch Examples.plain_libraries Examples.sales_agent Examples.sales
    "top 2 product"
  = Raise "Column 'Product' has dtype object, cannot use method 'nlargest' with this dtype"
  /\ fst (process_query Examples.plain_libraries Examples.sales_agent "top 2 product" None)
     = error_result
         "Failed to process query: Column 'Product' has dtype object, cannot use method 'nlargest' with this dtype".
Proof. split; vm_compute; reflexivity. Qed.

Example process_query_nothing_loaded :
  process_query Examples.plain_libraries Examples.fresh_agent "count the rows" None
  = (error_result "No dataset loaded. Please upload a file first.", Examples.fresh_agent).
Proof. reflexivity. Qed.

(** The condition and the column named in the query play no part; a
    table of 1234 rows is counted with its thousands separator. *)
Lemma count_query_returns_row_count_witness :
  target_frame Examples.sales_agent None = Some Examples.sales
  /\ Examples.sales <> []
  /\ any_in ["count"; "number of"] (lower "Count Product where Revenue > 100") = true
  /\ process_query Examples.plain_libraries Examples.sales_agent
       "Count Product where Revenue > 100" None
     = ([ ("success", VBool true);
          ("result", VInt 5);
          ("message", VStr "Total number of records: 5");
          ("query_type", VStr "count") ],
        Examples.sales_agent)
  /\ fst (process_query Examples.plain_libraries Examples.readings_agent
            "number of readings" None)
     = [ ("success", VBool true);
         ("result", VInt 1234);
         ("message", VStr "Total number of records: 1,234");
         ("query_type", VStr "count") ].
Proof.
  split; [reflexivity |]. split; [discriminate |]. split; [reflexivity |]. split.
  - assert (Hrows : Forall (fun c => match col_data c with
                                     | Numeric (Int64 vals) => List.length vals
                                     | Numeric (Float64 vals) => List.length vals
                                     | Object vals => List.length vals
                                     end = 5) Examples.sales)
      by (repeat constructor).
    exact (count_query_returns_row_count Examples.plain_libraries Examples.sales_agent
             "Count Product where Revenue > 100" None Examples.sales 5
             eq_refl ltac:(discriminate) Hrows eq_refl eq_refl eq_refl eq_refl eq_refl).
  - assert (Hrows : Forall (fun c => match col_data c with
                                     | Numeric (Int64 vals) => List.length vals
                                     | Numeric (Float64 vals) => List.length vals
                                     | Object vals => List.length vals
                                     end = 1234) Examples.readings)
      by (repeat constructor; apply repeat_length).
    now rewrite (count_query_returns_row_count Examples.plain_libraries
                   Examples.readings_agent "number of readings" None Examples.readings 1234
                   eq_refl ltac:(discriminate) Hrows eq_refl eq_refl eq_refl eq_refl eq_refl).
Defined.

(** ** Loading *)

Lemma storage_get_set_same {V : Type} (st : list (string * V)) (k : string) (v : V) :
  storage_get (storage_set st k v) k = Some v.
Proof.
  induction st as [|[k0 v0] r IH]; simpl.
  - now rewrite String.eqb_refl.
  - destruct (String.eqb k0 k) eqn:E; simpl; rewrite E; [reflexivity | exact IH].
Qed.

Lemma storage_get_set_other {V : Type} (st : list (string * V)) (k k' : string) (v : V) :
  k <> k' -> storage_get (storage_set st k v) k' = storage_get st k'.
Proof.
  intro Hk. induction st as [|[k0 v0] r IH]; simpl.
  - destruct (String.eqb k k') eqn:E; [apply String.eqb_eq in E; contradiction | reflexivity].
  - destruct (String.eqb k0 k) eqn:E; simpl.
    + apply String.eqb_eq in E. subst k0.
      destruct (String.eqb k k') eqn:E'; [apply String.eqb_eq in E'; contradiction | reflexivity].
    + destruct (String.eqb k0 k'); [reflexivity | exact IH].
Qed.

Lemma storage_set_keys {V : Type} (st : list (string * V)) (k : string) (v : V) :
  map fst (storage_set st k v) = map fst st
  \/ (~ In k (map fst st) /\ map fst (storage_set st k v) = map fst st ++ [k]).
Proof.
  induction st as [|[k0 v0] r IH]; simpl.
  - right. split; [tauto | reflexivity].
  - destruct (String.eqb k0 k) eqn:E; simpl.
    + now left.
    + apply String.eqb_neq in E. destruct IH as [IH | [Hn IH]].
      * left. now rewrite IH.
      * right. split; [intros [H | H]; [congruence | contradiction] | now rewrite IH].
Qed.

Lemma storage_set_NoDup {V : Type} (st : list (string * V)) (k : string) (v : V) :
  NoDup (map fst st) -> NoDup (map fst (storage_set st k v)).
Proof.
  intro H. destruct (storage_set_keys st k v) as [-> | [Hn ->]]; [exact H |].
  apply NoDup_app; [exact H | repeat constructor; intros [] | ].
  intros x Hx [<- | []]. exact (Hn Hx).
Qed.

Section Loading.

Variable lib : libraries.
Variable rd : readers.

(** X2: a load that fails leaves the agent as it was: an extension other
    than [.csv], [.xlsx] and [.xls] (compared in lower case) is refused
    before anything is read, and a reader that raises is reported with
    its message. *)
Theorem failed_load_changes_nothing (self : agent) (file_path file_name : string) :
  let file_extension := lower (path_suffix rd file_path) in
  (file_extension <> ".csv" -> file_extension <> ".xlsx" -> file_extension <> ".xls" ->
   load_data lib rd self file_path file_name
   = (error_result ("Unsupported file format: " ++ file_extension), self))
  /\ (forall e, file_extension = ".csv" -> read_csv rd file_path = Raise e ->
        load_data lib rd self file_path file_name
        = (error_result ("Failed to load file: " ++ e), self))
  /\ (forall e, file_extension = ".xlsx" \/ file_extension = ".xls" ->
        read_excel rd file_path = Raise e ->
        load_data lib rd self file_path file_name
        = (error_result ("Failed to load file: " ++ e), self)).
Proof.
  cbv zeta. unfold load_data. split; [| split].
  - intros H1 H2 H3.
    apply String.eqb_neq in H1, H2, H3. unfold mem. cbn [existsb].
    now rewrite H1, H2, H3.
  - intros e He Hr. rewrite He, Hr. reflexivity.
  - intros e He Hr. unfold mem. cbn [existsb].
    destruct He as [He | He]; rewrite He, Hr; reflexivity.
Qed.

(** What a load that succeeds gives the agent. *)
Lemma load_data_stores (self : agent) (file_path file_name : string) (df : DataFrame) :
  (lower (path_suffix rd file_path) = ".csv" /\ read_csv rd file_path = Return df)
  \/ ((lower (path_suffix rd file_path) = ".xlsx" \/ lower (path_suffix rd file_path) = ".xls")
      /\ read_excel rd file_path = Return df) ->
  load_data lib rd self file_path file_name
  = ([ ("success", VBool true);
       ("message", VStr ("Successfully loaded " ++ file_name));
       ("info", VDict (_generate_dataset_info lib df file_name)) ],
     {| data_storage := storage_set (data_storage self) file_name df;
        current_dataset := Some file_name;
        dataset_info := storage_set (dataset_info self) file_name
                          (_generate_dataset_info lib df file_name) |}).
Proof.
  unfold load_data, mem. cbn [existsb].
  intros [[He Hr] | [[He | He] Hr]]; rewrite He, Hr; reflexivity.
Qed.

(** X3: after a load that succeeds the frame read is stored under the file
    name given, the other datasets are as before, and the new dataset is
    the one queries and summaries address by default: [process_query]
    answers from it and [get_dataset_summary] returns the information
    made at load time. *)
Theorem loaded_dataset_is_current
    (self : agent) (file_path file_name : string) (df : DataFrame) :
  file_name <> "" ->
  (lower (path_suffix rd file_path) = ".csv" /\ read_csv rd file_path = Return df)
  \/ ((lower (path_suffix rd file_path) = ".xlsx" \/ lower (path_suffix rd file_path) = ".xls")
      /\ read_excel rd file_path = Return df) ->
  let loaded := snd (load_data lib rd self file_path file_name) in
  storage_get (data_storage loaded) file_name = Some df
  /\ (forall other, other <> file_name ->
        storage_get (data_storage loaded) other = storage_get (data_storage self) other)
  /\ current_dataset loaded = Some file_name
  /\ (forall query,
        fst (process_query lib loaded query None)
        = try_except (dispatch lib loaded df query)
            (fun e => error_result ("Failed to process query: " ++ e)))
  /\ get_dataset_summary loaded None
     = Return [ ("success", VBool true);
                ("summary", VDict (_generate_dataset_info lib df file_name)) ].
Proof.
  intros Hname Hread. cbv zeta. rewrite (load_data_stores self _ _ df Hread). cbn [snd].
  apply String.eqb_neq in Hname.
  split; [apply storage_get_set_same |].
  split; [intros other Ho; apply storage_get_set_other; congruence |].
  split; [reflexivity |].
  split.
  - intro query. unfold process_query, target_frame.
    cbn [current_dataset data_storage]. rewrite Hname, storage_get_set_same. reflexivity.
  - unfold get_dataset_summary, resolve_dataset.
    cbn [current_dataset data_storage dataset_info].
    rewrite Hname, !storage_get_set_same. reflexivity.
Qed.

(** X4: [load_data] keeps the two stores in step, whatever its outcome: no
    name is stored twice and every dataset has its information.  On such
    an agent [get_dataset_summary] always returns a result; the lookup in
    [dataset_info] finds its key. *)
Theorem load_data_keeps_stores_in_step (self : agent) (file_path file_name : string) :
  stores_agree self ->
  stores_agree (snd (load_data lib rd self file_path file_name))
  /\ (forall dataset_name,
        exists r, get_dataset_summary (snd (load_data lib rd self file_path file_name))
                    dataset_name = Return r).
Proof.
  intro Hself.
  assert (Hkept : stores_agree (snd (load_data lib rd self file_path file_name))).
  { unfold load_data.
    destruct (if String.eqb (lower (path_suffix rd file_path)) ".csv"
              then Some (read_csv rd file_path)
              else if mem (lower (path_suffix rd file_path)) [".xlsx"; ".xls"]
                   then Some (read_excel rd file_path) else None) as [[df | e] |];
      cbn [snd]; try exact Hself.
    destruct Hself as [Hd [Hi Hcov]]. unfold stores_agree.
    cbn [data_storage dataset_info].
    split; [now apply storage_set_NoDup |]. split; [now apply storage_set_NoDup |].
    intros name df' Hget. destruct (String.eqb file_name name) eqn:E.
    - apply String.eqb_eq in E. subst name. rewrite storage_get_set_same. eauto.
    - apply String.eqb_neq in E. rewrite storage_get_set_other in Hget by exact E.
      rewrite storage_get_set_other by exact E. eauto. }
  split; [exact Hkept |].
  intro dataset_name. unfold get_dataset_summary.
  set (after := snd (load_data lib rd self file_path file_name)) in *.
  destruct (resolve_dataset after dataset_name) as [name|] eqn:E; [| eauto].
  assert (Hin : exists df, storage_get (data_storage after) name = Some df).
  { unfold resolve_dataset in E.
    destruct (match dataset_name with
              | Some n => if String.eqb n "" then current_dataset after else Some n
              | None => current_dataset after
              end) as [n|]; [| discriminate].
    destruct (String.eqb n ""); [discriminate |].
    destruct (storage_get (data_storage after) n) as [df|] eqn:G; [| discriminate].
    inversion E; subst. eauto. }
  destruct Hin as [df Hdf]. destruct Hkept as [_ [_ Hcov]].
  destruct (Hcov name df Hdf) as [info Hinfo]. rewrite Hinfo. eauto.
Qed.

(** ** The dataset information *)

Lemma remove_first_app (x : string) (a b : list string) :
  ~ In x a -> remove_first x (a ++ x :: b) = a ++ b.
Proof.
  induction a as [|y r IH]; intro H; simpl.
  - now rewrite String.eqb_refl.
  - destruct (String.eqb y x) eqn:E.
    + apply String.eqb_eq in E. exfalso. apply H. now left.
    + rewrite IH; [reflexivity | intro K; apply H; now right].
Qed.

Lemma date_like_object (c : column) : date_like lib c = true -> is_object c = true.
Proof.
  unfold date_like, object_head, is_object, is_numeric.
  destruct (col_data c); [discriminate | reflexivity].
Qed.

Lemma column_kinds_loop (rest : list column) (categorical datetime : list string) :
  NoDup (map col_name rest) ->
  (forall c, In c rest -> ~ In (col_name c) categorical) ->
  fold_left
    (fun '(categorical, datetime) col =>
       if date_like lib col
       then (remove_first (col_name col) categorical, datetime ++ [col_name col])
       else (categorical, datetime))
    rest (categorical ++ map col_name (filter is_object rest), datetime)
  = (categorical
       ++ map col_name (filter (fun c => is_object c && negb (date_like lib c)) rest),
     datetime ++ map col_name (filter (date_like lib) rest)).
Proof.
  revert categorical datetime.
  induction rest as [|c r IH]; intros categorical datetime Hnd Hfresh.
  - simpl. now rewrite !app_nil_r.
  - inversion Hnd as [|? ? Hc Hnd']; subst. cbn [fold_left filter].
    destruct (date_like lib c) eqn:Ed.
    + rewrite (date_like_object c Ed). cbn [andb negb map].
      rewrite remove_first_app by (apply Hfresh; now left).
      rewrite IH; [now rewrite <- app_assoc | exact Hnd' |].
      intros c' Hin. apply Hfresh. now right.
    + destruct (is_object c) eqn:Eo; cbn [andb negb map].
      * replace (categorical ++ col_name c :: map col_name (filter is_object r))
          with ((categorical ++ [col_name c]) ++ map col_name (filter is_object r))
          by now rewrite <- app_assoc.
        rewrite IH; [now rewrite <- app_assoc | exact Hnd' |].
        intros c' Hin K. apply in_app_or in K. destruct K as [K | [K | []]].
        -- apply (Hfresh c'); [now right | exact K].
        -- apply Hc. rewrite K. now apply in_map.
      * apply IH; [exact Hnd' |]. intros c' Hin. apply Hfresh. now right.
Qed.

(** X5: the dataset information sorts the text columns in two: those whose
    first five values parse as dates are the datetime columns, the others
    the categorical ones, each list in column order; the sample holds the
    first three rows, or all of them when there are fewer. *)
Theorem dataset_info_splits_text_columns (df : DataFrame) :
  NoDup (map col_name df) ->
  column_kinds lib df
  = (map col_name (filter is_numeric df),
     map col_name (filter (fun c => is_object c && negb (date_like lib c)) df),
     map col_name (filter (date_like lib) df))
  /\ List.length (sample_data df) = Nat.min 3 (nrows df).
Proof.
  intro Hnd. split.
  - unfold column_kinds, object_columns, numeric_columns.
    pose proof (column_kinds_loop df [] [] Hnd (fun c _ K => K)) as H.
    cbn [app] in H. now rewrite H.
  - unfold sample_data. now rewrite length_map, length_seq.
Qed.

End Loading.

Lemma loaded_dataset_is_current_witness :
  "sales.CSV" <> ""
  /\ lower (path_suffix Examples.sales_disk "/tmp/up/sales.CSV") = ".csv"
  /\ read_csv Examples.sales_disk "/tmp/up/sales.CSV" = Return Examples.sales
  /\ fst (process_query Examples.plain_libraries
            (snd (load_data Examples.plain_libraries Examples.sales_disk Examples.fresh_agent
                    "/tmp/up/sales.CSV" "sales.CSV"))
            "how many records" None)
     = try_except
         (dispatch Examples.plain_libraries
            (snd (load_data Examples.plain_libraries Examples.sales_disk Examples.fresh_agent
                    "/tmp/up/sales.CSV" "sales.CSV"))
            Examples.sales "how many records")
         (fun e => error_result ("Failed to process query: " ++ e)).
Proof.
  split; [discriminate |]. split; [reflexivity |]. split; [reflexivity |].
  apply (loaded_dataset_is_current Examples.plain_libraries Examples.sales_disk
           Examples.fresh_agent "/tmp/up/sales.CSV" "sales.CSV" Examples.sales).
  - discriminate.
  - left. split; reflexivity.
Defined.

Lemma fresh_agent_in_step : stores_agree Examples.fresh_agent.
Proof. repeat split; try constructor. intros name df H. discriminate. Qed.

Lemma load_data_keeps_stores_in_step_witness :
  stores_agree Examples.fresh_agent
  /\ stores_agree (snd (load_data Examples.plain_libraries Examples.sales_disk
                          Examples.fresh_agent "/tmp/up/sales.CSV" "sales.CSV")).
Proof.
  split; [exact fresh_agent_in_step |].
  apply (load_data_keeps_stores_in_step Examples.plain_libraries Examples.sales_disk
           Examples.fresh_agent "/tmp/up/sales.CSV" "sales.CSV").
  exact fresh_agent_in_step.
Defined.

Lemma dataset_info_splits_text_columns_witness :
  NoDup (map col_name Examples.orders)
  /\ column_kinds Examples.dated_libraries Examples.orders
     = (["Amount"], ["Customer"], ["Day"]).
Proof.
  assert (H : NoDup (map col_name Examples.orders)).
  { simpl. repeat constructor; simpl; intuition discriminate. }
  split; [exact H |].
  exact (proj1 (dataset_info_splits_text_columns Examples.dated_libraries Examples.orders H)).
Defined.

(** ** Queries that name a text column, and charts that fail *)

Lemma text_column_not_numeric (df : DataFrame) (c : column) (v : list (option string)) :
  NoDup (map col_name df) -> In c df -> col_data c = Object v ->
  mem (col_name c) (numeric_columns df) = false.
Proof.
  intros Hnd Hin Hd. destruct (mem (col_name c) (numeric_columns df)) eqn:E; [| reflexivity].
  apply mem_In in E. unfold numeric_columns in E. apply in_map_iff in E.
  destruct E as [c' [Hn Hc']]. apply filter_In in Hc'. destruct Hc' as [Hin' Hnum].
  pose proof (frame_get_unique df c Hnd Hin) as G.
  pose proof (frame_get_unique df c' Hnd Hin') as G'.
  rewrite Hn in G'. assert (c' = c) by congruence. subst c'.
  unfold is_numeric in Hnum. rewrite Hd in Hnum. discriminate.
Qed.

(** X6: when the first column named in an aggregation query holds text, the
    query is not refused: the statistic is computed for every numeric
    column, as if no column had been named, a numeric column named later
    in the query notwithstanding. *)
Theorem text_column_gets_every_aggregate
    (lib : libraries) (df : DataFrame) (query : string) (op : operation)
    (c : column) (v : list (option string)) :
  NoDup (map col_name df) ->
  find (fun c => contains (lower (col_name c)) (lower query)) df = Some c ->
  col_data c = Object v ->
  _handle_aggregation_query lib df query op
  = Return [ ("success", VBool true);
             ("results",
              VDict (map (fun '(name, d) => (name, of_number (series_agg lib op d)))
                       (numeric_items df)));
             ("message", VStr (operation_title op ++ " values for all numeric columns"));
             ("query_type", VStr "aggregation") ].
Proof.
  intros Hnd Hfind Hd. unfold _handle_aggregation_query, find_mentioned.
  rewrite Hfind. cbn [option_map].
  apply find_some in Hfind. destruct Hfind as [Hin _].
  rewrite (text_column_not_numeric df c v Hnd Hin Hd), andb_false_r.
  now apply aggregate_all_mapping.
Qed.

Lemma text_column_gets_every_aggregate_witness :
  NoDup (map col_name Examples.sales)
  /\ find (fun c => contains (lower (col_name c)) (lower "total revenue by product"))
       Examples.sales
     = Some {| col_name := "Product";
               col_data := Object [Some "Laptop"; Some "Mouse"; Some "Monitor";
                                   Some "Phone"; Some "Cable"] |}
  /\ _handle_aggregation_query Examples.plain_libraries Examples.sales
       "total revenue by product" op_sum
     = Return [ ("success", VBool true);
                ("results", VDict [ ("Revenue", VInt 2955); ("Margin", VFloat 1.875%float) ]);
                ("message", VStr "Sum values for all numeric columns");
                ("query_type", VStr "aggregation") ].
Proof.
  assert (H : NoDup (map col_name Examples.sales)) by (destruct sales_wf as [H _]; exact H).
  split; [exact H |]. split; [reflexivity |].
  exact (text_column_gets_every_aggregate Examples.plain_libraries Examples.sales
           "total revenue by product" op_sum _ _ H eq_refl eq_refl).
Defined.

Lemma mentioned_column_found (df : DataFrame) (query_lower col : string) :
  In col (map col_name (filter (fun c => contains (lower (col_name c)) query_lower) df)) ->
  exists c, frame_get df col = Some c.
Proof.
  intro H. apply in_map_iff in H. destruct H as [c [Hn Hc]]. apply filter_In in Hc.
  destruct Hc as [Hin _]. unfold frame_get.
  destruct (find (fun c0 => String.eqb (col_name c0) col) df) as [c'|] eqn:E; [eauto |].
  exfalso. apply (find_none _ _ E) in Hin. rewrite Hn, String.eqb_refl in Hin. discriminate.
Qed.

(** X7: a visualization query never fails the way other queries do.  It
    returns either the "Unable to determine" error, when no column is
    named and the frame lacks the columns for a default, or a result
    marked as a success whose [chart_data] is the chart or, when plotting
    raised, the error dict of [_create_chart]: a chart that could not be
    drawn is reported inside a successful result. *)
Theorem chart_failure_stays_inside_result
    (lib : libraries) (df : DataFrame) (query : string) :
  exists r,
    _handle_visualization_query lib df query = Return r
    /\ (r = error_result "Unable to determine appropriate columns for visualization"
        \/ (dict_get r "success" = Some (VBool true)
            /\ dict_get r "query_type" = Some (VStr "visualization")
            /\ exists chart_data,
                 dict_get r "chart_data" = Some (VDict chart_data)
                 /\ (dict_has chart_data "chart_json" = true
                     \/ exists e, chart_data
                                  = error_result ("Failed to create chart: " ++ e)))).
Proof.
  assert (Hchart : forall chart_type x y,
             dict_has (_create_chart lib df chart_type x y) "chart_json" = true
             \/ exists e, _create_chart lib df chart_type x y
                          = error_result ("Failed to create chart: " ++ e)).
  { intros chart_type x y. unfold _create_chart.
    destruct (plotly_chart lib df chart_type x y) as [json | e]; simpl; eauto. }
  assert (Hfinish : forall chart_type x y,
             exists r,
               Return [ ("success", VBool true);
                        ("chart_data", VDict (_create_chart lib df chart_type x y));
                        ("message", VStr ("Generated " ++ chart_type ++ " chart"));
                        ("query_type", VStr "visualization") ] = Return r
               /\ (r = error_result "Unable to determine appropriate columns for visualization"
                   \/ (dict_get r "success" = Some (VBool true)
                       /\ dict_get r "query_type" = Some (VStr "visualization")
                       /\ exists chart_data,
                            dict_get r "chart_data" = Some (VDict chart_data)
                            /\ (dict_has chart_data "chart_json" = true
                                \/ exists e, chart_data
                                             = error_result ("Failed to create chart: " ++ e))))).
  { intros chart_type x y. eexists. split; [reflexivity |]. right.
    split; [reflexivity |]. split; [reflexivity |].
    eexists. split; [reflexivity | apply Hchart]. }
  unfold _handle_visualization_query.
  set (chart_type := if contains "bar" (lower query) || contains "column" (lower query)
                     then "bar" else _).
  pose proof (mentioned_column_found df (lower query)) as Hfound.
  destruct (map col_name (filter (fun c => contains (lower (col_name c)) (lower query)) df))
    as [|col [|col' more]].
  - destruct (numeric_columns df) as [|n0 [|n1 ns]]; destruct (object_columns df) as [|c0 cs];
      try apply Hfinish; eexists; (split; [reflexivity | now left]).
  - destruct (Hfound col (or_introl eq_refl)) as [c Hc]. rewrite Hc.
    destruct (is_object c); apply Hfinish.
  - apply Hfinish.
Qed.

(** ** The listing *)

Lemma storage_set_listing {V : Type} (st : list (string * V)) (k : string) (v : V) :
  map fst (storage_set st k v)
  = if mem k (map fst st) then map fst st else map fst st ++ [k].
Proof.
  unfold mem. induction st as [|[k0 v0] r IH]; [reflexivity |].
  cbn [storage_set map fst existsb]. rewrite (String.eqb_sym k k0).
  destruct (String.eqb k0 k); cbn [orb map fst]; [reflexivity |].
  rewrite IH. now destruct (existsb (String.eqb k) (map fst r)).
Qed.

(** X8: loading a file under a name that is already stored replaces that
    dataset where it stands: [list_datasets] is unchanged.  A new name
    goes to the end of the list. *)
Theorem reload_keeps_the_listing
    (lib : libraries) (rd : readers) (self : agent) (file_path file_name : string)
    (df : DataFrame) :
  (lower (path_suffix rd file_path) = ".csv" /\ read_csv rd file_path = Return df)
  \/ ((lower (path_suffix rd file_path) = ".xlsx" \/ lower (path_suffix rd file_path) = ".xls")
      /\ read_excel rd file_path = Return df) ->
  list_datasets (snd (load_data lib rd self file_path file_name))
  = if mem file_name (list_datasets self)
    then list_datasets self
    else list_datasets self ++ [file_name].
Proof.
  intro Hread. rewrite (load_data_stores lib rd self _ _ df Hread).
  unfold list_datasets. cbn [snd data_storage]. apply storage_set_listing.
Qed.

Lemma reload_keeps_the_listing_witness :
  lower (path_suffix Examples.sales_disk "/tmp/up/sales.CSV") = ".csv"
  /\ read_csv Examples.sales_disk "/tmp/up/sales.CSV" = Return Examples.sales
  /\ list_datasets (snd (load_data Examples.plain_libraries Examples.sales_disk
                           Examples.sales_agent "/tmp/up/sales.CSV" "sales.csv"))
     = ["sales.csv"]
  /\ list_datasets (snd (load_data Examples.plain_libraries Examples.sales_disk
                           Examples.sales_agent "/tmp/up/sales.CSV" "sales-2.csv"))
     = ["sales.csv"; "sales-2.csv"].
Proof.
  split; [reflexivity |]. split; [reflexivity |]. split.
  - rewrite (reload_keeps_the_listing Examples.plain_libraries Examples.sales_disk
               Examples.sales_agent "/tmp/up/sales.CSV" "sales.csv" Examples.sales
               (or_introl (conj eq_refl eq_refl))).
    reflexivity.
  - rewrite (reload_keeps_the_listing Examples.plain_libraries Examples.sales_disk
               Examples.sales_agent "/tmp/up/sales.CSV" "sales-2.csv" Examples.sales
               (or_introl (conj eq_refl eq_refl))).
    reflexivity.
Defined.

(** A spreadsheet saved as text is refused, and so is a table that is
    not on the disk. *)
Lemma failed_load_changes_nothing_witness :
  load_data Examples.plain_libraries Examples.sales_disk Examples.sales_agent
    "/tmp/up/notes.TXT" "notes.TXT"
  = (error_result "Unsupported file format: .txt", Examples.sales_agent)
  /\ load_data Examples.plain_libraries Examples.sales_disk Examples.sales_agent
       "/tmp/up/other.csv" "other.csv"
     = (error_result
          "Failed to load file: [Errno 2] No such file or directory: '/tmp/up/other.csv'",
        Examples.sales_agent).
Proof.
  destruct (failed_load_changes_nothing Examples.plain_libraries Examples.sales_disk
              Examples.sales_agent "/tmp/up/notes.TXT" "notes.TXT") as [H _].
  destruct (failed_load_changes_nothing Examples.plain_libraries Examples.sales_disk
              Examples.sales_agent "/tmp/up/other.csv" "other.csv") as [_ [K _]].
  split.
  - apply H; vm_compute; discriminate.
  - exact (K _ eq_refl eq_refl).
Defined.

(** With no renderer at hand the chart of [sales] fails, and the answer
    is a success all the same. *)
Example chart_without_renderer :
  _handle_visualization_query Examples.plain_libraries Examples.sales "plot revenue by product"
  = Return [ ("success", VBool true);
             ("chart_data", VDict [("error", VStr "Failed to create chart: no renderer")]);
             ("message", VStr "Generated bar chart");
             ("query_type", VStr "visualization") ].
Proof. reflexivity. Qed.

End DataAgentFacts.

(* ================================================================== *)
(** * The document analyzer *)
(* ================================================================== *)

Module ResearchFacts.
Import Py Research.

Lemma string_ltb_irrefl (s : string) : String.ltb s s = false.
Proof.
  unfold String.ltb. pose proof (String.compare_antisym s s) as H.
  destruct (String.compare s s); try reflexivity. discriminate.
Qed.

Lemma NoDup_firstn {A : Type} (n : nat) (l : list A) : NoDup l -> NoDup (firstn n l).
Proof.
  intro H. rewrite <- (firstn_skipn n l) in H. now apply NoDup_app_remove_r in H.
Qed.

Lemma sorted_le_nodup_lt (l : list nat) :
  StronglySorted le l -> NoDup l -> StronglySorted lt l.
Proof.
  induction 1 as [|x r Hr IH Hx]; intro Hnd; constructor;
    inversion Hnd as [|? ? Hfresh Hnd']; subst.
  - now apply IH.
  - rewrite Forall_forall in *. intros y Hy. specialize (Hx y Hy).
    assert (x <> y) by (intro; subst; contradiction). lia.
Qed.

(** ** Chunking *)

Lemma string_app_assoc (a b c : string) : ((a ++ b) ++ c = a ++ (b ++ c))%string.
Proof. induction a as [|x a IH]; simpl; [reflexivity | now rewrite IH]. Qed.

Lemma is_empty_app_space (a s : string) : is_empty (a ++ " " ++ s) = false.
Proof. destruct a; reflexivity. Qed.

Lemma join_snoc (l : list string) (s : string) :
  l <> [] -> join " " (l ++ [s]) = (join " " l ++ " " ++ s)%string.
Proof.
  unfold join. induction l as [|x r IH]; intro H; [contradiction |].
  destruct r as [|y r]; [reflexivity |].
  change (String.concat " " ((x :: y :: r) ++ [s]))
    with (x ++ " " ++ String.concat " " ((y :: r) ++ [s]))%string.
  rewrite IH by discriminate.
  change (String.concat " " (x :: y :: r))
    with (x ++ " " ++ String.concat " " (y :: r))%string.
  now rewrite !string_app_assoc.
Qed.

Lemma skipn_last (l : list string) :
  l <> [] -> skipn (List.length l - 1) l = [last l ""].
Proof.
  induction l as [|x r IH]; intro H; [contradiction |].
  destruct r as [|y r]; [reflexivity |].
  replace (List.length (x :: y :: r) - 1) with (S (List.length (y :: r) - 1))
    by (simpl; lia).
  change (last (x :: y :: r) "") with (last (y :: r) "").
  rewrite <- IH by discriminate. reflexivity.
Qed.

Lemma strip_leading_space (s : string) : strip (" " ++ s) = strip s.
Proof. reflexivity. Qed.

Lemma enumerate_from_app {A : Type} (i : nat) (l1 l2 : list A) :
  enumerate_from i (l1 ++ l2)
  = enumerate_from i l1 ++ enumerate_from (i + List.length l1) l2.
Proof.
  revert i. induction l1 as [|x r IH]; intro i; simpl.
  - now rewrite Nat.add_0_r.
  - rewrite IH. do 3 f_equal. lia.
Qed.

Lemma chunks_of_groups_app (k : nat) (g1 g2 : list (string * list string)) :
  chunks_of_groups k (g1 ++ g2)
  = chunks_of_groups k g1 ++ chunks_of_groups (k + List.length g1) g2.
Proof. unfold chunks_of_groups. now rewrite enumerate_from_app, map_app. Qed.

(** The loop and the final [append] build the chunks of [groups_from]. *)
Lemma split_loop (chunk_size overlap : nat) (rest : list string)
    (chunks : list chunk) (cur : string) (cs : list string) :
  (let '(c, cu, s) := fold_left (split_step chunk_size overlap) rest (chunks, cur, cs) in
   close_chunk c cu s)
  = chunks ++ chunks_of_groups (List.length chunks)
                (groups_from chunk_size overlap cur cs rest).
Proof.
  revert chunks cur cs. induction rest as [|s r IH]; intros chunks cur cs.
  - simpl. unfold close_chunk. destruct (is_empty cur); simpl.
    + now rewrite app_nil_r.
    + reflexivity.
  - cbn [fold_left groups_from]. unfold split_step at 2.
    destruct (String.length cur + String.length s <? chunk_size)%nat.
    + apply IH.
    + rewrite IH. unfold close_chunk. destruct (is_empty cur); simpl.
      * reflexivity.
      * rewrite <- app_assoc, length_app. simpl.
        change (chunks_of_groups (List.length chunks)
                  ((cur, cs) :: groups_from chunk_size overlap
                                  (join " " (overlap_of overlap cs) ++ " " ++ s)
                                  (overlap_of overlap cs ++ [s]) r))
          with ({| chunk_text := strip cur; chunk_id := List.length chunks;
                   chunk_sentence_count := List.length cs |}
                  :: chunks_of_groups (S (List.length chunks))
                       (groups_from chunk_size overlap
                          (join " " (overlap_of overlap cs) ++ " " ++ s)
                          (overlap_of overlap cs ++ [s]) r)).
        now rewrite Nat.add_1_r.
Qed.

Lemma open_chunk_carried_le (cur : string) (cs carried : list string) :
  open_chunk cur cs carried -> List.length carried <= List.length cs.
Proof.
  intros [_ [_ H]]. rewrite <- H at 1. rewrite length_firstn. lia.
Qed.

Lemma open_chunk_append (cur : string) (cs carried : list string) (s : string) :
  open_chunk cur cs carried ->
  open_chunk (cur ++ " " ++ s) (cs ++ [s]) carried.
Proof.
  intros H. pose proof (open_chunk_carried_le _ _ _ H) as Hle.
  destruct H as [He [Hn Hc]]. unfold open_chunk. rewrite is_empty_app_space.
  split; [discriminate |]. split.
  - intros _. split; [now destruct cs |].
    destruct (is_empty cur) eqn:E.
    + destruct cur; [| discriminate]. destruct (He eq_refl) as [-> _]. now right.
    + destruct (Hn eq_refl) as [Hne [-> | ->]].
      * left. now rewrite join_snoc.
      * right. rewrite join_snoc by assumption. now rewrite string_app_assoc.
  - rewrite firstn_app. replace (List.length carried - List.length cs) with 0 by lia.
    rewrite Hc. simpl. now rewrite app_nil_r.
Qed.

Lemma open_chunk_restart (overlap : nat) (cs : list string) (s : string) :
  open_chunk (join " " (overlap_of overlap cs) ++ " " ++ s)
    (overlap_of overlap cs ++ [s]) (overlap_of overlap cs).
Proof.
  unfold open_chunk. rewrite is_empty_app_space.
  split; [discriminate |]. split.
  - intros _. split; [now destruct (overlap_of overlap cs) |].
    destruct (overlap_of overlap cs) as [|x r] eqn:E.
    + now right.
    + left. now rewrite join_snoc.
  - rewrite firstn_app, Nat.sub_diag, firstn_all. simpl. now rewrite app_nil_r.
Qed.

Lemma overlap_of_nil (overlap : nat) : overlap_of overlap [] = [].
Proof. unfold overlap_of. simpl. now destruct (overlap / 50). Qed.

Section Groups.

Variables chunk_size overlap : nat.

Lemma groups_cover (rest : list string) (cur : string) (cs carried : list string) :
  open_chunk cur cs carried ->
  concat (fresh_parts overlap (List.length carried)
            (map snd (groups_from chunk_size overlap cur cs rest)))
  = skipn (List.length carried) cs ++ rest.
Proof.
  revert cur cs carried. induction rest as [|s r IH]; intros cur cs carried Hopen.
  - simpl. destruct Hopen as [He _]. destruct (is_empty cur) eqn:E; simpl.
    + destruct (He ltac:(first [exact E | reflexivity])) as [-> ->]. reflexivity.
    + now rewrite !app_nil_r.
  - cbn [groups_from].
    destruct (String.length cur + String.length s <? chunk_size)%nat.
    + rewrite (IH _ _ carried (open_chunk_append _ _ _ s Hopen)).
      rewrite skipn_app.
      replace (List.length carried - List.length cs) with 0
        by (pose proof (open_chunk_carried_le _ _ _ Hopen); lia).
      simpl. now rewrite <- app_assoc.
    + destruct (is_empty cur) eqn:E.
      * destruct Hopen as [He _]. destruct (He ltac:(first [exact E | reflexivity])) as [-> ->].
        pose proof (IH _ _ _ (open_chunk_restart overlap [] s)) as H.
        rewrite overlap_of_nil in H. exact H.
      * cbn [app map snd fresh_parts concat].
        rewrite (IH _ _ _ (open_chunk_restart overlap cs s)).
        rewrite skipn_app, Nat.sub_diag, skipn_all. reflexivity.
Qed.

Lemma groups_shape (rest : list string) (cur : string) (cs carried : list string) :
  open_chunk cur cs carried ->
  Forall (fun g => snd g <> [] /\ strip (fst g) = strip (join " " (snd g)))
    (groups_from chunk_size overlap cur cs rest).
Proof.
  revert cur cs carried. induction rest as [|s r IH]; intros cur cs carried Hopen.
  - simpl. destruct (is_empty cur) eqn:E; constructor; [| constructor].
    destruct Hopen as [_ [Hn _]]. destruct (Hn ltac:(first [exact E | reflexivity])) as [Hne [-> | ->]]; simpl; split; auto.
  - cbn [groups_from].
    destruct (String.length cur + String.length s <? chunk_size)%nat.
    + apply (IH _ _ carried). now apply open_chunk_append.
    + apply Forall_app. split.
      * destruct (is_empty cur) eqn:E; constructor; [| constructor].
        destruct Hopen as [_ [Hn _]].
        destruct (Hn ltac:(first [exact E | reflexivity])) as [Hne [-> | ->]]; simpl; split; auto.
      * apply (IH _ _ (overlap_of overlap cs)). apply open_chunk_restart.
Qed.

(** The first chunk closed from a state with a non-empty buffer holds the
    sentences already in it. *)
Lemma groups_head (rest : list string) (cur : string) (cs : list string) :
  is_empty cur = false ->
  exists buffer extra tl,
    groups_from chunk_size overlap cur cs rest = (buffer, cs ++ extra) :: tl.
Proof.
  revert cur cs. induction rest as [|s r IH]; intros cur cs E.
  - simpl. rewrite E. exists cur, [], []. now rewrite app_nil_r.
  - cbn [groups_from].
    destruct (String.length cur + String.length s <? chunk_size)%nat.
    + destruct (IH (cur ++ " " ++ s)%string (cs ++ [s]) (is_empty_app_space _ _))
        as [b [extra [tl H]]].
      exists b, (s :: extra), tl. rewrite H. now rewrite <- app_assoc.
    + rewrite E. exists cur, [], (groups_from chunk_size overlap
                                   (join " " (overlap_of overlap cs) ++ " " ++ s)
                                   (overlap_of overlap cs ++ [s]) r).
      now rewrite app_nil_r.
Qed.

Lemma buffer_of_snoc (carried cs : list string) (s : string) :
  cs <> [] -> buffer_of carried (cs ++ [s]) = (buffer_of carried cs ++ " " ++ s)%string.
Proof.
  intro H. unfold buffer_of. rewrite (join_snoc cs s H). now destruct carried.
Qed.

Lemma well_filled_nonempty (carried cs : list string) :
  well_filled chunk_size carried cs -> cs <> [].
Proof. intros [_ [H _]] E. subst cs. simpl in H. lia. Qed.

Lemma well_filled_buffer (carried cs : list string) :
  well_filled chunk_size carried cs -> is_empty (buffer_of carried cs) = false.
Proof.
  intros [_ [Hlen _]]. unfold buffer_of. destruct carried as [|c r]; [reflexivity |].
  destruct cs as [|x [|y l]]; simpl in Hlen; [lia | lia |].
  change (join " " (x :: y :: l)) with (x ++ " " ++ join " " (y :: l))%string.
  apply is_empty_app_space.
Qed.

Lemma filling_append (cur : string) (cs carried : list string) (s : string) :
  filling chunk_size cur cs carried ->
  String.length cur + String.length s < chunk_size ->
  filling chunk_size (cur ++ " " ++ s) (cs ++ [s]) carried.
Proof.
  intros [[-> [-> ->]] | [-> Hw]] Hfit; right.
  - split; [reflexivity |]. split; [reflexivity |]. split; [simpl; lia |].
    intros k Hk. simpl in Hk. lia.
  - pose proof (well_filled_nonempty _ _ Hw) as Hne.
    split; [now rewrite buffer_of_snoc |].
    destruct Hw as [Hpre [Hlen Hfits]]. split; [| split].
    + rewrite firstn_app. replace (List.length carried - List.length cs) with 0 by lia.
      rewrite Hpre. simpl. now rewrite app_nil_r.
    + rewrite length_app. simpl. lia.
    + intros k Hk. rewrite length_app in Hk. simpl in Hk.
      destruct (Nat.eq_dec k (List.length cs)) as [-> | Hlt].
      * rewrite firstn_app, Nat.sub_diag, firstn_all. simpl. rewrite app_nil_r.
        rewrite app_nth2, Nat.sub_diag by lia. exact Hfit.
      * rewrite firstn_app. replace (k - List.length cs) with 0 by lia.
        simpl. rewrite app_nil_r. rewrite app_nth1 by lia. apply Hfits. lia.
Qed.

Lemma filling_restart (ov : list string) (s : string) :
  filling chunk_size (join " " ov ++ " " ++ s) (ov ++ [s]) ov.
Proof.
  right. split.
  - destruct ov as [|x r]; [reflexivity |].
    unfold buffer_of. now rewrite join_snoc.
  - split; [| split].
    + rewrite firstn_app, Nat.sub_diag, firstn_all. simpl. now rewrite app_nil_r.
    + rewrite length_app. simpl. lia.
    + intros k Hk. rewrite length_app in Hk. simpl in Hk. lia.
Qed.

(** From a state the loop can be in, the chunks closed are the buffers of
    a greedy packing of the sentences. *)
Lemma groups_packed (rest : list string) (cur : string) (cs carried : list string) :
  filling chunk_size cur cs carried ->
  groups_from chunk_size overlap cur cs rest
  = layout_buffers overlap carried (map snd (groups_from chunk_size overlap cur cs rest))
  /\ packed chunk_size overlap carried
       (map snd (groups_from chunk_size overlap cur cs rest)).
Proof.
  revert cur cs carried. induction rest as [|s r IH]; intros cur cs carried Hfill.
  - cbn [groups_from]. destruct Hfill as [[-> [-> ->]] | [-> Hw]].
    + simpl. split; [reflexivity | exact I].
    + rewrite (well_filled_buffer _ _ Hw). simpl. split; [reflexivity |].
      split; [exact Hw | split; exact I].
  - cbn [groups_from].
    destruct (String.length cur + String.length s <? chunk_size)%nat eqn:Efit.
    + apply IH. apply filling_append; [exact Hfill | now apply Nat.ltb_lt].
    + apply Nat.ltb_ge in Efit.
      destruct Hfill as [[-> [-> ->]] | [-> Hw]].
      * cbn [is_empty app]. rewrite overlap_of_nil.
        apply IH. apply (filling_restart [] s).
      * rewrite (well_filled_buffer _ _ Hw). cbn [app map snd layout_buffers packed].
        destruct (IH _ _ _ (filling_restart (overlap_of overlap cs) s)) as [Hl Hp].
        split; [now rewrite <- Hl |].
        split; [exact Hw |]. split; [| exact Hp].
        destruct (groups_head r (join " " (overlap_of overlap cs) ++ " " ++ s)%string
                    (overlap_of overlap cs ++ [s]) (is_empty_app_space _ _))
          as [b [extra [tl H]]].
        rewrite H. cbn [map snd]. rewrite <- app_assoc.
        rewrite app_nth2, Nat.sub_diag by lia. exact Efit.
Qed.

Lemma skipn_cons_nth (l : list string) (n : nat) :
  n < List.length l -> skipn n l = nth n l "" :: skipn (S n) l.
Proof.
  revert n. induction l as [|x r IH]; intros n H; simpl in H; [lia |].
  destruct n as [|n]; [reflexivity |]. cbn [skipn nth]. apply IH. lia.
Qed.

(** A group that is followed by the sentence [a] was closed because [a]
    did not fit. *)
Lemma packed_stops (carried cs : list string) (r : list (list string))
    (a : string) (l : list string) :
  packed chunk_size overlap carried (cs :: r) ->
  concat (fresh_parts overlap (List.length (overlap_of overlap cs)) r) = a :: l ->
  chunk_size <= String.length (buffer_of carried cs) + String.length a.
Proof.
  intros [_ [Hnext Hrest]] Hc. destruct r as [|cs2 r2]; [discriminate |].
  destruct Hrest as [[_ [Hlen _]] _]. cbn [fresh_parts concat] in Hc.
  rewrite (skipn_cons_nth cs2 _ Hlen) in Hc. inversion Hc; subst. exact Hnext.
Qed.

(** A group that goes on with the sentence [a] took it because it
    fitted. *)
Lemma well_filled_continues (carried f l : list string) (a : string) :
  f <> [] ->
  well_filled chunk_size carried (carried ++ f ++ a :: l) ->
  String.length (buffer_of carried (carried ++ f)) + String.length a < chunk_size.
Proof.
  intros Hne [_ [_ Hfits]].
  assert (Hf : 0 < List.length f) by (destruct f; [contradiction | simpl; lia]).
  specialize (Hfits (List.length (carried ++ f))).
  rewrite app_assoc in Hfits.
  rewrite firstn_app, Nat.sub_diag, firstn_all in Hfits. simpl in Hfits.
  rewrite app_nil_r in Hfits.
  rewrite app_nth2, Nat.sub_diag in Hfits by lia. simpl in Hfits.
  apply Hfits. rewrite !length_app. simpl. lia.
Qed.

Lemma well_filled_split (carried cs : list string) :
  well_filled chunk_size carried cs ->
  cs = carried ++ skipn (List.length carried) cs /\ skipn (List.length carried) cs <> [].
Proof.
  intros [Hpre [Hlen _]]. split.
  - rewrite <- Hpre at 1. symmetry. apply firstn_skipn.
  - intro E. apply (f_equal (@List.length string)) in E. rewrite length_skipn in E.
    simpl in E. lia.
Qed.

(** The sentences and the budget leave one greedy packing only. *)
Lemma packed_unique (groups groups' : list (list string)) (carried : list string) :
  packed chunk_size overlap carried groups ->
  packed chunk_size overlap carried groups' ->
  concat (fresh_parts overlap (List.length carried) groups)
  = concat (fresh_parts overlap (List.length carried) groups') ->
  groups = groups'.
Proof.
  revert groups' carried.
  induction groups as [|cs r IH]; intros [|cs' r'] carried Hp Hp' Hc.
  - reflexivity.
  - destruct Hp' as [Hw' _]. destruct (well_filled_split _ _ Hw') as [_ Hne].
    cbn [fresh_parts concat] in Hc.
    destruct (skipn (List.length carried) cs'); [contradiction | discriminate].
  - destruct Hp as [Hw _]. destruct (well_filled_split _ _ Hw) as [_ Hne].
    cbn [fresh_parts concat] in Hc.
    destruct (skipn (List.length carried) cs); [contradiction | discriminate].
  - pose proof Hp as [Hw [_ Hr]]. pose proof Hp' as [Hw' [_ Hr']].
    destruct (well_filled_split _ _ Hw) as [Ecs Hne].
    destruct (well_filled_split _ _ Hw') as [Ecs' Hne'].
    cbn [fresh_parts concat] in Hc.
    set (f := skipn (List.length carried) cs) in *.
    set (f' := skipn (List.length carried) cs') in *.
    clearbody f f'.
    apply app_eq_app in Hc. destruct Hc as [l [[Ef Ex] | [Ef Ex]]].
    + destruct l as [|a l].
      * rewrite app_nil_r in Ef. simpl in Ex.
        assert (E : cs = cs') by (rewrite Ecs, Ecs', Ef; reflexivity).
        rewrite <- E in Hr', Ex |- *. f_equal.
        apply (IH r' (overlap_of overlap cs) Hr Hr'). now symmetry.
      * exfalso.
        pose proof (packed_stops carried cs' r' a _ Hp' Ex) as Hstop.
        rewrite Ecs, Ef in Hw. rewrite Ecs' in Hstop.
        pose proof (well_filled_continues carried f' l a Hne' Hw). lia.
    + destruct l as [|a l].
      * rewrite app_nil_r in Ef. simpl in Ex.
        assert (E : cs = cs') by (rewrite Ecs, Ecs', Ef; reflexivity).
        rewrite <- E in Hr', Ex |- *. f_equal.
        apply (IH r' (overlap_of overlap cs) Hr Hr'). exact Ex.
      * exfalso.
        pose proof (packed_stops carried cs r a _ Hp Ex) as Hstop.
        rewrite Ecs', Ef in Hw'. rewrite Ecs in Hstop.
        pose proof (well_filled_continues carried f l a Hne Hw'). lia.
Qed.

End Groups.

Section Summary.

Variable sent_tokenize : string -> list string.

(** The sentences carried over, counted in sentences: none unless the
    group holds more than [overlap / 50] sentences, else the last
    [overlap / 50] of them rounded up, and the whole group when
    [overlap] is 0. *)
Lemma overlap_of_count (overlap : nat) (previous : list string) :
  overlap_of overlap previous
  = if (overlap / 50 <? List.length previous)%nat
    then if (overlap =? 0)%nat then previous
         else skipn (List.length previous - (overlap + 49) / 50) previous
    else [].
Proof.
  unfold overlap_of, slice_from.
  destruct (overlap / 50 <? List.length previous)%nat; [| reflexivity].
  destruct (overlap =? 0)%nat eqn:E0.
  - apply Nat.eqb_eq in E0. subst overlap.
    change (- Z.of_nat 0 / 50)%Z with 0%Z. change (0 <? 0)%Z with false. cbv iota.
    replace (Z.to_nat (Z.min 0 (Z.of_nat (List.length previous)))) with 0 by lia.
    reflexivity.
  - apply Nat.eqb_neq in E0.
    assert (Hneg : (- Z.of_nat overlap / 50 <? 0)%Z = true).
    { apply Z.ltb_lt. apply Z.div_lt_upper_bound; lia. }
    rewrite Hneg. f_equal.
    assert (Hd : (- Z.of_nat overlap / 50 = - Z.of_nat ((overlap + 49) / 50))%Z).
    { rewrite Nat2Z.inj_div, Nat2Z.inj_add. simpl Z.of_nat.
      pose proof (Z.div_mod (- Z.of_nat overlap) 50 ltac:(lia)) as H1.
      pose proof (Z.mod_pos_bound (- Z.of_nat overlap) 50 ltac:(lia)) as H2.
      pose proof (Z.div_mod (Z.of_nat overlap + 49) 50 ltac:(lia)) as H3.
      pose proof (Z.mod_pos_bound (Z.of_nat overlap + 49) 50 ltac:(lia)) as H4.
      lia. }
    rewrite Hd. lia.
Qed.

(** C8, as the code has it: the chunks are a function of the text, the
    one greedy packing of its sentences.  They are the buffers of
    consecutive groups of sentences, stripped and numbered from 0, each
    with its sentence count.  Every group starts with what is carried
    over from the one before and holds at least one sentence more; a
    further sentence joins the group exactly when the buffer and the
    sentence stay under the budget, so a group is closed only when the
    next sentence does not fit (the first new sentence of a group is
    taken whatever its length).  The groups without what they carry over
    are the sentences of the text, in order and complete, and no other
    list of groups is packed in this way and covers the same sentences.
    With the default overlap what is carried over is the last sentence
    of the group before when that group holds more than one sentence,
    and nothing when it holds a single one. *)
Theorem chunks_cover_all_sentences (text : string) (chunk_size overlap : nat) :
  exists groups : list (list string),
    _split_into_chunks sent_tokenize text chunk_size overlap
    = chunks_of_groups 0 (layout_buffers overlap [] groups)
    /\ packed chunk_size overlap [] groups
    /\ concat (fresh_parts overlap 0 groups) = sent_tokenize text
    /\ (forall groups' : list (list string),
          packed chunk_size overlap [] groups' ->
          concat (fresh_parts overlap 0 groups') = sent_tokenize text ->
          groups' = groups)
    /\ (forall previous,
          overlap_of overlap previous
          = if (overlap / 50 <? List.length previous)%nat
            then if (overlap =? 0)%nat then previous
                 else skipn (List.length previous - (overlap + 49) / 50) previous
            else [])
    /\ (forall previous,
          overlap_of 50 previous
          = if (1 <? List.length previous)%nat then [last previous ""] else []).
Proof.
  assert (Hopen : open_chunk "" [] []).
  { unfold open_chunk. simpl. split; [auto |]. split; [discriminate | reflexivity]. }
  assert (Hfill : filling chunk_size "" [] []) by (left; auto).
  destruct (groups_packed chunk_size overlap (sent_tokenize text) "" [] [] Hfill)
    as [Hlayout Hpacked].
  pose proof (groups_cover chunk_size overlap (sent_tokenize text) "" [] [] Hopen) as Hcover.
  cbn [List.length skipn app] in Hcover.
  exists (map snd (groups_from chunk_size overlap "" [] (sent_tokenize text))).
  split; [| split; [| split; [| split; [| split]]]].
  - rewrite <- Hlayout. unfold _split_into_chunks.
    exact (split_loop chunk_size overlap (sent_tokenize text) [] "" []).
  - exact Hpacked.
  - exact Hcover.
  - intros groups' Hp' Hc'.
    apply (packed_unique chunk_size overlap groups' _ [] Hp' Hpacked).
    cbn [List.length]. now rewrite Hc', Hcover.
  - apply overlap_of_count.
  - intro previous. rewrite overlap_of_count.
    change (50 / 50) with 1. change ((50 + 49) / 50) with 1.
    destruct (1 <? List.length previous)%nat eqn:E; [| reflexivity].
    apply Nat.ltb_lt in E. cbn [Nat.eqb].
    apply skipn_last. intro H. subst previous. simpl in E. lia.
Qed.


Lemma sentence_scores_In (sentences : list string) (sc i : nat) (s : string) :
  In (sc, i, s) (sentence_scores sentences) <->
  nth_error sentences i = Some s /\ sc = sentence_score (List.length sentences) i s.
Proof.
  unfold sentence_scores. rewrite in_map_iff. split.
  - intros [[k x] [He Hin]]. inversion He; subst.
    apply PyFacts.enumerate_from_nth in Hin. destruct Hin as [_ Hin].
    rewrite Nat.sub_0_r in Hin. now split.
  - intros [Hn ->]. exists (i, s). split; [reflexivity |].
    apply PyFacts.enumerate_from_nth. split; [lia | now rewrite Nat.sub_0_r].
Qed.

Lemma sentence_scores_positions (sentences : list string) :
  map position (sentence_scores sentences) = seq 0 (List.length sentences).
Proof.
  unfold sentence_scores. rewrite map_map.
  rewrite <- (PyFacts.enumerate_from_fst 0 sentences). apply map_ext.
  now intros [i s].
Qed.

(** On the entries of one document the tuple order is the order of
    (score, position): no two entries share a position. *)
Lemma scored_ltb_key (sentences : list string) (a b : scored) :
  In a (sentence_scores sentences) -> In b (sentence_scores sentences) ->
  (scored_ltb a b = true <->
   fst (fst a) < fst (fst b)
   \/ (fst (fst a) = fst (fst b) /\ position a < position b)).
Proof.
  destruct a as [[sa ia] ta], b as [[sb ib] tb]. intros Ha Hb.
  apply sentence_scores_In in Ha, Hb. destruct Ha as [Ha ->], Hb as [Hb ->].
  unfold scored_ltb, position. simpl.
  rewrite orb_true_iff, andb_true_iff, orb_true_iff, andb_true_iff.
  rewrite !Nat.ltb_lt, !Nat.eqb_eq.
  split.
  - intros [H | [He [H | [Hi Hs]]]]; [now left | right; now split |].
    exfalso. subst ib. rewrite Ha in Hb. inversion Hb; subst tb.
    rewrite string_ltb_irrefl in Hs. discriminate.
  - intros [H | [He H]]; [now left | right; split; [exact He | now left]].
Qed.

(** The entries of a document in the order [sort(reverse=True)] leaves
    them: an entry stands before every entry that is not greater. *)
Lemma sorted_scores_sorted (sentences : list string) :
  StronglySorted (fun a b => scored_ltb a b = false)
    (sort_by (fun a b => scored_ltb b a) (sentence_scores sentences)).
Proof.
  apply (PyFacts.sort_by_sorted (fun a b => scored_ltb b a)
           (fun e => In e (sentence_scores sentences))).
  - intros x y Hx Hy H. destruct (scored_ltb x y) eqn:E; [| reflexivity].
    apply (scored_ltb_key sentences) in H; auto.
    apply (scored_ltb_key sentences) in E; auto. lia.
  - unfold ahead. intros x y z Hx Hy Hz Hxy Hyz.
    destruct (scored_ltb x z) eqn:E; [| reflexivity].
    apply (scored_ltb_key sentences) in E; auto.
    assert (Nxy : ~ (fst (fst x) < fst (fst y)
                     \/ (fst (fst x) = fst (fst y) /\ position x < position y))).
    { intro K. apply (scored_ltb_key sentences) in K; auto. congruence. }
    assert (Nyz : ~ (fst (fst y) < fst (fst z)
                     \/ (fst (fst y) = fst (fst z) /\ position y < position z))).
    { intro K. apply (scored_ltb_key sentences) in K; auto. congruence. }
    lia.
  - rewrite Forall_forall. auto.
Qed.

(** C1, as the code has it: a text of at most [max_sentences] sentences
    (3 by default) is returned unchanged; otherwise the summary is the
    [max_sentences] sentences that rank highest, joined by single spaces
    in document order.  A sentence scores 2 when [i < n * 0.3], plus 1
    when [i > n * 0.7], plus 1 when its length is strictly between 50 and
    200; among equal scores the sentence that comes LATER in the document
    is taken first. *)
Theorem summary_takes_top_sentences (text : string) (max_sentences : nat) :
  let sentences := sent_tokenize text in
  (List.length sentences <= max_sentences ->
   _generate_summary sent_tokenize text max_sentences = text)
  /\ (max_sentences < List.length sentences ->
      exists sel : list nat,
        List.length sel = max_sentences
        /\ StronglySorted lt sel
        /\ Forall (fun i => i < List.length sentences) sel
        /\ _generate_summary sent_tokenize text max_sentences
           = join " " (map (sentence_at sentences) sel)
        /\ (forall p m, In p sel -> m < List.length sentences -> ~ In m sel ->
                        outranks sentences p m)).
Proof.
  cbv zeta. unfold _generate_summary. set (sentences := sent_tokenize text).
  split.
  - intro H. apply Nat.leb_le in H. now rewrite H.
  - intro H. assert (Hleb : (List.length sentences <=? max_sentences)%nat = false)
      by (apply Nat.leb_gt; exact H).
    rewrite Hleb.
    set (L := sentence_scores sentences).
    set (sorted := sort_by (fun a b => scored_ltb b a) L).
    set (top := firstn max_sentences sorted).
    set (selected := sort_by (fun a b : scored => (snd (fst a) <? snd (fst b))%nat) top).
    assert (Hperm : Permutation L sorted) by apply PyFacts.sort_by_perm.
    assert (Hsel : Permutation top selected) by apply PyFacts.sort_by_perm.
    assert (HtopL : forall e, In e top -> In e L).
    { intros e He. apply PyFacts.In_firstn in He.
      now apply (Permutation_in _ (Permutation_sym Hperm)). }
    assert (HselL : forall e, In e selected -> In e L).
    { intros e He. apply HtopL. now apply (Permutation_in _ (Permutation_sym Hsel)). }
    assert (Hnd : NoDup (map position top)).
    { unfold top. rewrite <- firstn_map. apply NoDup_firstn.
      apply (Permutation_NoDup (Permutation_map position Hperm)).
      unfold L. rewrite sentence_scores_positions. apply seq_NoDup. }
    exists (map position selected). repeat split.
    + rewrite length_map, <- (Permutation_length Hsel). unfold top.
      rewrite length_firstn, <- (Permutation_length Hperm). unfold L.
      rewrite <- (length_map position), sentence_scores_positions, length_seq. lia.
    + apply sorted_le_nodup_lt.
      * apply PyFacts.StronglySorted_map.
        eapply PyFacts.StronglySorted_weaken;
          [| apply (PyFacts.sort_by_sorted
                      (fun a b : scored => (snd (fst a) <? snd (fst b))%nat) (fun _ => True))].
        -- intros x y _ _ Hxy. unfold ahead in Hxy.
           apply Nat.ltb_ge in Hxy. exact Hxy.
        -- intros x y _ _ Hxy. apply Nat.ltb_lt in Hxy. apply Nat.ltb_ge. lia.
        -- unfold ahead. intros x y z _ _ _. rewrite !Nat.ltb_ge. lia.
        -- rewrite Forall_forall. auto.
      * apply (Permutation_NoDup (Permutation_map position Hsel)). exact Hnd.
    + rewrite Forall_forall. intros i Hi. apply in_map_iff in Hi.
      destruct Hi as [[[sc k] s] [<- He]]. apply HselL in He.
      apply sentence_scores_In in He. destruct He as [He _].
      apply nth_error_Some. unfold position. simpl. rewrite He. discriminate.
    + f_equal. rewrite map_map. apply map_ext_in.
      intros [[sc k] s] He. apply HselL in He.
      apply sentence_scores_In in He. destruct He as [He _].
      unfold sentence_at, position. simpl. symmetry. now apply nth_error_nth.
    + intros p m Hp Hm Hnot.
      apply in_map_iff in Hp. destruct Hp as [ep [Hpos Hep]].
      assert (Hep' : In ep top)
        by now apply (Permutation_in _ (Permutation_sym Hsel)).
      destruct (nth_error sentences m) as [sm|] eqn:Em;
        [| apply nth_error_None in Em; lia].
      set (em := (sentence_score (List.length sentences) m sm, m, sm)).
      assert (HemL : In em L) by (apply sentence_scores_In; now split).
      assert (Hem : In em (skipn max_sentences sorted)).
      { apply (Permutation_in _ Hperm) in HemL.
        rewrite <- (firstn_skipn max_sentences sorted) in HemL.
        apply in_app_or in HemL. destruct HemL as [Hin | Hin]; [| exact Hin].
        exfalso. apply Hnot. apply in_map_iff. exists em. split; [reflexivity |].
        now apply (Permutation_in _ Hsel). }
      pose proof (PyFacts.sorted_firstn_skipn _ sorted max_sentences
                    (sorted_scores_sorted sentences) ep em Hep' Hem) as Hahead.
      simpl in Hahead.
      assert (Nlt : ~ (fst (fst ep) < fst (fst em)
                       \/ (fst (fst ep) = fst (fst em) /\ position ep < position em))).
      { intro K. apply (scored_ltb_key sentences) in K; auto. congruence. }
      assert (Hne : p <> m).
      { intro E. apply Hnot. subst m. apply in_map_iff. exists ep. now split. }
      destruct ep as [[sp ip] tp]. pose proof (HtopL _ Hep') as HepL.
      apply sentence_scores_In in HepL. destruct HepL as [Hnp ->].
      unfold position in *. simpl in *. subst ip.
      unfold outranks, sentence_at.
      rewrite (nth_error_nth _ _ _ Hnp), (nth_error_nth _ _ _ Em). lia.
Qed.

End Summary.

(** C8 as stated fails where a chunk holds a single sentence: the chunk
    that follows starts with the new sentence alone, nothing of the
    chunk before it is carried over. *)
Lemma second_chunk_without_overlap :
  Examples.split_sentences Examples.two_long_sentences
  = [Examples.first_long; Examples.second_long]
  /\ _split_into_chunks Examples.split_sentences Examples.two_long_sentences 500 50
     = [ {| chunk_text := Examples.first_long; chunk_id := 0; chunk_sentence_count := 1 |};
         {| chunk_text := Examples.second_long; chunk_id := 1; chunk_sentence_count := 1 |} ]
  /\ String.prefix Examples.first_long Examples.second_long = false.
Proof. repeat split; vm_compute; reflexivity. Qed.

(** With two sentences in a chunk the last one is carried over. *)
Example chunks_with_overlap :
  map chunk_text
    (_split_into_chunks Examples.split_sentences Examples.four_sentences 60 50)
  = [ "Cats sleep all day. Dogs bark at night.";
      "Dogs bark at night. The quick brown fox jumps over the lazy dog near the quiet river bank.";
      "The quick brown fox jumps over the lazy dog near the quiet river bank. Birds sing at dawn." ].
Proof. vm_compute. reflexivity. Qed.

(** ** Retrieval *)

Lemma list_index_In {A : Type} (l : list A) (i : Z) (x : A) :
  list_index l i = Return x -> In x l.
Proof.
  unfold list_index.
  destruct ((if (i <? 0)%Z then Z.of_nat (List.length l) + i else i) <? 0)%Z;
    [discriminate |].
  destruct (nth_error l _) as [y|] eqn:E; [| discriminate].
  intro H. inversion H; subst. eapply nth_error_In, E.
Qed.

Lemma list_index_in_range {A : Type} (l : list A) (i : Z) :
  (- Z.of_nat (List.length l) <= i < Z.of_nat (List.length l))%Z ->
  exists x, list_index l i = Return x.
Proof.
  intro H. unfold list_index.
  set (pos := if (i <? 0)%Z then (Z.of_nat (List.length l) + i)%Z else i).
  assert (Hpos : (0 <= pos < Z.of_nat (List.length l))%Z).
  { unfold pos. destruct (Z.ltb_spec i 0); lia. }
  destruct (Z.ltb_spec pos 0); [lia |].
  destruct (nth_error l (Z.to_nat pos)) as [x|] eqn:E; [now exists x |].
  apply nth_error_None in E. lia.
Qed.

(** A property of the accumulator that every step keeps holds of the
    result of a loop that runs to its end. *)
Lemma exc_fold_invariant {A B : Type} (f : Exc A -> B -> Exc A) (Q : A -> Prop)
    (l : list B) :
  (forall e b, f (Raise e) b = Raise e) ->
  (forall a b a', Q a -> In b l -> f (Return a) b = Return a' -> Q a') ->
  forall a res, Q a -> fold_left f l (Return a) = Return res -> Q res.
Proof.
  intros Hraise. induction l as [|b r IH]; intros Hstep a res Ha Hrun.
  - simpl in Hrun. inversion Hrun; subst. exact Ha.
  - cbn [fold_left] in Hrun. destruct (f (Return a) b) as [a' | e] eqn:E.
    + apply (IH (fun x y z Hx Hy => Hstep x y z Hx (or_intror Hy)) a' res); [| exact Hrun].
      apply (Hstep a b a' Ha (or_introl eq_refl) E).
    + exfalso. clear - Hraise Hrun.
      assert (G : fold_left f r (Raise e) = Raise e).
      { clear Hrun. induction r as [|x r IHr]; cbn [fold_left];
          [reflexivity | rewrite Hraise; exact IHr]. }
      rewrite G in Hrun. discriminate.
Qed.

Section Guard.

Context {H : Type} (make : float -> chunk -> H) (doc : document).

Let count : Z := Z.of_nat (List.length (chunks doc)).

Let step (acc : Exc (list H)) (p : float * Z) : Exc (list H) :=
  let '(score, idx) := p in
  results <- acc ;;
  if (idx <? Z.of_nat (List.length (chunks doc)))%Z
  then
    chunk <- list_index (chunks doc) idx ;;
    Return (results ++ [make score chunk])
  else Return results.

Lemma guarded_fold_raise (found : list (float * Z)) (e : string) :
  fold_left step found (Raise e) = Raise e.
Proof. induction found as [|[score idx] r IH]; simpl; [reflexivity | exact IH]. Qed.

(** An index at or beyond the chunk count leaves the results as they
    are. *)
Lemma guarded_fold_discards (found : list (float * Z)) (acc : Exc (list H)) :
  fold_left step found acc
  = fold_left step (filter (fun p => (snd p <? count)%Z) found) acc.
Proof.
  revert acc. induction found as [|[score idx] r IH]; intro acc; [reflexivity |].
  cbn [filter snd]. unfold count at 1.
  destruct (idx <? Z.of_nat (List.length (chunks doc)))%Z eqn:E.
  - cbn [fold_left]. apply IH.
  - cbn [fold_left]. rewrite <- IH. f_equal.
    unfold step. rewrite E. now destruct acc.
Qed.

(** Every result is made from a chunk of the list. *)
Lemma guarded_fold_within (Q : H -> Prop) (found : list (float * Z)) (acc hits : list H) :
  (forall score c, In c (chunks doc) -> Q (make score c)) ->
  Forall Q acc ->
  fold_left step found (Return acc) = Return hits ->
  Forall Q hits.
Proof.
  intro Hmake. revert acc. induction found as [|[score idx] r IH]; intros acc Hacc Hrun.
  - simpl in Hrun. inversion Hrun; subst. exact Hacc.
  - cbn [fold_left] in Hrun. unfold step at 2 in Hrun. cbn [bind] in Hrun.
    destruct (idx <? Z.of_nat (List.length (chunks doc)))%Z.
    + destruct (list_index (chunks doc) idx) as [c | e] eqn:E; cbn [bind] in Hrun.
      * apply (IH (acc ++ [make score c])); [| exact Hrun].
        apply Forall_app. split; [exact Hacc |].
        constructor; [| constructor]. apply Hmake. eapply list_index_In, E.
      * rewrite guarded_fold_raise in Hrun. discriminate.
    + exact (IH _ Hacc Hrun).
Qed.

(** The lookup cannot fail on labels that are at least minus the chunk
    count, which covers the [-1] FAISS pads with whenever the document has
    a chunk. *)
Lemma guarded_fold_runs (found : list (float * Z)) (acc : list H) :
  Forall (fun p => (- count <= snd p)%Z) found ->
  exists hits, fold_left step found (Return acc) = Return hits.
Proof.
  revert acc. induction found as [|[score idx] r IH]; intros acc Hrange.
  - now exists acc.
  - inversion Hrange as [|? ? Hidx Hr]; subst. simpl in Hidx.
    cbn [fold_left]. unfold step at 2. cbn [bind].
    destruct (Z.ltb_spec idx (Z.of_nat (List.length (chunks doc)))) as [Hlt | Hge].
    + destruct (list_index_in_range (chunks doc) idx) as [c Hc];
        [unfold count in Hidx; lia |].
      rewrite Hc. cbn [bind]. now apply IH.
    + now apply IH.
Qed.

End Guard.

Section Operations.

Variable R : retrieval.

Lemma answer_hits_stored (self : agent R) (doc : document) (doc_name : string)
    (found : list (float * Z)) (hits : list answer_hit) :
  DataAgent.storage_get (documents self) doc_name = Some doc ->
  answer_hits doc doc_name found = Return hits ->
  Forall (answer_hit_stored (documents self)) hits.
Proof.
  intros Hdoc Hrun.
  refine (guarded_fold_within _ doc (answer_hit_stored (documents self)) found [] hits
            _ (Forall_nil _) Hrun).
  intros score c Hc. exists doc, c. simpl. auto.
Qed.

Lemma search_hits_stored (self : agent R) (doc : document) (doc_name : string)
    (found : list (float * Z)) (hits : list search_hit) :
  In (doc_name, doc) (documents self) ->
  search_hits doc doc_name found = Return hits ->
  Forall (search_hit_stored (documents self)) hits.
Proof.
  intros Hdoc Hrun.
  refine (guarded_fold_within _ doc (search_hit_stored (documents self)) found [] hits
            _ (Forall_nil _) Hrun).
  intros score c Hc. exists doc, c. simpl. auto.
Qed.

(** The loop of [answer_question] over the documents to search. *)
Lemma answer_documents_stored (self : agent R) (question : string) (top_k : nat)
    (names : list string) (all : list answer_hit) :
  fold_left
    (fun acc doc_name =>
       all_results <- acc ;;
       question_embedding <- encode R question ;;
       index <- lookup (faiss_indexes self) doc_name ;;
       found <- search R index question_embedding top_k ;;
       doc <- lookup (documents self) doc_name ;;
       relevant_chunks <- answer_hits doc doc_name found ;;
       Return (all_results ++ relevant_chunks))
    names (Return []) = Return all ->
  Forall (answer_hit_stored (documents self)) all.
Proof.
  apply exc_fold_invariant.
  - reflexivity.
  - intros acc name acc' Hacc _ Hstep. cbn [bind] in Hstep.
    destruct (encode R question) as [emb | e]; cbn [bind] in Hstep; [| discriminate].
    destruct (lookup (faiss_indexes self) name) as [ix | e]; cbn [bind] in Hstep;
      [| discriminate].
    destruct (search R ix emb top_k) as [found | e]; cbn [bind] in Hstep; [| discriminate].
    unfold lookup at 1 in Hstep.
    destruct (DataAgent.storage_get (documents self) name) as [doc|] eqn:Edoc;
      cbn [bind] in Hstep; [| discriminate].
    destruct (answer_hits doc name found) as [hits | e] eqn:Ehits; cbn [bind] in Hstep;
      [| discriminate].
    inversion Hstep; subst acc'. apply Forall_app. split; [exact Hacc |].
    exact (answer_hits_stored self doc name found hits Edoc Ehits).
  - constructor.
Qed.

(** The loop of [search_documents] over the stored documents. *)
Lemma search_documents_stored (self : agent R) (emb : embedding R) (top_k : nat)
    (all : list search_hit) :
  fold_left
    (fun acc '(doc_name, doc) =>
       all_results <- acc ;;
       index <- lookup (faiss_indexes self) doc_name ;;
       found <- search R index emb top_k ;;
       hits <- search_hits doc doc_name found ;;
       Return (all_results ++ hits))
    (documents self) (Return []) = Return all ->
  Forall (search_hit_stored (documents self)) all.
Proof.
  apply exc_fold_invariant.
  - now intros e [name doc].
  - intros acc [name doc] acc' Hacc Hin Hstep. cbn [bind] in Hstep.
    destruct (lookup (faiss_indexes self) name) as [ix | e]; cbn [bind] in Hstep;
      [| discriminate].
    destruct (search R ix emb top_k) as [found | e]; cbn [bind] in Hstep; [| discriminate].
    destruct (search_hits doc name found) as [hits | e] eqn:Ehits; cbn [bind] in Hstep;
      [| discriminate].
    inversion Hstep; subst acc'. apply Forall_app. split; [exact Hacc |].
    exact (search_hits_stored self doc name found hits Hin Ehits).
  - constructor.
Qed.

(** The half of the guard that works: a label at or beyond the chunk
    count has no effect on the results of either loop. *)
Lemma labels_beyond_the_count_are_dropped
    (doc : document) (doc_name : string) (found : list (float * Z)) :
  answer_hits doc doc_name found
  = answer_hits doc doc_name
      (filter (fun p => (snd p <? Z.of_nat (List.length (chunks doc)))%Z) found)
  /\ search_hits doc doc_name found
     = search_hits doc doc_name
         (filter (fun p => (snd p <? Z.of_nat (List.length (chunks doc)))%Z) found).
Proof. split; apply guarded_fold_discards. Qed.

End Operations.

(** The search of the example answers 5, 1 and -1 on a document of two
    chunks: 5 is dropped, 1 reads the second chunk, and -1, the label of
    an empty slot, passes the guard and reads the last chunk again. *)
Example guard_on_two_chunks :
  answer_hits Examples.two_chunk_document "notes.pdf"
    [(0.5%float, 5%Z); (0.25%float, 1%Z); ((-1)%float, (-1)%Z)]
  = Return [ {| a_text := "Dogs bark at night."; a_score := 0.25;
                a_chunk_id := 1; a_document := "notes.pdf" |};
             {| a_text := "Dogs bark at night."; a_score := -1;
                a_chunk_id := 1; a_document := "notes.pdf" |} ].
Proof. reflexivity. Qed.

(** C3: the guard [idx < len(doc['chunks'])] has no lower bound, and the
    label [-1], with which the index fills the places it has no vector
    for, passes it.  On a document of one chunk, asked for three hits,
    the two padding labels read the last chunk through Python's negative
    indexing and come back as results.  On a document without chunks,
    left behind when a stored name is loaded again with a text that
    cleans to nothing, the same label reads outside the empty list: the
    [IndexError] ends the question and the search with an error. *)
Theorem padding_label_passes_the_guard :
  let load := load_pdf Examples.split_sentences split_ws Examples.few_stop_words
                Examples.padded_retrieval Examples.padded_reader in
  let first := load Examples.nothing_indexed "/tmp/up/paper.pdf" "paper.pdf" in
  let second := load (snd first) "/tmp/up/stub.pdf" "paper.pdf" in
  search Examples.padded_retrieval 1 tt 3
  = Return [(0.5%float, 0%Z); (Examples.lowest_score, (-1)%Z); (Examples.lowest_score, (-1)%Z)]
  /\ dict_get (fst first) "success" = Some (VBool true)
  /\ (exists c,
        option_map chunks (DataAgent.storage_get (documents (snd first)) "paper.pdf")
        = Some [c]
        /\ answer_top_results Examples.padded_retrieval (snd first) "what is sleep"
             ["paper.pdf"] 3
           = Return [ {| a_text := chunk_text c; a_score := 0.5;
                         a_chunk_id := 0; a_document := "paper.pdf" |};
                      {| a_text := chunk_text c; a_score := Examples.lowest_score;
                         a_chunk_id := 0; a_document := "paper.pdf" |};
                      {| a_text := chunk_text c; a_score := Examples.lowest_score;
                         a_chunk_id := 0; a_document := "paper.pdf" |} ])
  /\ fst second
     = DataAgent.error_result "Failed to process PDF: tuple index out of range"
  /\ option_map chunks (DataAgent.storage_get (documents (snd second)) "paper.pdf") = Some []
  /\ DataAgent.storage_get (faiss_indexes (snd second)) "paper.pdf" = Some 1
  /\ answer_hits
       {| file_name := "paper.pdf"; title := ""; full_text := ""; chunks := [];
          summary := ""; keywords := [];
          metadata := {| word_count := 0; sentence_count := 0;
                         total_pages := 1; chunk_count := 0 |} |}
       "paper.pdf" [(Examples.lowest_score, (-1)%Z)]
     = Raise "list index out of range"
  /\ answer_question Examples.split_sentences Examples.padded_retrieval (snd second)
       "what is sleep" None 3
     = DataAgent.error_result "Failed to answer question: list index out of range"
  /\ search_documents Examples.padded_retrieval (snd second) "sleep" 5
     = DataAgent.error_result "Search failed: list index out of range".
Proof.
  cbv zeta.
  split; [reflexivity |]. split; [vm_compute; reflexivity |].
  split; [eexists; split; vm_compute; reflexivity |].
  repeat split; vm_compute; reflexivity.
Qed.

(** The position tests are made on binary64 products: of 90 sentences,
    sentence 63 is past [90 * 0.7], which is 62.99999999999999. *)
Example score_in_binary64 :
  sentence_score 90 63 "" = 1 /\ sentence_score 90 62 "" = 0
  /\ sentence_score 10 2 "" = 2 /\ sentence_score 10 3 "" = 0.
Proof. repeat split; vm_compute; reflexivity. Qed.

(** The scores and the summary of the four-sentence text. *)
Example four_sentences_scores :
  sentence_scores (Examples.split_sentences Examples.four_sentences)
  = [ (2, 0, "Cats sleep all day.");
      (2, 1, "Dogs bark at night.");
      (1, 2, "The quick brown fox jumps over the lazy dog near the quiet river bank.");
      (1, 3, "Birds sing at dawn.") ].
Proof. vm_compute. reflexivity. Qed.

(** C1 as stated fails on a tie: sentences 2 and 3 both score 1, the
    specification's rule takes the earlier one, the code the later one. *)
Lemma summary_tie_goes_to_later_sentence :
  _generate_summary Examples.split_sentences Examples.four_sentences 3
  = "Cats sleep all day. Dogs bark at night. Birds sing at dawn."
  /\ ref_generate_summary Examples.split_sentences Examples.four_sentences 3
     = "Cats sleep all day. Dogs bark at night. The quick brown fox jumps over the lazy dog near the quiet river bank."
  /\ _generate_summary Examples.split_sentences Examples.four_sentences 3
     <> ref_generate_summary Examples.split_sentences Examples.four_sentences 3.
Proof.
  split; [vm_compute; reflexivity |]. split; [vm_compute; reflexivity |].
  vm_compute. discriminate.
Qed.

(** ** Cleaning the text *)

Lemma cleaned_has_no_newline (text : string) :
  ~ In newline (list_ascii_of_string (keep_chars allowed_char (collapse_ws text))).
Proof.
  intro H. apply PyFacts.keep_chars_In in H. destruct H as [H _].
  apply PyFacts.collapse_ws_spaces in H; [discriminate | reflexivity].
Qed.

(** X9: the line filter of [_clean_text] sees one line only: collapsing the
    white space leaves no line break.  So the result is the collapsed,
    filtered and stripped text when that is longer than three characters,
    and the empty string otherwise. *)
Theorem clean_text_keeps_or_drops_the_whole_text (text : string) :
  let stripped := strip (keep_chars allowed_char (collapse_ws text)) in
  _clean_text text = if (3 <? String.length stripped)%nat then stripped else "".
Proof.
  cbv zeta. unfold _clean_text.
  rewrite (PyFacts.split_on_absent _ _ (cleaned_has_no_newline text)). cbn [filter].
  destruct (3 <? String.length (strip (keep_chars allowed_char (collapse_ws text))))%nat;
    reflexivity.
Qed.

(** X10: a cleaned text holds characters of the allowed class only, the space
    being the only white space among them; it neither starts nor ends
    with white space; and it is empty or longer than three characters. *)
Theorem clean_text_shape (text : string) :
  Forall (fun c => allowed_char c = true /\ (is_space c = true -> c = " "%char))
    (list_ascii_of_string (_clean_text text))
  /\ strip (_clean_text text) = _clean_text text
  /\ (_clean_text text = "" \/ 3 < String.length (_clean_text text)).
Proof.
  unfold _clean_text.
  rewrite (PyFacts.split_on_absent _ _ (cleaned_has_no_newline text)). cbn [filter].
  destruct (3 <? String.length (strip (keep_chars allowed_char (collapse_ws text))))%nat
    eqn:E; cbn [map join String.concat].
  - split; [| split].
    + rewrite Forall_forall. intros c Hc. apply PyFacts.strip_In in Hc.
      apply PyFacts.keep_chars_In in Hc. destruct Hc as [Hc Hk].
      split; [exact Hk |]. exact (PyFacts.collapse_ws_spaces _ _ _ Hc).
    + apply PyFacts.strip_idem.
    + right. now apply Nat.ltb_lt.
  - split; [constructor |]. split; [reflexivity | now left].
Qed.

(** ** The title and the metadata *)

Section Processed.

Variable sent_tokenize : string -> list string.
Variable word_tokenize : string -> list string.
Variable stop_words : list string.

(** X11: the title of a processed document is empty or has between 11 and
    100 characters: it is a line of the raw text, stripped, that is
    longer than 10 characters, cut to 100.  Its metadata agrees with its
    parts: [chunk_count] is the number of chunks and there is at least
    one page. *)
Theorem processed_document_title (text file_name : string) :
  let doc := _process_document sent_tokenize word_tokenize stop_words text file_name in
  (title doc = ""
   \/ (10 < String.length (title doc) <= 100
       /\ exists line, In line (split_on newline text)
                       /\ title doc = take 100 (strip line)))
  /\ chunk_count (metadata doc) = List.length (chunks doc)
  /\ 1 <= total_pages (metadata doc).
Proof.
  cbv zeta. unfold _process_document. cbn [title metadata chunk_count chunks total_pages].
  split; [| split; [reflexivity | lia]].
  unfold find_title.
  destruct (find _ (split_on newline text)) as [line|] eqn:E; [| now left].
  right. apply find_some in E. destruct E as [Hin Hl].
  apply andb_prop in Hl. destruct Hl as [_ Hl]. apply Nat.ltb_lt in Hl.
  split; [| now exists line].
  unfold take. rewrite PyFacts.substring_0_length. lia.
Qed.

End Processed.

(** ** Keywords *)

Lemma counter_add_get (c : list (string * nat)) (w k : string) :
  DataAgent.storage_get (counter_add c w) k
  = if String.eqb w k
    then Some (S (match DataAgent.storage_get c w with Some n => n | None => 0 end))
    else DataAgent.storage_get c k.
Proof.
  induction c as [|[k0 n0] r IH]; simpl.
  - destruct (String.eqb w k); reflexivity.
  - destruct (String.eqb k0 w) eqn:E0; simpl.
    + apply String.eqb_eq in E0. subst k0.
      destruct (String.eqb w k) eqn:E; [| reflexivity]. reflexivity.
    + rewrite IH. destruct (String.eqb w k) eqn:E; [| reflexivity].
      apply String.eqb_eq in E. subst k. now rewrite E0.
Qed.

Lemma counter_add_keys (c : list (string * nat)) (w : string) :
  map fst (counter_add c w) = map fst c
  \/ (~ In w (map fst c) /\ map fst (counter_add c w) = map fst c ++ [w]).
Proof.
  induction c as [|[k0 n0] r IH]; simpl.
  - right. split; [tauto | reflexivity].
  - destruct (String.eqb k0 w) eqn:E; simpl.
    + now left.
    + apply String.eqb_neq in E. destruct IH as [IH | [Hn IH]].
      * left. now rewrite IH.
      * right. split; [intros [H | H]; [congruence | contradiction] | now rewrite IH].
Qed.

Lemma Counter_keys (words : list string) (c : list (string * nat)) :
  NoDup (map fst c) -> NoDup (map fst (fold_left counter_add words c)).
Proof.
  revert c. induction words as [|w r IH]; intros c H; [exact H |].
  cbn [fold_left]. apply IH.
  destruct (counter_add_keys c w) as [-> | [Hn ->]]; [exact H |].
  apply NoDup_app; [exact H | repeat constructor; intros [] |].
  intros x Hx [<- | []]. exact (Hn Hx).
Qed.

Lemma Counter_counts (words seen : list string) (c : list (string * nat)) :
  (forall k, DataAgent.storage_get c k
             = match count_occ string_dec seen k with 0 => None | S n => Some (S n) end) ->
  forall k, DataAgent.storage_get (fold_left counter_add words c) k
            = match count_occ string_dec (seen ++ words) k with
              | 0 => None
              | S n => Some (S n)
              end.
Proof.
  revert seen c. induction words as [|w r IH]; intros seen c H k.
  - rewrite app_nil_r. apply H.
  - cbn [fold_left].
    replace (seen ++ w :: r) with ((seen ++ [w]) ++ r) by now rewrite <- app_assoc.
    apply IH. clear k. intro k. rewrite counter_add_get, count_occ_app. cbn [count_occ].
    destruct (String.eqb w k) eqn:E.
    + apply String.eqb_eq in E. subst k. rewrite H.
      destruct (string_dec w w) as [_ | N]; [| contradiction].
      destruct (count_occ string_dec seen w) as [|m]; simpl; [reflexivity |].
      f_equal. lia.
    + apply String.eqb_neq in E.
      destruct (string_dec w k) as [Y | _]; [contradiction |].
      rewrite Nat.add_0_r. apply H.
Qed.

Lemma storage_get_In {V : Type} (st : list (string * V)) (k : string) (v : V) :
  DataAgent.storage_get st k = Some v -> In (k, v) st.
Proof.
  induction st as [|[k0 v0] r IH]; simpl; [discriminate |].
  destruct (String.eqb k0 k) eqn:E.
  - apply String.eqb_eq in E. intro H. inversion H; subst. now left.
  - intro H. right. now apply IH.
Qed.

Lemma In_storage_get {V : Type} (st : list (string * V)) (k : string) (v : V) :
  NoDup (map fst st) -> In (k, v) st -> DataAgent.storage_get st k = Some v.
Proof.
  induction st as [|[k0 v0] r IH]; simpl; [contradiction |].
  intros Hnd [H | H].
  - inversion H; subst. now rewrite String.eqb_refl.
  - inversion Hnd as [|? ? Hn Hnd']; subst.
    destruct (String.eqb k0 k) eqn:E; [| now apply IH].
    apply String.eqb_eq in E. subst k0. exfalso. apply Hn.
    change k with (fst (k, v)). now apply in_map.
Qed.

Section Keywords.

Variable word_tokenize : string -> list string.
Variable stop_words : list string.

(** X12: the keywords are distinct words of the text that pass the filter
    (letters only, more than three of them, no stop word), at most
    [top_k] of them, in order of decreasing frequency; no word left out
    occurs more often than a word kept, and nothing is left out when
    fewer than [top_k] come back. *)
Theorem keywords_are_the_most_frequent_words (text : string) (top_k : nat) :
  let words := filter (keyword_candidate stop_words) (word_tokenize (lower text)) in
  let count w := count_occ string_dec words w in
  let found := _extract_keywords word_tokenize stop_words text top_k in
  NoDup found
  /\ List.length found <= top_k
  /\ (forall w, In w found ->
        In w (word_tokenize (lower text))
        /\ isalpha w = true /\ 3 < String.length w /\ ~ In w stop_words)
  /\ StronglySorted (fun a b => count b <= count a) found
  /\ (forall w v, In w found -> In v words -> ~ In v found -> count v <= count w)
  /\ (List.length found < top_k -> forall v, In v words -> In v found).
Proof.
  cbv zeta. unfold _extract_keywords, most_common.
  set (words := filter (keyword_candidate stop_words) (word_tokenize (lower text))).
  set (before := fun a b : string * nat => (snd b <? snd a)%nat).
  set (sorted := sort_by before (Counter words)).
  assert (Hkeys : NoDup (map fst sorted)).
  { apply (Permutation_NoDup
             (Permutation_map fst (PyFacts.sort_by_perm before (Counter words)))).
    apply Counter_keys. constructor. }
  assert (Hget : forall k, DataAgent.storage_get (Counter words) k
                           = match count_occ string_dec words k with
                             | 0 => None
                             | S n => Some (S n)
                             end).
  { intro k. exact (Counter_counts words [] [] (fun _ => eq_refl) k). }
  assert (Hentry : forall k n, In (k, n) sorted ->
                               n = count_occ string_dec words k /\ In k words).
  { intros k n Hin. apply (proj1 (PyFacts.sort_by_In before (Counter words) (k, n))) in Hin.
    apply In_storage_get in Hin; [| apply Counter_keys; constructor].
    rewrite Hget in Hin.
    destruct (count_occ string_dec words k) as [|m] eqn:E; [discriminate |].
    split; [congruence |]. apply (count_occ_In string_dec). lia. }
  assert (Hword : forall v, In v words -> In (v, count_occ string_dec words v) sorted).
  { intros v Hv. apply (proj2 (PyFacts.sort_by_In before (Counter words) _)).
    apply storage_get_In. rewrite Hget.
    apply (count_occ_In string_dec) in Hv.
    destruct (count_occ string_dec words v); [lia | reflexivity]. }
  assert (Hsorted : StronglySorted (ahead before) sorted).
  { apply (PyFacts.sort_by_sorted before (fun _ => True)).
    - intros x y _ _. unfold before. rewrite !Nat.ltb_lt, Nat.ltb_ge. lia.
    - intros x y z _ _ _. unfold ahead, before. rewrite !Nat.ltb_ge. lia.
    - rewrite Forall_forall. auto. }
  assert (Hkept : forall w, In w (map fst (firstn top_k sorted)) ->
                            In (w, count_occ string_dec words w) (firstn top_k sorted)).
  { intros w Hw. apply in_map_iff in Hw. destruct Hw as [[k n] [Hk Hin]]. simpl in Hk.
    subst k. destruct (Hentry w n (PyFacts.In_firstn _ _ _ Hin)) as [-> _]. exact Hin. }
  split; [| split; [| split; [| split; [| split]]]].
  - rewrite <- firstn_map. now apply NoDup_firstn.
  - rewrite length_map. apply firstn_le_length.
  - intros w Hw. apply Hkept in Hw. apply PyFacts.In_firstn in Hw.
    destruct (Hentry _ _ Hw) as [_ Hin]. unfold words in Hin. apply filter_In in Hin.
    destruct Hin as [Hin Hc]. unfold keyword_candidate in Hc.
    apply andb_prop in Hc. destruct Hc as [Hc Hs]. apply andb_prop in Hc.
    destruct Hc as [Ha Hl]. apply Nat.ltb_lt in Hl.
    split; [exact Hin |]. split; [exact Ha |]. split; [exact Hl |].
    intro K. apply DataAgentFacts.mem_In in K. rewrite K in Hs. discriminate.
  - apply PyFacts.StronglySorted_map.
    apply (PyFacts.StronglySorted_weaken (ahead before)).
    + intros [k n] [k' n'] Hx Hy Hxy.
      destruct (Hentry k n (PyFacts.In_firstn _ _ _ Hx)) as [En _].
      destruct (Hentry k' n' (PyFacts.In_firstn _ _ _ Hy)) as [En' _].
      unfold ahead, before in Hxy. cbn [snd fst] in *. apply Nat.ltb_ge in Hxy.
      now rewrite <- En, <- En'.
    + now apply PyFacts.StronglySorted_firstn.
  - intros w v Hw Hv Hout. apply Hkept in Hw. apply Hword in Hv.
    rewrite <- (firstn_skipn top_k sorted) in Hv. apply in_app_or in Hv.
    destruct Hv as [Hv | Hv].
    + exfalso. apply Hout. change v with (fst (v, count_occ string_dec words v)).
      now apply in_map.
    + pose proof (PyFacts.sorted_firstn_skipn _ sorted top_k Hsorted _ _ Hw Hv) as H.
      unfold ahead, before in H. cbn [snd] in H. now apply Nat.ltb_ge in H.
  - intros Hlen v Hv. rewrite length_map, length_firstn in Hlen.
    rewrite firstn_all2 by lia.
    change v with (fst (v, count_occ string_dec words v)). apply in_map. now apply Hword.
Qed.

End Keywords.

(** ** The chunks and the answer *)

Lemma chunks_of_groups_ids (first_id : nat) (groups : list (string * list string))
    (k : nat) (c : chunk) :
  nth_error (chunks_of_groups first_id groups) k = Some c -> chunk_id c = first_id + k.
Proof.
  unfold chunks_of_groups. revert first_id k.
  induction groups as [|g r IH]; intros first_id k H.
  - destruct k; discriminate.
  - destruct k as [|k]; simpl in H.
    + inversion H; subst. simpl. lia.
    + apply IH in H. lia.
Qed.

Lemma groups_from_nonempty (chunk_size overlap : nat) (rest : list string)
    (cur : string) (cs : list string) :
  is_empty cur = false -> groups_from chunk_size overlap cur cs rest <> [].
Proof.
  revert cur cs. induction rest as [|s r IH]; intros cur cs H.
  - simpl. rewrite H. discriminate.
  - cbn [groups_from]. destruct (String.length cur + String.length s <? chunk_size)%nat.
    + apply IH, is_empty_app_space.
    + rewrite H. discriminate.
Qed.

Lemma groups_from_length (chunk_size overlap : nat) (rest : list string)
    (cur : string) (cs : list string) :
  List.length (groups_from chunk_size overlap cur cs rest)
  <= (if is_empty cur then 0 else 1) + List.length rest.
Proof.
  revert cur cs. induction rest as [|s r IH]; intros cur cs.
  - simpl. destruct (is_empty cur); simpl; lia.
  - cbn [groups_from]. destruct (String.length cur + String.length s <? chunk_size)%nat.
    + specialize (IH (cur ++ " " ++ s)%string (cs ++ [s])).
      rewrite is_empty_app_space in IH. cbn [List.length]. destruct (is_empty cur); lia.
    + rewrite length_app.
      specialize (IH (join " " (overlap_of overlap cs) ++ " " ++ s)%string
                    (overlap_of overlap cs ++ [s])).
      rewrite is_empty_app_space in IH.
      destruct (is_empty cur); cbn [List.length]; lia.
Qed.

Section Chunks.

Variable sent_tokenize : string -> list string.

(** X13: the chunks of a text are numbered by their position, from 0; there
    are none exactly when the tokenizer finds no sentence, never more
    than there are sentences, and every chunk counts at least one
    sentence. *)
Theorem chunk_ids_are_positions (text : string) (chunk_size overlap : nat) :
  let parts := _split_into_chunks sent_tokenize text chunk_size overlap in
  (forall k c, nth_error parts k = Some c -> chunk_id c = k)
  /\ (parts = [] <-> sent_tokenize text = [])
  /\ List.length parts <= List.length (sent_tokenize text)
  /\ Forall (fun c => 1 <= chunk_sentence_count c) parts.
Proof.
  cbv zeta.
  assert (E : _split_into_chunks sent_tokenize text chunk_size overlap
              = chunks_of_groups 0 (groups_from chunk_size overlap "" [] (sent_tokenize text))).
  { unfold _split_into_chunks.
    exact (split_loop chunk_size overlap (sent_tokenize text) [] "" []). }
  rewrite E. clear E. split; [| split; [| split]].
  - intros k c H. now apply chunks_of_groups_ids in H.
  - split.
    + intro H. destruct (sent_tokenize text) as [|s r]; [reflexivity |]. exfalso.
      cbn [groups_from] in H.
      assert (G : forall cur cs, is_empty cur = false ->
                    chunks_of_groups 0 (groups_from chunk_size overlap cur cs r) <> []).
      { intros cur cs Hc K. apply (groups_from_nonempty chunk_size overlap r cur cs Hc).
        unfold chunks_of_groups in K. apply map_eq_nil in K.
        destruct (groups_from chunk_size overlap cur cs r); [reflexivity | discriminate]. }
      destruct (String.length "" + String.length s <? chunk_size)%nat;
        cbn [is_empty app] in H; eapply G; try exact H; apply is_empty_app_space.
    + intros ->. reflexivity.
  - unfold chunks_of_groups. rewrite length_map.
    rewrite <- (length_map fst), PyFacts.enumerate_from_fst, length_seq.
    exact (groups_from_length chunk_size overlap (sent_tokenize text) "" []).
  - assert (Hopen : open_chunk "" [] []).
    { unfold open_chunk. simpl. split; [auto |]. split; [discriminate | reflexivity]. }
    pose proof (groups_shape chunk_size overlap (sent_tokenize text) "" [] [] Hopen) as Hs.
    unfold chunks_of_groups. rewrite Forall_forall in *. intros c Hc.
    apply in_map_iff in Hc. destruct Hc as [[k g] [<- Hin]].
    assert (Hg : In g (groups_from chunk_size overlap "" [] (sent_tokenize text))).
    { rewrite <- (PyFacts.enumerate_from_snd 0). change g with (snd (k, g)).
      now apply in_map. }
    destruct (Hs g Hg) as [Hne _]. simpl. destruct (snd g); [contradiction | simpl; lia].
Qed.

(** X14: the answer is always a sentence of the context, word for word; only
    a context without sentences gets the fixed apology. *)
Theorem answer_is_a_sentence_of_the_context (question context : string) :
  (sent_tokenize context = [] ->
   _generate_answer sent_tokenize question context
   = "I couldn't find a specific answer to your question in the loaded documents.")
  /\ (sent_tokenize context <> [] ->
      In (_generate_answer sent_tokenize question context) (sent_tokenize context)).
Proof.
  unfold _generate_answer, first_matching. split.
  - intros ->. simpl.
    repeat match goal with
           | |- context [if ?b then _ else _] => destruct b
           end; reflexivity.
  - intro Hne. destruct (sent_tokenize context) as [|s r] eqn:E; [contradiction |].
    assert (Hfind : forall words,
               In (match find (fun sentence => any_in words (lower sentence)) (s :: r) with
                   | Some sentence => sentence
                   | None => s
                   end) (s :: r)).
    { intro words.
      destruct (find (fun sentence => any_in words (lower sentence)) (s :: r)) as [x|] eqn:F;
        [apply find_some in F; tauto | now left]. }
    repeat match goal with
           | |- context [if ?b then _ else _] => destruct b
           end; try apply Hfind. now left.
Qed.

End Chunks.

(** ** The order and the size of the results *)

Lemma guarded_hits_from {H : Type} (make : float -> chunk -> H) (doc : document)
    (Q : H -> Prop) (found : list (float * Z)) (hits : list H) :
  (forall score idx c, In (score, idx) found -> In c (chunks doc) -> Q (make score c)) ->
  guarded_hits make doc found = Return hits -> Forall Q hits.
Proof.
  intro Hmake. unfold guarded_hits. apply exc_fold_invariant.
  - now intros e [score idx].
  - intros acc [score idx] acc' Hacc Hin Hstep. cbn [bind] in Hstep.
    destruct (idx <? Z.of_nat (List.length (chunks doc)))%Z.
    + destruct (list_index (chunks doc) idx) as [c | e] eqn:E; cbn [bind] in Hstep;
        [| discriminate].
      inversion Hstep; subst acc'. apply Forall_app. split; [exact Hacc |].
      constructor; [| constructor]. apply (Hmake score idx c Hin). eapply list_index_In, E.
    + inversion Hstep; subst acc'. exact Hacc.
  - constructor.
Qed.

(** Sorting by decreasing score puts no result behind one that scores
    less, when every score is a number. *)
Lemma sorted_by_score {H : Type} (score_of : H -> float) (l : list H) :
  Forall (fun h => is_nan (score_of h) = false) l ->
  StronglySorted (fun a b => PrimFloat.ltb (score_of a) (score_of b) = false)
    (sort_by (fun a b => PrimFloat.ltb (score_of b) (score_of a)) l).
Proof.
  intro Hl.
  apply (PyFacts.sort_by_sorted (fun a b => PrimFloat.ltb (score_of b) (score_of a))
           (fun h => is_nan (score_of h) = false)); [| | exact Hl].
  - intros x y _ _. apply PyFacts.float_ltb_asym.
  - intros x y z Hx Hy Hz. unfold ahead. intros Hxy Hyz.
    exact (PyFacts.float_ltb_negtrans (score_of z) (score_of y) (score_of x)
             Hz Hy Hx Hyz Hxy).
Qed.

Section Results.

Variable sent_tokenize : string -> list string.
Variable R : retrieval.

(** X15: [search_documents] lists its results best first: no result stands
    behind one with a lower score. *)
Theorem search_results_come_best_first
    (self : agent R) (query : string) (top_k : nat) (hits : list search_hit) :
  scores_are_numbers R ->
  search_all_results R self query top_k = Return hits ->
  StronglySorted (fun a b => PrimFloat.ltb (s_score a) (s_score b) = false) hits
  /\ StronglySorted (fun a b => PrimFloat.ltb (s_score a) (s_score b) = false)
       (firstn top_k hits).
Proof.
  intros Hlib Hrun. unfold search_all_results in Hrun.
  destruct (encode R query) as [emb | e]; cbn [bind] in Hrun; [| discriminate].
  match type of Hrun with
  | (x <- ?loop ;; _) = _ => destruct loop as [all | e] eqn:Hloop
  end; cbn [bind] in Hrun; [| discriminate].
  inversion Hrun; subst hits. clear Hrun.
  assert (Hall : Forall (fun h => is_nan (s_score h) = false) all).
  { revert Hloop. apply exc_fold_invariant.
    - now intros e [name doc].
    - intros acc [name doc] acc' Hacc Hin Hstep. cbn [bind] in Hstep.
      destruct (lookup (faiss_indexes self) name) as [ix | e]; cbn [bind] in Hstep;
        [| discriminate].
      destruct (search R ix emb top_k) as [found | e] eqn:Es; cbn [bind] in Hstep;
        [| discriminate].
      destruct (search_hits doc name found) as [new | e] eqn:Eh; cbn [bind] in Hstep;
        [| discriminate].
      inversion Hstep; subst acc'. apply Forall_app. split; [exact Hacc |].
      refine (guarded_hits_from _ doc _ found new _ Eh).
      intros score idx c Hf _. cbn [s_score].
      pose proof (Hlib _ _ _ _ Es) as Hn. rewrite Forall_forall in Hn.
      exact (Hn _ Hf).
    - constructor. }
  pose proof (sorted_by_score s_score all Hall) as Hs.
  split; [exact Hs | now apply PyFacts.StronglySorted_firstn].
Qed.

(** X16: [answer_question] keeps at most [top_k] chunks, best first; they are
    the context the answer is taken from. *)
Theorem answer_chunks_come_best_first
    (self : agent R) (question : string) (names : list string) (top_k : nat)
    (top : list answer_hit) :
  scores_are_numbers R ->
  answer_top_results R self question names top_k = Return top ->
  StronglySorted (fun a b => PrimFloat.ltb (a_score a) (a_score b) = false) top
  /\ List.length top <= top_k.
Proof.
  intros Hlib Hrun. unfold answer_top_results in Hrun.
  match type of Hrun with
  | (x <- ?loop ;; _) = _ => destruct loop as [all | e] eqn:Hloop
  end; cbn [bind] in Hrun; [| discriminate].
  inversion Hrun; subst top. clear Hrun.
  assert (Hall : Forall (fun h => is_nan (a_score h) = false) all).
  { revert Hloop. apply exc_fold_invariant.
    - reflexivity.
    - intros acc name acc' Hacc Hin Hstep. cbn [bind] in Hstep.
      destruct (encode R question) as [emb | e]; cbn [bind] in Hstep; [| discriminate].
      destruct (lookup (faiss_indexes self) name) as [ix | e]; cbn [bind] in Hstep;
        [| discriminate].
      destruct (search R ix emb top_k) as [found | e] eqn:Es; cbn [bind] in Hstep;
        [| discriminate].
      destruct (lookup (documents self) name) as [doc | e]; cbn [bind] in Hstep;
        [| discriminate].
      destruct (answer_hits doc name found) as [new | e] eqn:Eh; cbn [bind] in Hstep;
        [| discriminate].
      inversion Hstep; subst acc'. apply Forall_app. split; [exact Hacc |].
      refine (guarded_hits_from _ doc _ found new _ Eh).
      intros score idx c Hf _. cbn [a_score].
      pose proof (Hlib _ _ _ _ Es) as Hn. rewrite Forall_forall in Hn.
      exact (Hn _ Hf).
    - constructor. }
  split; [| apply firstn_le_length].
  apply PyFacts.StronglySorted_firstn. exact (sorted_by_score a_score all Hall).
Qed.

End Results.

(** X17: the text previews are bounded.  A search result shows at most 200
    characters of its chunk and always ends in three dots, also when the
    chunk is shorter; the summary shown after a load is the summary
    itself up to 200 characters and its first 200 followed by three dots
    beyond; a document's sample holds at most three chunks of at most
    100 characters and three dots each. *)
Theorem previews_are_bounded :
  (forall doc doc_name found hits,
     search_hits doc doc_name found = Return hits ->
     Forall (fun h => String.length (s_text h) <= 203
                      /\ exists shown, s_text h = (shown ++ "...")%string) hits)
  /\ (forall summary,
        String.length (preview summary) <= 203
        /\ (String.length summary <= 200 -> preview summary = summary))
  /\ (forall doc,
        List.length (sample_chunks doc) <= 3
        /\ Forall (fun shown => String.length shown <= 103) (sample_chunks doc)).
Proof.
  split; [| split].
  - intros doc doc_name found hits Hrun.
    refine (guarded_hits_from _ doc _ found hits _ Hrun).
    intros score idx c _ _. cbn [s_text]. split; [| eauto].
    rewrite PyFacts.string_length_app. pose proof (PyFacts.take_length 200 (chunk_text c)).
    simpl. lia.
  - intro summary. unfold preview.
    destruct (200 <? String.length summary)%nat eqn:E.
    + apply Nat.ltb_lt in E. split; [| lia].
      rewrite PyFacts.string_length_app. pose proof (PyFacts.take_length 200 summary).
      simpl. lia.
    + apply Nat.ltb_ge in E. split; [lia | reflexivity].
  - intro doc. unfold sample_chunks. split.
    + rewrite length_map. apply firstn_le_length.
    + rewrite Forall_forall. intros shown Hs. apply in_map_iff in Hs.
      destruct Hs as [c [<- _]]. rewrite PyFacts.string_length_app.
      pose proof (PyFacts.take_length 100 (chunk_text c)). simpl. lia.
Qed.

Lemma fixed_scores_are_numbers : scores_are_numbers Examples.fixed_retrieval.
Proof.
  intros index emb k found H. simpl in H. inversion H; subst.
  repeat constructor.
Qed.

Lemma search_results_come_best_first_witness :
  scores_are_numbers Examples.fixed_retrieval
  /\ search_all_results Examples.fixed_retrieval Examples.notes_agent "dogs at night" 5
     = Return [ {| s_document := "notes.pdf"; s_title := "Notes on sleep";
                   s_text := "Dogs bark at night...."; s_score := 0.25; s_chunk_id := 1 |};
                {| s_document := "notes.pdf"; s_title := "Notes on sleep";
                   s_text := "Dogs bark at night...."; s_score := -1; s_chunk_id := 1 |} ]
  /\ StronglySorted (fun a b => PrimFloat.ltb (s_score a) (s_score b) = false)
       [ {| s_document := "notes.pdf"; s_title := "Notes on sleep";
            s_text := "Dogs bark at night...."; s_score := 0.25; s_chunk_id := 1 |};
         {| s_document := "notes.pdf"; s_title := "Notes on sleep";
            s_text := "Dogs bark at night...."; s_score := -1; s_chunk_id := 1 |} ].
Proof.
  split; [exact fixed_scores_are_numbers |]. split; [reflexivity |].
  exact (proj1 (search_results_come_best_first Examples.fixed_retrieval Examples.notes_agent
                  "dogs at night" 5 _ fixed_scores_are_numbers eq_refl)).
Defined.

Lemma answer_chunks_come_best_first_witness :
  scores_are_numbers Examples.fixed_retrieval
  /\ answer_top_results Examples.fixed_retrieval Examples.notes_agent "what do dogs do"
       ["notes.pdf"] 1
     = Return [ {| a_text := "Dogs bark at night."; a_score := 0.25;
                   a_chunk_id := 1; a_document := "notes.pdf" |} ]
  /\ List.length [ {| a_text := "Dogs bark at night."; a_score := 0.25;
                      a_chunk_id := 1; a_document := "notes.pdf" |} ] <= 1.
Proof.
  split; [exact fixed_scores_are_numbers |]. split; [reflexivity |].
  exact (proj2 (answer_chunks_come_best_first Examples.fixed_retrieval Examples.notes_agent
                  "what do dogs do" ["notes.pdf"] 1 _ fixed_scores_are_numbers eq_refl)).
Defined.

(** ** Searches that go through *)

Lemma exc_fold_runs {A B : Type} (f : Exc A -> B -> Exc A) (l : list B) :
  (forall a b, In b l -> exists a', f (Return a) b = Return a') ->
  forall a, exists res, fold_left f l (Return a) = Return res.
Proof.
  induction l as [|b r IH]; intros Hstep a; [now exists a |].
  cbn [fold_left]. destruct (Hstep a b (or_introl eq_refl)) as [a' ->].
  apply IH. intros x y Hy. apply Hstep. now right.
Qed.

Lemma In_storage_get_some {V : Type} (st : list (string * V)) (k : string) (v : V) :
  In (k, v) st -> exists v', DataAgent.storage_get st k = Some v'.
Proof.
  induction st as [|[k0 v0] r IH]; simpl; [contradiction |].
  intros [H | H].
  - inversion H; subst. rewrite String.eqb_refl. eauto.
  - destruct (String.eqb k0 k); [eauto | now apply IH].
Qed.

Section Running.

Variable sent_tokenize : string -> list string.
Variable R : retrieval.

Lemma labels_in_range (doc : document) (found : list (float * Z)) :
  chunks doc <> [] ->
  Forall (fun p => (-1 <= snd p)%Z) found ->
  Forall (fun p => (- Z.of_nat (List.length (chunks doc)) <= snd p)%Z) found.
Proof.
  intros Hne Hf. rewrite Forall_forall in *. intros p Hp. specialize (Hf p Hp).
  destruct (chunks doc); [contradiction | simpl List.length; lia].
Qed.

(** X18: with every stored document indexed and holding a chunk, an encoder
    that encodes the query and an index that answers with labels from -1
    up, both operations return a success result: no lookup in them
    fails. *)
Theorem searches_succeed_on_indexed_documents
    (self : agent R) (query : string) (top_k : nat) (emb : embedding R) :
  documents self <> [] ->
  indexed self ->
  Forall (fun entry => chunks (snd entry) <> []) (documents self) ->
  encode R query = Return emb ->
  (forall index, exists found,
      search R index emb top_k = Return found
      /\ Forall (fun p => (-1 <= snd p)%Z) found) ->
  dict_get (search_documents R self query top_k) "success" = Some (VBool true)
  /\ dict_get (answer_question sent_tokenize R self query None top_k) "success"
     = Some (VBool true).
Proof.
  intros Hne Hix Hchunks Henc Hsearch. rewrite Forall_forall in Hchunks.
  assert (Hindex : forall name doc, In (name, doc) (documents self) ->
                     exists index, lookup (faiss_indexes self) name = Return index).
  { intros name doc Hin. destruct (In_storage_get_some _ _ _ Hin) as [doc' Hd].
    destruct (Hix name doc' Hd) as [index Hi]. exists index. unfold lookup. now rewrite Hi. }
  assert (Hs : exists hits, search_all_results R self query top_k = Return hits).
  { unfold search_all_results. rewrite Henc. cbn [bind].
    match goal with
    | |- exists hits, (x <- fold_left ?f ?l _ ;; _) = _ =>
        destruct (exc_fold_runs f l) with (a := @nil search_hit) as [all Hall]
    end.
    - intros acc [name doc] Hin. cbn [bind].
      destruct (Hindex name doc Hin) as [index ->]. cbn [bind].
      destruct (Hsearch index) as [found [-> Hr]]. cbn [bind].
      assert (Hh : exists hits, search_hits doc name found = Return hits).
      { unfold search_hits, guarded_hits. apply guarded_fold_runs.
        apply labels_in_range; [exact (Hchunks _ Hin) | exact Hr]. }
      destruct Hh as [hits ->]. cbn [bind]. eauto.
    - rewrite Hall. cbn [bind]. eauto. }
  assert (Ha : exists top,
             answer_top_results R self query (map fst (documents self)) top_k = Return top).
  { unfold answer_top_results.
    match goal with
    | |- exists top, (x <- fold_left ?f ?l _ ;; _) = _ =>
        destruct (exc_fold_runs f l) with (a := @nil answer_hit) as [all Hall]
    end.
    - intros acc name Hin. cbn [bind]. rewrite Henc. cbn [bind].
      apply in_map_iff in Hin. destruct Hin as [[name' doc] [Hn Hin]]. simpl in Hn.
      subst name'. destruct (Hindex name doc Hin) as [index ->]. cbn [bind].
      destruct (Hsearch index) as [found [-> Hr]]. cbn [bind].
      destruct (In_storage_get_some _ _ _ Hin) as [doc' Hd].
      unfold lookup. rewrite Hd. cbn [bind].
      assert (Hh : exists hits, answer_hits doc' name found = Return hits).
      { unfold answer_hits, guarded_hits. apply guarded_fold_runs.
        apply labels_in_range; [| exact Hr].
        exact (Hchunks (name, doc') (storage_get_In _ _ _ Hd)). }
      destruct Hh as [hits ->]. cbn [bind]. eauto.
    - rewrite Hall. cbn [bind]. eauto. }
  destruct Hs as [hits Hs]. destruct Ha as [top Ha].
  unfold search_documents, answer_question.
  destruct (documents self) as [|d ds]; [contradiction |].
  rewrite Hs, Ha. split; reflexivity.
Qed.

End Running.

Lemma searches_succeed_on_indexed_documents_witness :
  documents Examples.notes_agent <> []
  /\ indexed Examples.notes_agent
  /\ encode Examples.fixed_retrieval "dogs at night" = Return tt
  /\ dict_get (search_documents Examples.fixed_retrieval Examples.notes_agent
                 "dogs at night" 5) "success" = Some (VBool true).
Proof.
  assert (Hne : documents Examples.notes_agent <> []) by (simpl; discriminate).
  assert (Hix : indexed Examples.notes_agent).
  { intros name doc. unfold Examples.notes_agent.
    cbn [documents faiss_indexes DataAgent.storage_get].
    destruct (String.eqb "notes.pdf" name); intro H; [eauto | discriminate H]. }
  split; [exact Hne |]. split; [exact Hix |]. split; [reflexivity |].
  refine (proj1 (searches_succeed_on_indexed_documents Examples.split_sentences
                   Examples.fixed_retrieval Examples.notes_agent "dogs at night" 5 tt
                   Hne Hix _ eq_refl _)).
  - repeat constructor; discriminate.
  - intro index. eexists. split; [reflexivity |]. repeat constructor; simpl; lia.
Defined.

(** ** Loading a PDF *)

Section Loading.

Variable sent_tokenize : string -> list string.
Variable word_tokenize : string -> list string.
Variable stop_words : list string.
Variable R : retrieval.
Variable ix : indexing R.

(** X19: a PDF that cannot be read, or whose text is blank, is refused and
    leaves the agent as it was. *)
Theorem rejected_pdf_changes_nothing (self : agent R) (file_path file_name : string) :
  (forall e, _extract_text_from_pdf R ix file_path = Raise e ->
     load_pdf sent_tokenize word_tokenize stop_words R ix self file_path file_name
     = (DataAgent.error_result ("Failed to process PDF: " ++ e), self))
  /\ (forall text, _extract_text_from_pdf R ix file_path = Return text ->
        strip text = "" ->
        load_pdf sent_tokenize word_tokenize stop_words R ix self file_path file_name
        = (DataAgent.error_result "No text content found in PDF", self)).
Proof.
  unfold load_pdf. split.
  - intros e ->. reflexivity.
  - intros text -> ->. reflexivity.
Qed.

(** X20: after a load that succeeds the processed document and its index are
    stored under the file name, the other documents and indexes are as
    before, an agent whose documents were all indexed still is, and
    [summarize_document] returns the title, the summary and the keywords
    made at load time. *)
Theorem loaded_pdf_is_stored_and_indexed
    (self : agent R) (file_path file_name text : string)
    (embeddings : matrix ix) (index : Research.index R) :
  _extract_text_from_pdf R ix file_path = Return text ->
  strip text <> "" ->
  let doc := _process_document sent_tokenize word_tokenize stop_words text file_name in
  encode_chunks ix (map chunk_text (chunks doc)) = Return embeddings ->
  create_index ix embeddings = Return index ->
  let loaded :=
    snd (load_pdf sent_tokenize word_tokenize stop_words R ix self file_path file_name) in
  DataAgent.storage_get (documents loaded) file_name = Some doc
  /\ DataAgent.storage_get (faiss_indexes loaded) file_name = Some index
  /\ (forall other, other <> file_name ->
        DataAgent.storage_get (documents loaded) other
        = DataAgent.storage_get (documents self) other
        /\ DataAgent.storage_get (faiss_indexes loaded) other
           = DataAgent.storage_get (faiss_indexes self) other)
  /\ (indexed self -> indexed loaded)
  /\ summarize_document R loaded file_name
     = [ ("success", VBool true);
         ("document_name", VStr file_name);
         ("title", VStr (find_title text));
         ("summary", VStr (_generate_summary sent_tokenize (_clean_text text) 3));
         ("keywords",
          VList (map VStr (_extract_keywords word_tokenize stop_words (_clean_text text) 10)));
         ("metadata", metadata_dict (metadata doc)) ].
Proof.
  intros Htext Hblank doc Henc Hidx. cbv zeta. unfold load_pdf.
  rewrite Htext. apply String.eqb_neq in Hblank. rewrite Hblank.
  fold doc. rewrite Henc, Hidx. cbn [snd documents faiss_indexes].
  split; [apply DataAgentFacts.storage_get_set_same |].
  split; [apply DataAgentFacts.storage_get_set_same |].
  split.
  - intros other Ho.
    split; apply DataAgentFacts.storage_get_set_other; congruence.
  - split.
    + intros Hself name d Hget. cbn [documents faiss_indexes] in *.
      destruct (String.eqb file_name name) eqn:E.
      * apply String.eqb_eq in E. subst name.
        rewrite DataAgentFacts.storage_get_set_same. eauto.
      * apply String.eqb_neq in E.
        rewrite DataAgentFacts.storage_get_set_other in Hget by exact E.
        rewrite DataAgentFacts.storage_get_set_other by exact E. eauto.
    + unfold summarize_document. cbn [documents].
      rewrite DataAgentFacts.storage_get_set_same. reflexivity.
Qed.

(** X21: the document is stored before its chunks are encoded.  When the
    encoder or the index construction raises, the load reports the
    failure and the document stays stored without an index; on an agent
    that held no document before, every question and every search then
    fails with the [KeyError] of the missing index. *)
Theorem failed_indexing_leaves_the_document_stored
    (self : agent R) (file_path file_name text e : string) :
  _extract_text_from_pdf R ix file_path = Return text ->
  strip text <> "" ->
  let doc := _process_document sent_tokenize word_tokenize stop_words text file_name in
  encode_chunks ix (map chunk_text (chunks doc)) = Raise e
  \/ (exists embeddings,
        encode_chunks ix (map chunk_text (chunks doc)) = Return embeddings
        /\ create_index ix embeddings = Raise e) ->
  let loaded :=
    {| documents := DataAgent.storage_set (documents self) file_name doc;
       faiss_indexes := faiss_indexes self |} in
  load_pdf sent_tokenize word_tokenize stop_words R ix self file_path file_name
  = (DataAgent.error_result ("Failed to process PDF: " ++ e), loaded)
  /\ (documents self = [] ->
      forall question emb top_k key_error,
        encode R question = Return emb ->
        lookup (faiss_indexes self) file_name = Raise key_error ->
        answer_question sent_tokenize R loaded question None top_k
        = DataAgent.error_result ("Failed to answer question: " ++ key_error)
        /\ search_documents R loaded question top_k
           = DataAgent.error_result ("Search failed: " ++ key_error)).
Proof.
  intros Htext Hblank doc Hfail. cbv zeta. split.
  - unfold load_pdf. rewrite Htext. apply String.eqb_neq in Hblank. rewrite Hblank.
    fold doc. destruct Hfail as [-> | [embeddings [-> ->]]]; reflexivity.
  - intros Hd question emb top_k key_error Henc Hkey.
    unfold answer_question, search_documents, answer_top_results, search_all_results.
    cbn [documents faiss_indexes]. rewrite Hd. cbn [DataAgent.storage_set map fst fold_left].
    rewrite Henc. cbn [bind]. rewrite Hkey. split; reflexivity.
Qed.

End Loading.

Lemma loaded_pdf_is_stored_and_indexed_witness :
  _extract_text_from_pdf Examples.fixed_retrieval Examples.paper_reader "/tmp/up/paper.pdf"
  = Return Examples.paper_text
  /\ strip Examples.paper_text <> ""
  /\ summarize_document Examples.fixed_retrieval
       (snd (load_pdf Examples.split_sentences split_ws Examples.few_stop_words
               Examples.fixed_retrieval Examples.paper_reader Examples.no_documents
               "/tmp/up/paper.pdf" "paper.pdf"))
       "paper.pdf"
     = [ ("success", VBool true);
         ("document_name", VStr "paper.pdf");
         ("title", VStr "Sleep in cats and dogs");
         ("summary",
          VStr "Sleep in cats and dogs Cats sleep all day. Dogs bark at night. Birds sing at dawn.");
         ("keywords",
          VList (map VStr ["sleep"; "cats"; "dogs"; "bark"; "quick"; "brown"; "jumps"; "lazy";
                           "quiet"; "river"]));
         ("metadata",
          metadata_dict {| word_count := 31; sentence_count := 4;
                           total_pages := 1; chunk_count := 1 |}) ].
Proof.
  assert (Hblank : strip Examples.paper_text <> "") by (vm_compute; discriminate).
  split; [reflexivity |]. split; [exact Hblank |].
  destruct (loaded_pdf_is_stored_and_indexed Examples.split_sentences split_ws
              Examples.few_stop_words Examples.fixed_retrieval Examples.paper_reader
              Examples.no_documents "/tmp/up/paper.pdf" "paper.pdf" Examples.paper_text
              tt tt eq_refl Hblank eq_refl eq_refl) as [_ [_ [_ [_ H]]]].
  rewrite H. vm_compute. reflexivity.
Defined.

Lemma failed_indexing_leaves_the_document_stored_witness :
  _extract_text_from_pdf Examples.fixed_retrieval Examples.failing_encoder "/tmp/up/paper.pdf"
  = Return Examples.paper_text
  /\ strip Examples.paper_text <> ""
  /\ fst (load_pdf Examples.split_sentences split_ws Examples.few_stop_words
            Examples.fixed_retrieval Examples.failing_encoder Examples.no_documents
            "/tmp/up/paper.pdf" "paper.pdf")
     = DataAgent.error_result "Failed to process PDF: out of memory"
  /\ search_documents Examples.fixed_retrieval
       (snd (load_pdf Examples.split_sentences split_ws Examples.few_stop_words
               Examples.fixed_retrieval Examples.failing_encoder Examples.no_documents
               "/tmp/up/paper.pdf" "paper.pdf"))
       "sleep" 5
     = DataAgent.error_result "Search failed: 'paper.pdf'".
Proof.
  assert (Hblank : strip Examples.paper_text <> "") by (vm_compute; discriminate).
  split; [reflexivity |]. split; [exact Hblank |].
  destruct (failed_indexing_leaves_the_document_stored Examples.split_sentences split_ws
              Examples.few_stop_words Examples.fixed_retrieval Examples.failing_encoder
              Examples.no_documents "/tmp/up/paper.pdf" "paper.pdf" Examples.paper_text
              "out of memory" eq_refl Hblank (or_introl eq_refl)) as [H K].
  rewrite H. cbn [fst snd]. split; [reflexivity |].
  exact (proj2 (K eq_refl "sleep" tt 5 "'paper.pdf'" eq_refl eq_refl)).
Defined.

(** ** Hits and chunks *)

Section Hits.

Variable sent_tokenize : string -> list string.
Variable word_tokenize : string -> list string.
Variable stop_words : list string.

Lemma processed_chunk_at_its_id (text file_name : string) (c : chunk) :
  In c (chunks (_process_document sent_tokenize word_tokenize stop_words text file_name)) ->
  nth_error (chunks (_process_document sent_tokenize word_tokenize stop_words text file_name))
    (chunk_id c) = Some c.
Proof.
  unfold _process_document. cbn [chunks]. unfold _split_into_chunks.
  rewrite (split_loop 500 50 (sent_tokenize (_clean_text text)) [] "" []).
  cbn [app List.length]. intro Hin. apply In_nth_error in Hin. destruct Hin as [k Hk].
  now rewrite (chunks_of_groups_ids 0 _ k c Hk).
Qed.

(** X22: in a processed document the [chunk_id] a result carries is the place
    of its chunk in the document's list: the text of an answer chunk is
    the text of the chunk at that place, and the text of a search result
    its first 200 characters followed by three dots. *)
Theorem result_names_the_chunk_it_shows
    (text file_name doc_name : string) (found : list (float * Z)) :
  let doc := _process_document sent_tokenize word_tokenize stop_words text file_name in
  (forall hits, answer_hits doc doc_name found = Return hits ->
     Forall (fun h => exists c, nth_error (chunks doc) (a_chunk_id h) = Some c
                                /\ a_text h = chunk_text c) hits)
  /\ (forall hits, search_hits doc doc_name found = Return hits ->
        Forall (fun h => exists c, nth_error (chunks doc) (s_chunk_id h) = Some c
                                   /\ s_text h = (take 200 (chunk_text c) ++ "...")%string)
          hits).
Proof.
  cbv zeta. split; intros hits Hrun.
  - refine (guarded_hits_from _ _ _ found hits _ Hrun).
    intros score idx c _ Hc. exists c. cbn [a_chunk_id a_text].
    split; [now apply processed_chunk_at_its_id | reflexivity].
  - refine (guarded_hits_from _ _ _ found hits _ Hrun).
    intros score idx c _ Hc. exists c. cbn [s_chunk_id s_text].
    split; [now apply processed_chunk_at_its_id | reflexivity].
Qed.

End Hits.

(** ** Examples *)

(** Dropping a character can leave two spaces side by side; a text of
    three characters is dropped whole. *)
Example clean_text_examples :
  _clean_text ("Cats  &" ++ String newline "dogs [1] sleep.") = "Cats  dogs 1 sleep."
  /\ _clean_text " ok.  " = "".
Proof. split; reflexivity. Qed.

Lemma rejected_pdf_changes_nothing_witness :
  load_pdf Examples.split_sentences split_ws Examples.few_stop_words
    Examples.fixed_retrieval Examples.paper_reader Examples.notes_agent
    "/tmp/up/missing.pdf" "missing.pdf"
  = (DataAgent.error_result
       "Failed to process PDF: Failed to extract text with both methods: no such file: /tmp/up/missing.pdf, No such file: /tmp/up/missing.pdf",
     Examples.notes_agent).
Proof.
  destruct (rejected_pdf_changes_nothing Examples.split_sentences split_ws
              Examples.few_stop_words Examples.fixed_retrieval Examples.paper_reader
              Examples.notes_agent "/tmp/up/missing.pdf" "missing.pdf") as [H _].
  exact (H _ eq_refl).
Defined.

Lemma answer_is_a_sentence_of_the_context_witness :
  Examples.split_sentences Examples.four_sentences <> []
  /\ In (_generate_answer Examples.split_sentences "How do dogs behave?"
           Examples.four_sentences)
       (Examples.split_sentences Examples.four_sentences)
  /\ _generate_answer Examples.split_sentences "How do dogs behave?" Examples.four_sentences
     = "Cats sleep all day.".
Proof.
  assert (Hne : Examples.split_sentences Examples.four_sentences <> [])
    by (vm_compute; discriminate).
  split; [exact Hne |]. split; [| reflexivity].
  exact (proj2 (answer_is_a_sentence_of_the_context Examples.split_sentences
                  "How do dogs behave?" Examples.four_sentences) Hne).
Defined.

End ResearchFacts.

(* ================================================================== *)
(** * Dispatch *)
(* ================================================================== *)

Module OrchestratorFacts.
Import Py Router Orchestrator.

(** ** No agent answers with the clarification prompt *)

Lemma aggregation_no_prompt (lib : DataAgent.libraries) (df : DataAgent.DataFrame)
    (query : string) (op : DataAgent.operation) :
  dict_get
    (try_except (DataAgent._handle_aggregation_query lib df query op)
       (fun e => DataAgent.error_result ("Failed to process query: " ++ e)))
    "ambiguous" = None.
Proof.
  assert (Hall : dict_get
                   (try_except (DataAgent.aggregate_all lib df op)
                      (fun e => DataAgent.error_result ("Failed to process query: " ++ e)))
                   "ambiguous" = None).
  { unfold DataAgent.aggregate_all.
    match goal with
    | |- context [fold_left ?f ?l ?a] => destruct (fold_left f l a)
    end; reflexivity. }
  unfold DataAgent._handle_aggregation_query.
  destruct (DataAgent.find_mentioned df (lower query)) as [target|]; [| exact Hall].
  destruct (negb (String.eqb target "")
            && DataAgent.mem target (DataAgent.numeric_columns df)); [| exact Hall].
  destruct (DataAgent.aggregate lib df op target); reflexivity.
Qed.

Lemma data_answer_no_prompt (lib : DataAgent.libraries) (self : DataAgent.agent)
    (query : string) (dataset_name : option string) :
  dict_get (fst (DataAgent.process_query lib self query dataset_name)) "ambiguous" = None.
Proof.
  unfold DataAgent.process_query.
  destruct (DataAgent.target_frame self dataset_name) as [df|]; [| reflexivity].
  cbn [fst]. unfold DataAgent.dispatch.
  repeat match goal with
         | |- context [if any_in ?w ?q then _ else _] => destruct (any_in w q)
         end; try apply aggregation_no_prompt.
  - reflexivity.
  - unfold DataAgent._handle_visualization_query.
    destruct (map DataAgent.col_name _) as [|c0 [|c1 r]].
    + destruct (DataAgent.numeric_columns df) as [|n0 [|n1 nr]];
        destruct (DataAgent.object_columns df); reflexivity.
    + destruct (DataAgent.frame_get df c0) as [c|]; [destruct (DataAgent.is_object c) |];
        reflexivity.
    + reflexivity.
  - unfold DataAgent._handle_trend_query.
    destruct (map DataAgent.col_name _) as [|date_col r]; [reflexivity |].
    destruct (DataAgent.numeric_columns df) as [|value_col nr]; [reflexivity |].
    destruct (DataAgent.sort_by_date lib df date_col); reflexivity.
  - unfold DataAgent._handle_ranking_query.
    match goal with
    | |- context [match ?t with Some _ => _ | None => _ end] =>
        destruct t as [target|]; [| reflexivity]
    end.
    destruct (String.eqb target ""); [reflexivity |].
    match goal with
    | |- context [DataAgent.select_n ?a ?n ?c ?d] => destruct (DataAgent.select_n a n c d)
    end; reflexivity.
  - reflexivity.
  - reflexivity.
Qed.

Section Routing.

Variable lib : DataAgent.libraries.
Variable sent_tokenize : string -> list string.
Variable R : Research.retrieval.
Variable load_data : DataAgent.agent -> string -> string -> pydict * DataAgent.agent.
Variable load_pdf : Research.agent R -> string -> string -> pydict * Research.agent R.

Let route_research := _route_to_research_agent sent_tokenize R load_pdf.
Let handle := process_query lib sent_tokenize R load_data load_pdf.

Lemma research_answer_no_prompt (agent : Research.agent R) (query : string) :
  dict_get
    (if any_in ["summarize"; "summary"; "abstract"] (lower query)
     then
       match map fst (Research.documents agent) with
       | name :: _ => Research.summarize_document R agent name
       | [] => DataAgent.error_result "No documents loaded for summarization"
       end
     else if any_in ["search"; "find"; "locate"] (lower query)
     then Research.search_documents R agent query 5
     else Research.answer_question sent_tokenize R agent query None 3)
    "ambiguous" = None.
Proof.
  destruct (any_in ["summarize"; "summary"; "abstract"] (lower query)).
  - destruct (map fst (Research.documents agent)) as [|name r]; [reflexivity |].
    unfold Research.summarize_document.
    destruct (DataAgent.storage_get (Research.documents agent) name); reflexivity.
  - destruct (any_in ["search"; "find"; "locate"] (lower query)).
    + unfold Research.search_documents.
      destruct (Research.documents agent); [reflexivity |].
      unfold try_except, bind.
      destruct (Research.search_all_results R agent query 5); reflexivity.
    + unfold Research.answer_question.
      destruct (Research.documents agent); [reflexivity |].
      unfold try_except, bind.
      destruct (Research.answer_top_results R agent query _ 3); reflexivity.
Qed.

(** A query classified Ambiguous carries the fixed confidence and
    rationale. *)
Lemma classified_ambiguous (query : string) (ctx : option context) :
  fst (fst (_classify_query query ctx)) = AMBIGUOUS ->
  _classify_query query ctx = (AMBIGUOUS, f0_5, "Similar scores for both agents").
Proof.
  unfold _classify_query.
  repeat match goal with
         | |- context [if ?b then _ else _] => destruct b
         end; cbn [fst]; intro H; try discriminate H; reflexivity.
Qed.

(** C4: a query classified Ambiguous is answered from the stores as they
    are.  With datasets and no document it is the tabular analyzer's
    answer to the query, and with documents and no dataset the document
    analyzer's, each tagged with its agent and never the clarification
    prompt; with both loaded it is the prompt; with nothing loaded it is
    the upload error.  So the prompt appears only when both stores are
    non-empty. *)
Theorem ambiguous_routes_by_loaded_state
    (self : orchestrator R) (query : string) (ctx : option context) :
  fst (fst (_classify_query query ctx)) = AMBIGUOUS ->
  let has_data := nonempty (DataAgent.data_storage (data_agent R self)) in
  let has_docs := nonempty (Research.documents (research_agent R self)) in
  let info := orchestrator_info AMBIGUOUS f0_5 "Similar scores for both agents" in
  (has_data = true -> has_docs = false ->
   handle self query ctx
   = (dict_set
        (dict_set (fst (DataAgent.process_query lib (data_agent R self) query None))
           "agent" (VStr "data_intelligence"))
        "orchestrator_info" info,
      self))
  /\ (has_data = false -> has_docs = true ->
      handle self query ctx
      = (dict_set (fst (route_research self query ctx)) "orchestrator_info" info, self)
        /\ dict_get (fst (route_research self query ctx)) "agent"
           = Some (VStr "research_assistant"))
  /\ (has_data = true -> has_docs = true ->
      dict_get (fst (handle self query ctx)) "ambiguous" = Some (VBool true)
      /\ snd (handle self query ctx) = self)
  /\ (has_data = false -> has_docs = false ->
      handle self query ctx
      = ([ ("error", VStr "No data files or documents loaded. Please upload files first.");
           ("suggestion",
            VStr "Upload CSV/Excel files for data analysis or PDF files for research queries");
           ("orchestrator_info", info) ],
         self))
  /\ (dict_get (fst (handle self query ctx)) "ambiguous" = Some (VBool true) ->
      has_data = true /\ has_docs = true).
Proof.
  intros Hamb. cbv zeta.
  pose proof (classified_ambiguous query ctx Hamb) as Hc.
  unfold handle, route_research. unfold process_query. rewrite Hc. cbn [route].
  unfold _handle_ambiguous_query.
  destruct self as [da ra]. cbn [data_agent research_agent].
  destruct (DataAgent.data_storage da) as [|d0 dr] eqn:Ed;
    destruct (Research.documents ra) as [|r0 rr] eqn:Er;
    cbn [nonempty andb negb].
  - (* nothing loaded *)
    split; [intros; congruence |]. split; [intros; congruence |].
    split; [intros; congruence |]. split; [reflexivity |].
    cbn [fst dict_set dict_get String.eqb Ascii.eqb Bool.eqb]. intro H. discriminate H.
  - (* documents only *)
    assert (Hroute : _route_to_research_agent sent_tokenize R load_pdf
                       {| data_agent := da; research_agent := ra |} query ctx
                     = (dict_set
                          (if any_in ["summarize"; "summary"; "abstract"] (lower query)
                           then
                             match map fst (Research.documents ra) with
                             | name :: _ => Research.summarize_document R ra name
                             | [] => DataAgent.error_result
                                       "No documents loaded for summarization"
                             end
                           else if any_in ["search"; "find"; "locate"] (lower query)
                           then Research.search_documents R ra query 5
                           else Research.answer_question sent_tokenize R ra query None 3)
                          "agent" (VStr "research_assistant"),
                        {| data_agent := da; research_agent := ra |})).
    { unfold _route_to_research_agent. cbn [research_agent data_agent]. rewrite Er.
      reflexivity. }
    rewrite Hroute. cbn [fst snd].
    split; [intros; congruence |]. split.
    { intros _ _. split; [reflexivity | apply PyFacts.dict_get_set_same]. }
    split; [intros; congruence |]. split; [intros; congruence |].
    intro H. exfalso.
    rewrite PyFacts.dict_get_set_other in H by discriminate.
    rewrite PyFacts.dict_get_set_other in H by discriminate.
    rewrite research_answer_no_prompt in H. discriminate H.
  - (* datasets only *)
    assert (Hroute : _route_to_data_agent lib R load_data
                       {| data_agent := da; research_agent := ra |} query ctx
                     = (dict_set (fst (DataAgent.process_query lib da query None))
                          "agent" (VStr "data_intelligence"),
                        {| data_agent := da; research_agent := ra |})).
    { unfold _route_to_data_agent. cbn [research_agent data_agent]. rewrite Ed.
      unfold DataAgent.process_query.
      destruct (DataAgent.target_frame da None); reflexivity. }
    rewrite Hroute. cbn [fst snd].
    split; [intros _ _; reflexivity |].
    split; [intros; congruence |]. split; [intros; congruence |].
    split; [intros; congruence |].
    intro H. exfalso.
    rewrite PyFacts.dict_get_set_other in H by discriminate.
    rewrite PyFacts.dict_get_set_other in H by discriminate.
    rewrite data_answer_no_prompt in H. discriminate H.
  - (* both loaded *)
    split; [intros; congruence |]. split; [intros; congruence |].
    split; [intros _ _; split; reflexivity |].
    split; [intros; congruence |].
    intros _. split; reflexivity.
Qed.

End Routing.

(** The context lists a document, the store holds none: the query goes
    to the tabular analyzer. *)
Lemma ambiguous_routes_by_loaded_state_witness :
  fst (fst (_classify_query "what is the total Revenue" (Some Examples.both_listed)))
  = AMBIGUOUS
  /\ process_query Examples.plain_libraries Examples.split_sentences
       Examples.fixed_retrieval Examples.cannot_load_data Examples.cannot_load_pdf
       Examples.sales_orchestrator "what is the total Revenue" (Some Examples.both_listed)
     = ([ ("success", VBool true);
          ("result", VInt 2955);
          ("message", VStr "The sum of Revenue is 2,955.00");
          ("query_type", VStr "aggregation");
          ("agent", VStr "data_intelligence");
          ("orchestrator_info",
           VDict [ ("query_type", VStr "ambiguous");
                   ("confidence", VFloat f0_5);
                   ("reasoning", VStr "Similar scores for both agents");
                   ("agent_used", VStr "Orchestrator Agent") ]) ],
        Examples.sales_orchestrator).
Proof.
  assert (Hc : fst (fst (_classify_query "what is the total Revenue"
                           (Some Examples.both_listed))) = AMBIGUOUS)
    by (vm_compute; reflexivity).
  split; [exact Hc |].
  destruct (ambiguous_routes_by_loaded_state Examples.plain_libraries
              Examples.split_sentences Examples.fixed_retrieval
              Examples.cannot_load_data Examples.cannot_load_pdf
              Examples.sales_orchestrator "what is the total Revenue"
              (Some Examples.both_listed) Hc) as [H _].
  rewrite H by reflexivity. vm_compute. reflexivity.
Defined.

(** ** File handling *)

Section Files.

Variable lib : DataAgent.libraries.
Variable rd : DataAgent.readers.
Variable sent_tokenize : string -> list string.
Variable word_tokenize : string -> list string.
Variable stop_words : list string.
Variable R : Research.retrieval.
Variable ix : Research.indexing R.

(** X23: after [clear_all_data] nothing is answered from the old files: every
    query to the tabular analyzer gets the "No dataset loaded" error,
    although [current_dataset] still names the last file loaded; every
    question and search gets "No documents loaded"; an ambiguous query
    gets the upload error; and the list of loaded files is empty. *)
Theorem cleared_system_answers_nothing
    (self : orchestrator R) (query : string) (ctx : option context)
    (dataset_name document_name : option string) (top_k : nat) :
  let cleared := snd (clear_all_data R self) in
  fst (DataAgent.process_query lib (data_agent R cleared) query dataset_name)
  = DataAgent.error_result "No dataset loaded. Please upload a file first."
  /\ DataAgent.current_dataset (data_agent R cleared)
     = DataAgent.current_dataset (data_agent R self)
  /\ Research.answer_question sent_tokenize R (research_agent R cleared) query
       document_name top_k
     = DataAgent.error_result "No documents loaded"
  /\ Research.search_documents R (research_agent R cleared) query top_k
     = DataAgent.error_result "No documents loaded"
  /\ fst (_handle_ambiguous_query lib sent_tokenize R
            (DataAgent.load_data lib rd)
            (Research.load_pdf sent_tokenize word_tokenize stop_words R ix)
            cleared query ctx)
     = [ ("error", VStr "No data files or documents loaded. Please upload files first.");
         ("suggestion",
          VStr "Upload CSV/Excel files for data analysis or PDF files for research queries") ]
  /\ get_loaded_files R cleared = [ ("datasets", VList []); ("documents", VList []) ].
Proof.
  cbv zeta. unfold clear_all_data. cbn [snd data_agent research_agent].
  split; [| repeat split].
  unfold DataAgent.process_query.
  now rewrite DataAgentFacts.target_frame_nothing_loaded by reflexivity.
Qed.

(** X24: a table waiting in the context is read only when the tabular
    analyzer holds nothing.  With a dataset already stored the waiting
    file is ignored and the query answered from what is loaded; with the
    store empty the file is loaded first: a file of another format ends
    the request with the load error, untagged and with the query
    unanswered, and a CSV or Excel file that loads is stored and made
    current.  The query is then answered from it, unless the file has
    the empty name: then the answer is the "No dataset loaded" error,
    the file just stored notwithstanding. *)
Theorem waiting_table_is_read_into_an_empty_store
    (self : orchestrator R) (query : string) (c : context) (file_path file_name : string) :
  pending_data_file c = Some (file_path, file_name) ->
  let route := _route_to_data_agent lib R (DataAgent.load_data lib rd) in
  let file_extension := lower (DataAgent.path_suffix rd file_path) in
  (DataAgent.data_storage (data_agent R self) <> [] ->
   route self query (Some c)
   = (dict_set (fst (DataAgent.process_query lib (data_agent R self) query None))
        "agent" (VStr "data_intelligence"),
      self))
  /\ (DataAgent.data_storage (data_agent R self) = [] ->
      file_extension <> ".csv" -> file_extension <> ".xlsx" -> file_extension <> ".xls" ->
      route self query (Some c)
      = (DataAgent.error_result ("Unsupported file format: " ++ file_extension), self))
  /\ (forall df,
        DataAgent.data_storage (data_agent R self) = [] ->
        (file_extension = ".csv" /\ DataAgent.read_csv rd file_path = Return df)
        \/ ((file_extension = ".xlsx" \/ file_extension = ".xls")
            /\ DataAgent.read_excel rd file_path = Return df) ->
        let loaded := snd (DataAgent.load_data lib rd (data_agent R self) file_path file_name) in
        DataAgent.storage_get (DataAgent.data_storage loaded) file_name = Some df
        /\ DataAgent.current_dataset loaded = Some file_name
        /\ route self query (Some c)
           = (dict_set
                (if String.eqb file_name ""
                 then DataAgent.error_result "No dataset loaded. Please upload a file first."
                 else try_except (DataAgent.dispatch lib loaded df query)
                        (fun e => DataAgent.error_result ("Failed to process query: " ++ e)))
                "agent" (VStr "data_intelligence"),
              {| data_agent := loaded; research_agent := research_agent R self |})).
Proof.
  intro Hpending. cbv zeta. destruct self as [da ra]. cbn [data_agent research_agent].
  unfold _route_to_data_agent. cbn [data_agent research_agent].
  split; [| split].
  - intro Hne. destruct (DataAgent.data_storage da) as [|d ds]; [contradiction |].
    unfold DataAgent.process_query.
    destruct (DataAgent.target_frame da None); reflexivity.
  - intros Hempty H1 H2 H3. rewrite Hempty, Hpending.
    apply String.eqb_neq in H1, H2, H3.
    unfold DataAgent.load_data, DataAgent.mem. cbn [existsb].
    rewrite H1, H2, H3. reflexivity.
  - intros df Hempty Hread. rewrite Hempty, Hpending.
    rewrite (DataAgentFacts.load_data_stores lib rd da file_path file_name df Hread).
    cbn [snd DataAgent.data_storage DataAgent.current_dataset].
    split; [apply DataAgentFacts.storage_get_set_same |]. split; [reflexivity |].
    unfold dict_has. cbn [dict_get].
    change (String.eqb "success" "error") with false.
    change (String.eqb "message" "error") with false.
    change (String.eqb "info" "error") with false. cbv iota.
    unfold DataAgent.process_query, DataAgent.target_frame.
    cbn [DataAgent.current_dataset DataAgent.data_storage].
    destruct (String.eqb file_name ""); [reflexivity |].
    rewrite DataAgentFacts.storage_get_set_same. reflexivity.
Qed.

End Files.

Lemma waiting_table_is_read_into_an_empty_store_witness :
  pending_data_file Examples.sales_pending = Some ("/tmp/up/sales.CSV", "sales.CSV")
  /\ fst (_route_to_data_agent Examples.plain_libraries Examples.fixed_retrieval
            (DataAgent.load_data Examples.plain_libraries Examples.sales_disk)
            Examples.fresh_orchestrator "count the records" (Some Examples.sales_pending))
     = [ ("success", VBool true);
         ("result", VInt 5);
         ("message", VStr "Total number of records: 5");
         ("query_type", VStr "count");
         ("agent", VStr "data_intelligence") ].
Proof.
  split; [reflexivity |].
  destruct (waiting_table_is_read_into_an_empty_store Examples.plain_libraries
              Examples.sales_disk Examples.fixed_retrieval Examples.fresh_orchestrator
              "count the records" Examples.sales_pending "/tmp/up/sales.CSV" "sales.CSV"
              eq_refl) as [_ [_ H]].
  destruct (H Examples.sales eq_refl (or_introl (conj eq_refl eq_refl))) as [_ [_ K]].
  rewrite K. vm_compute. reflexivity.
Defined.

(** A table uploaded under the empty name is stored, and the query that
    came with it is told that nothing is loaded. *)
Example waiting_table_without_a_name :
  fst (_route_to_data_agent Examples.plain_libraries Examples.fixed_retrieval
         (DataAgent.load_data Examples.plain_libraries Examples.sales_disk)
         Examples.fresh_orchestrator "count the records"
         (Some {| loaded_datasets := []; loaded_documents := [];
                  pending_data_file := Some ("/tmp/up/sales.CSV", "");
                  pending_pdf_file := None |}))
  = [ ("error", VStr "No dataset loaded. Please upload a file first.");
      ("agent", VStr "data_intelligence") ].
Proof. vm_compute. reflexivity. Qed.

(** ** Summaries *)

(** X25: a request for a summary is answered with the summary of the document
    loaded first, whatever the query names, and always succeeds when a
    document is loaded; a file waiting in the context is not read. *)
Theorem summary_request_takes_the_first_document
    (sent_tokenize : string -> list string) (R : Research.retrieval)
    (load_pdf : Research.agent R -> string -> string -> pydict * Research.agent R)
    (self : orchestrator R) (query : string) (ctx : option context)
    (name : string) (doc : Research.document) (rest : list (string * Research.document)) :
  Research.documents (research_agent R self) = (name, doc) :: rest ->
  any_in ["summarize"; "summary"; "abstract"] (lower query) = true ->
  _route_to_research_agent sent_tokenize R load_pdf self query ctx
  = ([ ("success", VBool true);
       ("document_name", VStr name);
       ("title", VStr (Research.title doc));
       ("summary", VStr (Research.summary doc));
       ("keywords", VList (map VStr (Research.keywords doc)));
       ("metadata", Research.metadata_dict (Research.metadata doc));
       ("agent", VStr "research_assistant") ],
     self).
Proof.
  intros Hdocs Hany. unfold _route_to_research_agent. rewrite Hdocs, Hany.
  cbn [map fst]. unfold Research.summarize_document. rewrite Hdocs.
  cbn [DataAgent.storage_get]. rewrite String.eqb_refl.
  destruct ctx; reflexivity.
Qed.

Lemma summary_request_takes_the_first_document_witness :
  Research.documents (research_agent Examples.fixed_retrieval Examples.notes_orchestrator)
  = [("notes.pdf", Examples.two_chunk_document)]
  /\ any_in ["summarize"; "summary"; "abstract"] (lower "Summarize report.pdf") = true
  /\ dict_get
       (fst (_route_to_research_agent Examples.split_sentences Examples.fixed_retrieval
               Examples.cannot_load_pdf Examples.notes_orchestrator
               "Summarize report.pdf" None))
       "document_name"
     = Some (VStr "notes.pdf").
Proof.
  split; [reflexivity |]. split; [reflexivity |].
  rewrite (summary_request_takes_the_first_document Examples.split_sentences
             Examples.fixed_retrieval Examples.cannot_load_pdf Examples.notes_orchestrator
             "Summarize report.pdf" None "notes.pdf" Examples.two_chunk_document []
             eq_refl eq_refl).
  reflexivity.
Defined.

(** ** The status *)

Lemma storage_set_nonempty {V : Type} (st : list (string * V)) (k : string) (v : V) :
  nonempty (DataAgent.storage_set st k v) = true.
Proof.
  destruct st as [|[k0 v0] r]; cbn [DataAgent.storage_set]; [reflexivity |].
  destruct (String.eqb k0 k); reflexivity.
Qed.

(** X26: a table loaded through the orchestrator shows in the system status:
    the tabular analyzer is reported ready and the file is listed, in the
    place it already had or at the end; the document side of the status
    is as before. *)
Theorem loaded_table_shows_in_the_status
    (lib : DataAgent.libraries) (rd : DataAgent.readers) (R : Research.retrieval)
    (self : orchestrator R) (file_path file_name : string) (df : DataAgent.DataFrame) :
  (lower (DataAgent.path_suffix rd file_path) = ".csv"
   /\ DataAgent.read_csv rd file_path = Return df)
  \/ ((lower (DataAgent.path_suffix rd file_path) = ".xlsx"
       \/ lower (DataAgent.path_suffix rd file_path) = ".xls")
      /\ DataAgent.read_excel rd file_path = Return df) ->
  let loaded := snd (load_data_file lib rd R self file_path file_name) in
  let listed := DataAgent.list_datasets (data_agent R self) in
  _get_system_status R loaded
  = [ ("success", VBool true);
      ("system_status",
       VDict [ ("loaded_datasets",
                VList (map VStr (if DataAgent.mem file_name listed
                                 then listed else listed ++ [file_name])));
               ("loaded_documents",
                VList (map VStr (map fst (Research.documents (research_agent R self)))));
               ("data_agent_ready", VBool true);
               ("research_agent_ready",
                VBool (nonempty (Research.documents (research_agent R self)))) ]) ]
  /\ research_agent R loaded = research_agent R self.
Proof.
  intro Hread. cbv zeta. unfold load_data_file.
  rewrite (DataAgentFacts.load_data_stores lib rd (data_agent R self) _ _ df Hread).
  cbn [snd]. unfold _get_system_status. cbn [data_agent research_agent DataAgent.data_storage].
  rewrite storage_set_nonempty, DataAgentFacts.storage_set_listing.
  split; reflexivity.
Qed.

Lemma loaded_table_shows_in_the_status_witness :
  lower (DataAgent.path_suffix Examples.sales_disk "/tmp/up/sales.CSV") = ".csv"
  /\ DataAgent.read_csv Examples.sales_disk "/tmp/up/sales.CSV" = Return Examples.sales
  /\ _get_system_status Examples.fixed_retrieval
       (snd (load_data_file Examples.plain_libraries Examples.sales_disk
               Examples.fixed_retrieval Examples.notes_orchestrator
               "/tmp/up/sales.CSV" "sales.CSV"))
     = [ ("success", VBool true);
         ("system_status",
          VDict [ ("loaded_datasets", VList [VStr "sales.CSV"]);
                  ("loaded_documents", VList [VStr "notes.pdf"]);
                  ("data_agent_ready", VBool true);
                  ("research_agent_ready", VBool true) ]) ].
Proof.
  split; [reflexivity |]. split; [reflexivity |].
  rewrite (proj1 (loaded_table_shows_in_the_status Examples.plain_libraries
                    Examples.sales_disk Examples.fixed_retrieval Examples.notes_orchestrator
                    "/tmp/up/sales.CSV" "sales.CSV" Examples.sales
                    (or_introl (conj eq_refl eq_refl)))).
  reflexivity.
Defined.

End OrchestratorFacts.
